(** * smelly-weather: the data-quality validator, the extractor and the
      monitoring integrator, embedded in Rocq.

    Sources embedded here:
    - [src/extractors/weather_api.py]   (module [Extractor])
    - [src/validators/quality_checks.py] (module [Validator])
    - [src/monitoring/integrator.py]     (module [Integrator])

    Numbers.  The program computes on IEEE doubles.  A measurement cell of a
    DataFrame is modelled as [option Q]: a finite value, or [None] for a
    missing cell (pandas stores it as NaN).  Arithmetic on finite values is
    exact rational arithmetic; the special values that numpy produces when a
    division has a zero divisor (inf, NaN) are modelled explicitly by
    [npfloat].  Rounding is not modelled. *)

From Stdlib Require Import QArith Qabs ZArith List String Bool Lia.
Import ListNotations.
Local Open Scope string_scope.
Local Open Scope Q_scope.
Local Open Scope list_scope.

(** ** Python results and exceptions *)

(** The exception classes the sources distinguish in their [except]
    clauses.  Every constructor is a subclass of [Exception]. *)
Inductive exn : Type :=
| Timeout (msg : string)            (* requests.exceptions.Timeout *)
| RequestException (msg : string)   (* any other requests.exceptions.RequestException *)
| PyException (cls msg : string).   (* any other subclass of Exception *)

(** [isinstance(e, requests.exceptions.RequestException)]; [Timeout] is a
    subclass of [RequestException]. *)
Definition is_RequestException (e : exn) : bool :=
  match e with
  | Timeout _ | RequestException _ => true
  | PyException _ _ => false
  end.

Inductive result (A : Type) : Type :=
| Return (a : A)
| Raise (e : exn).
Arguments Return {A} a.
Arguments Raise {A} e.

Definition rbind {A B} (r : result A) (k : A -> result B) : result B :=
  match r with
  | Return a => k a
  | Raise e => Raise e
  end.

(** ** Finite-or-NaN arithmetic (pandas / numpy element-wise operations) *)

(** A value after a numpy division: finite, plus or minus infinity, NaN. *)
Inductive npfloat : Type :=
| Finite (q : Q)
| PInf
| NInf
| NaN.

(** [a - b] on cells: NaN when either operand is NaN. *)
Definition nan_sub (a b : option Q) : option Q :=
  match a, b with
  | Some x, Some y => Some (x - y)
  | _, _ => None
  end.

Definition nan_abs (a : option Q) : option Q := option_map Qabs a.

(** [c * a] for a finite constant [c]. *)
Definition nan_scale (c : Q) (a : option Q) : option Q :=
  option_map (Qmult c) a.

Definition Qis_zero (q : Q) : bool := Z.eqb (Qnum q) 0.
Definition Qis_pos (q : Q) : bool := Z.ltb 0 (Qnum q).

(** numpy's float division [a / d] (errors ignored, as pandas does):
    a zero divisor gives NaN for [0 / 0] and a signed infinity otherwise. *)
Definition np_div (a d : option Q) : npfloat :=
  match a, d with
  | Some x, Some y =>
      if Qis_zero y then
        if Qis_zero x then NaN else if Qis_pos x then PInf else NInf
      else Finite (x / y)
  | _, _ => NaN
  end.

Definition np_abs (a : npfloat) : npfloat :=
  match a with
  | Finite q => Finite (Qabs q)
  | PInf | NInf => PInf
  | NaN => NaN
  end.

(** [a > t] for a finite threshold [t]; every comparison with NaN is False. *)
Definition np_gt (a : npfloat) (t : Q) : bool :=
  match a with
  | Finite q => negb (Qle_bool q t)
  | PInf => true
  | NInf => false
  | NaN => false
  end.

(** [a > t] on a finite-or-NaN value. *)
Definition nan_gt (a : option Q) (t : Q) : bool :=
  match a with
  | Some q => negb (Qle_bool q t)
  | None => false
  end.

Definition nan_lt (a : option Q) (t : Q) : bool :=
  match a with
  | Some q => negb (Qle_bool t q)
  | None => false
  end.

(** Sorting of finite values, for the median. *)
Fixpoint Qinsert (x : Q) (l : list Q) : list Q :=
  match l with
  | [] => [x]
  | y :: l' => if Qle_bool x y then x :: l else y :: Qinsert x l'
  end.

Definition Qsort (l : list Q) : list Q := fold_right Qinsert [] l.

(** Median of a list of finite values: the middle element of the sorted
    list, or the mean of the two middle elements; NaN on the empty list. *)
Definition median_finite (l : list Q) : option Q :=
  let s := Qsort l in
  let n := List.length s in
  match n with
  | O => None
  | _ =>
      if Nat.odd n then nth_error s (Nat.div2 n)
      else
        match nth_error s (Nat.div2 n - 1), nth_error s (Nat.div2 n) with
        | Some a, Some b => Some ((a + b) / 2)
        | _, _ => None
        end
  end.

(** The non-missing values of a column ([dropna]). *)
Definition dropna {A} (l : list (option A)) : list A :=
  flat_map (fun c => match c with Some x => [x] | None => [] end) l.

Definition isnull {A} (c : option A) : bool :=
  match c with Some _ => false | None => true end.

(** [Series.median()]: missing values are skipped. *)
Definition series_median (col : list (option Q)) : option Q :=
  median_finite (dropna col).

(** [np.median(values)]: NaN as soon as one value is NaN. *)
Definition np_median (vals : list (option Q)) : option Q :=
  if existsb isnull vals then None else median_finite (dropna vals).

(** [Series.mean()]: missing values are skipped; NaN when none is left.
    The sum is exact here, where the code rounds it to a float. *)
Definition series_mean (col : list (option Q)) : option Q :=
  match dropna col with
  | [] => None
  | x :: xs => Some (fold_left Qplus xs x / inject_Z (Z.of_nat (List.length (x :: xs))))
  end.

(** [Series.max()] on finite-or-NaN values: missing values are skipped. *)
Definition Qmax (a b : Q) : Q := if Qle_bool a b then b else a.

Definition series_max (col : list (option Q)) : option Q :=
  match dropna col with
  | [] => None
  | x :: xs => Some (fold_left Qmax xs x)
  end.

(** [Series.diff()]: the first entry is NaN, entry [i] is [x_i - x_(i-1)]. *)
Fixpoint series_diff_from (prev : option Q) (col : list (option Q)) : list (option Q) :=
  match col with
  | [] => []
  | x :: rest => nan_sub x prev :: series_diff_from x rest
  end.

Definition series_diff (col : list (option Q)) : list (option Q) :=
  series_diff_from None col.

(** ** The DataFrame of weather records *)

(** One row, with the columns of [WeatherData.dict()].  Instants are counted
    in microseconds (the resolution of [datetime]).  The entity key [city] is
    always present; every other cell may be missing. *)
Record WeatherRow : Type := mkRow {
  city : string;
  timestamp : option Z;
  temperature : option Q;
  humidity : option Q;
  pressure : option Q;
  wind_speed : option Q;
  weather_condition : option string
}.

Definition DataFrame : Type := list WeatherRow.

(** [df.empty] *)
Definition df_empty (df : DataFrame) : bool :=
  match df with [] => true | _ => false end.

(** [df[df['city'] == c]] *)
Definition city_slice (df : DataFrame) (c : string) : DataFrame :=
  filter (fun r => String.eqb (city r) c) df.

(** [Series.unique()]: distinct values in order of first appearance. *)
Fixpoint unique (l : list string) : list string :=
  match l with
  | [] => []
  | x :: rest => x :: filter (fun y => negb (String.eqb y x)) (unique rest)
  end.

Definition df_cities (df : DataFrame) : list string := unique (map city df).

(** [df.columns] *)
Definition df_columns : list string :=
  ["city"; "timestamp"; "temperature"; "humidity"; "pressure"; "wind_speed";
   "weather_condition"].

(** A numeric (float64) column by name. *)
Definition numeric_column (name : string) : option (WeatherRow -> option Q) :=
  if String.eqb name "temperature" then Some temperature
  else if String.eqb name "humidity" then Some humidity
  else if String.eqb name "pressure" then Some pressure
  else if String.eqb name "wind_speed" then Some wind_speed
  else None.

(** [row[name].isnull()] for any column by name. *)
Definition cell_isnull (name : string) : option (WeatherRow -> bool) :=
  if String.eqb name "city" then Some (fun _ => false)
  else if String.eqb name "timestamp" then Some (fun r => isnull (timestamp r))
  else if String.eqb name "weather_condition" then
    Some (fun r => isnull (weather_condition r))
  else option_map (fun get r => isnull (get r)) (numeric_column name).

(** ** src/validators/quality_checks.py *)

Module Validator.

(** One entry of [self.validation_rules]. *)
Record rule : Type := mkRule {
  rule_min : Q;
  rule_max : Q;
  std_dev_threshold : Q
}.

Definition temperature_rule : rule := mkRule (-50) 50 3.
Definition humidity_rule : rule := mkRule 0 100 3.
Definition pressure_rule : rule := mkRule 870 1090 3.

(** [self.validation_rules], in the insertion order [items()] iterates in. *)
Definition validation_rules : list (string * rule) :=
  [("temperature", temperature_rule);
   ("humidity", humidity_rule);
   ("pressure", pressure_rule)].

(** An expectation configuration: its type and its kwargs. *)
Inductive expectation : Type :=
| expect_column_values_to_not_be_null (column : string)
| expect_column_values_to_be_between (column : string) (min_value max_value : Q).

(** The issues, one constructor per message format of the source; the
    arguments are the values the f-string interpolates. *)
Inductive issue : Type :=
| DataQualityCheckFailed (kwargs : expectation)
    (* "Data quality check failed: {kwargs}" *)
| DataTooOld (city : string) (age : Z) (max_age_minutes : Z)
    (* "Data for {city} is {int(age)} is minutes old (max allowed: ...)" *)
| AnomalyDetected (column city : string) (value : option Q) (score : npfloat)
    (* "Anomaly detected in {column} for {city}: value {v} is {z} standard deviations ..." *)
| SuspiciousTemperatureHumidity (city : string)
    (* "Suspicious temperature-humidity combination in {city}" *)
| SuspiciousPressureChange (city : string) (pressure_change : Q).
    (* "Suspicious rapid pressure change in {city}: {pressure_change} hPa" *)

Definition columns_to_check : list string :=
  ["city"; "timestamp"; "temperature"; "humidity"; "pressure"; "wind_speed";
   "weather_condition"].

(** [create_expectation_suite]: a null check per column, then the range
    checks the source lists: temperature and humidity. *)
Definition create_expectation_suite : list expectation :=
  let null_check_expectations :=
    map expect_column_values_to_not_be_null columns_to_check in
  let range_check_expectations :=
    [expect_column_values_to_be_between "temperature"
       (rule_min temperature_rule) (rule_max temperature_rule);
     expect_column_values_to_be_between "humidity"
       (rule_min humidity_rule) (rule_max humidity_rule)] in
  null_check_expectations ++ range_check_expectations.

(** Great Expectations' verdict on one expectation ([result.success]):
    not-null succeeds when no cell of the column is missing; between
    succeeds when every non-missing cell lies in the closed interval.  Both
    hold on a frame without rows. *)
Definition expectation_success (df : DataFrame) (e : expectation) : bool :=
  match e with
  | expect_column_values_to_not_be_null c =>
      match cell_isnull c with
      | Some null => negb (existsb null df)
      | None => false
      end
  | expect_column_values_to_be_between c lo hi =>
      match numeric_column c with
      | Some get =>
          forallb (fun r => match get r with
                            | Some v => Qle_bool lo v && Qle_bool v hi
                            | None => true
                            end) df
      | None => false
      end
  end.

(** The loop over [validation_results.results] in [validate_data]. *)
Definition failed_expectations (df : DataFrame) : list issue :=
  flat_map (fun e => if expectation_success df e then []
                     else [DataQualityCheckFailed e])
           create_expectation_suite.

(** [Series.max()] on timestamps: missing ones (NaT) are skipped. *)
Definition timestamp_max (col : list (option Z)) : option Z :=
  match dropna col with
  | [] => None
  | t :: ts => Some (fold_left Z.max ts t)
  end.

Definition microseconds_per_minute : Z := 60000000.

(** [int(age)]: truncation towards zero. *)
Definition Qtrunc (q : Q) : Z := Z.quot (Qnum q) (Zpos (Qden q)).

(** [check_data_freshness(df, max_age_minutes)]; [current_time] is the
    value [datetime.now(timezone.utc)] returned. *)
Definition check_data_freshness_with (current_time : Z) (df : DataFrame)
    (max_age_minutes : Z) : list issue :=
  flat_map
    (fun c =>
       let city_data := city_slice df c in
       match timestamp_max (map timestamp city_data) with
       | None => []      (* NaT: the age is NaN and [age > max] is False *)
       | Some largest_timestamp =>
           let age := inject_Z (current_time - largest_timestamp)
                      / inject_Z microseconds_per_minute in
           if negb (Qle_bool age (inject_Z max_age_minutes))
           then [DataTooOld c (Qtrunc age) max_age_minutes]
           else []
       end)
    (df_cities df).

Definition check_data_freshness (current_time : Z) (df : DataFrame) : list issue :=
  check_data_freshness_with current_time df 60.

(** The constant of the modified z-score. *)
Definition zscore_scale : Q := 6745 # 10000.

(** [median = df[column].median()] *)
Definition column_median (col : list (option Q)) : option Q := series_median col.

(** [mad = np.median(np.abs(df[column] - median))] *)
Definition column_mad (col : list (option Q)) : option Q :=
  let median := column_median col in
  np_median (map (fun x => nan_abs (nan_sub x median)) col).

(** [modified_zscores = np.abs(0.6745 * (df[column] - median) / mad)];
    the division is carried out whatever [mad] is. *)
Definition modified_zscores (col : list (option Q)) : list npfloat :=
  let median := column_median col in
  let mad := column_mad col in
  map (fun x => np_abs (np_div (nan_scale zscore_scale (nan_sub x median)) mad)) col.

(** The body of the loop of [detect_anomalies] for one [(column, rules)]. *)
Definition detect_anomalies_column (df : DataFrame) (column : string) (rules : rule)
  : list issue :=
  match numeric_column column with
  | None => []          (* the column is not a numeric column of the frame *)
  | Some get =>
      let scores := modified_zscores (map get df) in
      flat_map
        (fun rz : WeatherRow * npfloat =>
           let (row, z) := rz in
           if np_gt z (std_dev_threshold rules)
           then [AnomalyDetected column (city row) (get row) z]
           else [])
        (combine df scores)
  end.

Definition detect_anomalies (df : DataFrame) : list issue :=
  flat_map (fun cr : string * rule => detect_anomalies_column df (fst cr) (snd cr))
           validation_rules.

(** [validate_weather_patterns] *)
Definition validate_weather_patterns (df : DataFrame) : list issue :=
  flat_map
    (fun c =>
       let city_data := city_slice df c in
       (if existsb (fun r => nan_gt (temperature r) 35) city_data
           && existsb (fun r => nan_lt (humidity r) 10) city_data
        then [SuspiciousTemperatureHumidity c] else [])
       ++
       (if Nat.ltb 1 (List.length city_data) then
          match series_max (map nan_abs (series_diff (map pressure city_data))) with
          | Some pressure_change =>
              if negb (Qle_bool pressure_change 20)
              then [SuspiciousPressureChange c pressure_change]
              else []
          | None => []    (* NaN > 20 is False *)
          end
        else []))
    (df_cities df).

(** The dict [validate_data] returns. *)
Record ValidationResult : Type := mkValidationResult {
  status : string;
  issues : list issue;
  validated_at : Z;           (* key 'timestamp' *)
  total_records : nat;
  cities : list string
}.

(** [validate_data(df)].  [freshness_now] and [result_now] are the two
    readings of the clock the call makes. *)
Definition validate_data (freshness_now result_now : Z) (df : DataFrame)
  : ValidationResult :=
  let all_issues :=
    failed_expectations df
    ++ check_data_freshness freshness_now df
    ++ detect_anomalies df
    ++ validate_weather_patterns df in
  {| status := match all_issues with _ :: _ => "failed" | [] => "passed" end;
     issues := all_issues;
     validated_at := result_now;
     total_records := List.length df;
     cities := df_cities df |}.

End Validator.

(** ** Effects: the clock, logging, HTTP requests *)

(** The dict [_calculate_metrics] returns; [None] is a NaN value and the
    empty list is [{}]. *)
Definition Metrics : Type := list (string * option Q).

(** The JSON payload [_send_to_monitoring_service] posts. *)
Record Payload : Type := mkPayload {
  payload_status : string;
  payload_timestamp : Z;
  payload_city : string;
  payload_issues : list Validator.issue;
  payload_metrics : Metrics
}.

(** The logging calls of the sources, one constructor per call site. *)
Inductive log_record : Type :=
| LogTimeoutFetching (city : string)            (* error, weather_api.py *)
| LogErrorFetching (city : string) (e : exn)    (* error, weather_api.py *)
| LogErrorParsing (city : string) (e : exn)     (* error, weather_api.py *)
| LogNoWeatherDataCollected                     (* warning, weather_api.py *)
| LogFailedToSend (city : string) (status : Z)  (* error, integrator.py *)
| LogRecorded (city : string)                   (* info, integrator.py *)
| LogErrorSending (city : string) (e : exn)     (* error, integrator.py *)
| LogNoDataAvailable (city : string)            (* warning, integrator.py *)
| LogErrorProcessing (city : string) (e : exn)  (* error, integrator.py *)
| LogNoWeatherDataFetched                       (* error, integrator.py *)
| LogErrorInCycle (e : exn).                    (* error, integrator.py *)

(** What a run does to the outside world, in order. *)
Inductive event : Type :=
| Log (r : log_record)
| HttpGet (city : string)        (* requests.get for a city *)
| FetchCalled                    (* self.extractor.fetch_weather_data() *)
| Post (p : Payload).            (* session.post(.../record-validation, json=p) *)

(** A computation: from the number of clock readings made so far to the
    events it emits, the new number of readings, and its result or the
    exception it raises. *)
Definition M (A : Type) : Type := nat -> list event * nat * result A.

Definition ret {A} (a : A) : M A := fun t => ([], t, Return a).

Definition bind {A B} (m : M A) (k : A -> M B) : M B :=
  fun t =>
    match m t with
    | (es, t1, Return a) =>
        match k a t1 with
        | (es', t2, r) => (es ++ es', t2, r)
        end
    | (es, t1, Raise e) => (es, t1, Raise e)
    end.

Notation "x <- m ;; k" := (bind m (fun x => k))
  (at level 61, m at next level, right associativity).
Notation "m ;;; k" := (bind m (fun _ => k))
  (at level 61, right associativity).

Definition emit (e : event) : M unit := fun t => ([e], t, Return tt).

Definition logger (r : log_record) : M unit := emit (Log r).

(** The outcome of a call into a collaborator. *)
Definition lift {A} (r : result A) : M A := fun t => ([], t, r).

(** [datetime.now(timezone.utc)]: the reading number [t] of the clock. *)
Definition now (clock : nat -> Z) : M Z := fun t => ([], S t, Return (clock t)).

(** [try: body except <classes> as e: handler e]; an exception outside
    the classes propagates. *)
Definition try_except {A} (body : M A) (catches : exn -> bool) (handler : exn -> M A)
  : M A :=
  fun t =>
    match body t with
    | (es, t1, Raise e) =>
        if catches e then
          match handler e t1 with
          | (es', t2, r) => (es ++ es', t2, r)
          end
        else (es, t1, Raise e)
    | done => done
    end.

(** [except Exception]: every exception of the model. *)
Definition any_Exception (e : exn) : bool := true.

Definition events_of {A} (o : list event * nat * result A) : list event := fst (fst o).
Definition result_of {A} (o : list event * nat * result A) : result A := snd o.

(** ** src/extractors/weather_api.py *)

Module Extractor.

(** A decoded JSON document ([response.json()]). *)
#[warnings="-register-all"]
Inductive json : Type :=
| JNull
| JBool (b : bool)
| JNumber (q : Q)
| JString (s : string)
| JArray (items : list json)
| JObject (fields : list (string * json)).

(** [bool(j)] *)
Definition truthy (j : json) : bool :=
  match j with
  | JNull => false
  | JBool b => b
  | JNumber q => negb (Qis_zero q)
  | JString s => negb (String.eqb s "")
  | JArray items => match items with [] => false | _ => true end
  | JObject fields => match fields with [] => false | _ => true end
  end.

Fixpoint dict_get (fields : list (string * json)) (key : string) : option json :=
  match fields with
  | [] => None
  | (k, v) :: rest => if String.eqb k key then Some v else dict_get rest key
  end.

(** [j[key]] for a string key. *)
Definition getitem (j : json) (key : string) : result json :=
  match j with
  | JObject fields =>
      match dict_get fields key with
      | Some v => Return v
      | None => Raise (PyException "KeyError" key)
      end
  | _ => Raise (PyException "TypeError" key)
  end.

(** [j[0]] *)
Definition getitem0 (j : json) : result json :=
  match j with
  | JArray (x :: _) => Return x
  | JArray [] => Raise (PyException "IndexError" "list index out of range")
  | JString (String c _) => Return (JString (String c EmptyString))
  | JString EmptyString => Raise (PyException "IndexError" "string index out of range")
  | JObject _ => Raise (PyException "KeyError" "0")
  | _ => Raise (PyException "TypeError" "0")
  end.

Section WithCollaborators.

(** [requests.get(base_url, params, timeout=10)], [raise_for_status()] and
    [response.json()] for a city: the decoded body, or the exception. *)
Variable http_get : string -> result json.

(** The pydantic constructor [WeatherData(city=..., timestamp=datetime.utcnow,
    temperature=..., humidity=..., pressure=..., wind_speed=...,
    weather_condition=...)]: the validated record, or the [ValidationError]
    pydantic raises; the field constraints and the coercions are pydantic's. *)
Variable WeatherData : string -> json -> json -> json -> json -> json -> result WeatherRow.

(** [self.cities] *)
Variable cities : list string.

Definition _make_api_request (city : string) : M (option json) :=
  try_except
    (emit (HttpGet city) ;;;
     body <- lift (http_get city) ;;
     ret (Some body))
    is_RequestException
    (fun e =>
       match e with
       | Timeout _ => logger (LogTimeoutFetching city) ;;; ret None
       | _ => logger (LogErrorFetching city e) ;;; ret None
       end).

(** The expression the [try] block of [_parse_weather_data] evaluates: the
    arguments from left to right, then the constructor. *)
Definition WeatherData_from (city : string) (raw_data : json) : result WeatherRow :=
  rbind (getitem raw_data "main") (fun main =>
  rbind (getitem main "temp") (fun temp =>
  rbind (getitem raw_data "main") (fun main =>
  rbind (getitem main "humidity") (fun hum =>
  rbind (getitem raw_data "main") (fun main =>
  rbind (getitem main "pressure") (fun pres =>
  rbind (getitem raw_data "wind") (fun wind =>
  rbind (getitem wind "speed") (fun speed =>
  rbind (getitem raw_data "weather") (fun weather =>
  rbind (getitem0 weather) (fun first =>
  rbind (getitem first "main") (fun cond =>
  WeatherData city temp hum pres speed cond))))))))))).

Definition _parse_weather_data (city : string) (raw_data : json) : M (option WeatherRow) :=
  try_except
    (weather_data <- lift (WeatherData_from city raw_data) ;;
     ret (Some weather_data))
    any_Exception
    (fun e => logger (LogErrorParsing city e) ;;; ret None).

(** The loop of [fetch_weather_data]; [weather_data] is the list built so far. *)
Fixpoint fetch_loop (todo : list string) (weather_data : list WeatherRow)
  : M (list WeatherRow) :=
  match todo with
  | [] => ret weather_data
  | city :: rest =>
      raw_data <- _make_api_request city ;;
      match raw_data with
      | Some raw =>
          if truthy raw then
            parsed_data <- _parse_weather_data city raw ;;
            match parsed_data with
            | Some parsed => fetch_loop rest (weather_data ++ [parsed])
            | None => fetch_loop rest weather_data
            end
          else fetch_loop rest weather_data
      | None => fetch_loop rest weather_data
      end
  end.

Definition fetch_weather_data : M DataFrame :=
  weather_data <- fetch_loop cities [] ;;
  match weather_data with
  | [] => logger LogNoWeatherDataCollected ;;; ret []
  | _ => ret weather_data
  end.

(** [response is not None] on what [_make_api_request] returned.  Python's
    [None] is what a failed request is answered by, and it is also what
    [response.json()] gives for a body that is the JSON value [null]: both
    are the same object to the caller. *)
Definition is_not_None (response : option json) : bool :=
  match response with
  | Some JNull | None => false
  | Some _ => true
  end.

(** [validate_api_key]: [False] without any request when no city is
    configured; otherwise one request for the first city, and whether it
    gave a response ([response is not None]). *)
Definition validate_api_key : M bool :=
  match cities with
  | [] => ret false
  | test_city :: _ =>
      response <- _make_api_request test_city ;;
      ret (is_not_None response)
  end.

End WithCollaborators.

End Extractor.

(** ** src/monitoring/integrator.py *)

Module Integrator.

(** [df[name].isnull().sum()] *)
Definition column_null_count (df : DataFrame) (name : string) : nat :=
  match cell_isnull name with
  | Some null => List.length (filter null df)
  | None => O
  end.

(** [df.isnull().sum().sum()]: the missing cells over every column. *)
Definition null_count (df : DataFrame) : nat :=
  fold_right Nat.add O (map (column_null_count df) df_columns).

Definition Qnat (n : nat) : Q := inject_Z (Z.of_nat n).

(** The expression under the key ['data_completeness'], for a frame with
    at least one row. *)
Definition data_completeness (city_data : DataFrame) : Q :=
  (1 - Qnat (null_count city_data)
       / Qnat (List.length city_data * List.length df_columns)) * 100.

Definition _calculate_metrics (df : DataFrame) (city : string) : Metrics :=
  let city_data := city_slice df city in
  if df_empty city_data then []
  else
    [("temperature", series_mean (map temperature city_data));
     ("humidity", series_mean (map humidity city_data));
     ("pressure", series_mean (map pressure city_data));
     ("wind_speed", series_mean (map wind_speed city_data));
     ("data_completeness", Some (data_completeness city_data))].

(** [asyncio.gather] over the tasks: every task runs to its end; the first
    exception a task raised, if any, is raised to the caller.  The tasks
    are run one after the other in the order given, which is one of the
    schedules of the event loop. *)
Fixpoint gather (tasks : list (M unit)) : M unit :=
  match tasks with
  | [] => ret tt
  | task :: rest =>
      fun t =>
        match task t with
        | (es, t1, r) =>
            match gather rest t1 with
            | (es', t2, r') =>
                (es ++ es', t2, match r with Raise e => Raise e | Return _ => r' end)
            end
        end
  end.

Section WithCollaborators.

(** The clock: reading number [n] of [datetime.now(timezone.utc)]. *)
Variable clock : nat -> Z.

(** [self.cities] *)
Variable cities : list string.

(** [self.extractor.fetch_weather_data()] *)
Variable fetch_weather_data : M DataFrame.

(** [self.validator.validate_data(df)]; the call may raise (Great
    Expectations does on a frame it cannot read). *)
Variable validate_data : DataFrame -> M Validator.ValidationResult.

(** [session.post(url, json=payload)]: the status of the response, or the
    exception the client raises. *)
Variable post : Payload -> result Z.

Definition _send_to_monitoring_service (city : string)
    (validation_result : Validator.ValidationResult) (metrics : Metrics) : M unit :=
  timestamp <- now clock ;;
  let payload :=
    {| payload_status := Validator.status validation_result;
       payload_timestamp := timestamp;
       payload_city := city;
       payload_issues := Validator.issues validation_result;
       payload_metrics := metrics |} in
  try_except
    (emit (Post payload) ;;;
     response_status <- lift (post payload) ;;
     if negb (Z.eqb response_status 200)
     then logger (LogFailedToSend city response_status)
     else logger (LogRecorded city))
    any_Exception
    (fun e => logger (LogErrorSending city e)).

Definition process_single_city (df : DataFrame) (city : string) : M unit :=
  try_except
    (let city_data := city_slice df city in
     if df_empty city_data then
       logger (LogNoDataAvailable city) ;;; ret tt
     else
       validation_result <- validate_data city_data ;;
       let metrics := _calculate_metrics df city in
       _send_to_monitoring_service city validation_result metrics)
    any_Exception
    (fun e => logger (LogErrorProcessing city e)).

Definition run_monitoring_cycle : M unit :=
  try_except
    (df <- (emit FetchCalled ;;; fetch_weather_data) ;;
     if df_empty df then
       logger LogNoWeatherDataFetched ;;; ret tt
     else
       gather (map (process_single_city df) cities))
    any_Exception
    (fun e => logger (LogErrorInCycle e)).

End WithCollaborators.

(** [WeatherDataValidator.validate_data] as the integrator calls it: the
    two readings of the clock, then the pure verdict. *)
Definition WeatherDataValidator (clock : nat -> Z) (df : DataFrame)
  : M Validator.ValidationResult :=
  freshness_now <- now clock ;;
  result_now <- now clock ;;
  ret (Validator.validate_data freshness_now result_now df).

(** What the loop of [start_monitoring_cycle] does to the outside world:
    the events of a cycle, and the sleeps between the cycles. *)
Inductive loop_event : Type :=
| LogStartingMonitoring            (* logger.info("Starting weather monitoring...") *)
| InCycle (e : event)
| Sleep (interval_seconds : Z)     (* asyncio.sleep(interval_seconds) *)
| LogErrorInMain (e : exn).        (* logger.error("Error in main process: ...") *)

(** The first [n] iterations of the [while True] loop of
    [start_monitoring_cycle], from iteration number [k] on.  The extractor
    and the sink of iteration [i] are [fetch_at i] and [post_at i]: the
    outside world may answer differently from one cycle to the next.  An
    exception out of a cycle ends the loop. *)
Fixpoint monitoring_iterations (clock : nat -> Z) (cities : list string)
    (fetch_at : nat -> M DataFrame)
    (validate_data : DataFrame -> M Validator.ValidationResult)
    (post_at : nat -> Payload -> result Z)
    (interval_seconds : Z) (k n : nat)
  : nat -> list loop_event * nat * result unit :=
  match n with
  | O => fun t => ([], t, Return tt)
  | S n' =>
      fun t =>
        match run_monitoring_cycle clock cities (fetch_at k) validate_data
                (post_at k) t with
        | (es, t1, Return _) =>
            match monitoring_iterations clock cities fetch_at validate_data
                    post_at interval_seconds (S k) n' t1 with
            | (es', t2, r) =>
                (map InCycle es ++ Sleep interval_seconds :: es', t2, r)
            end
        | (es, t1, Raise e) => (map InCycle es, t1, Raise e)
        end
  end.

(** [start_monitoring_cycle(interval_seconds)], cut after [n] iterations. *)
Definition start_monitoring_cycle (clock : nat -> Z) (cities : list string)
    (fetch_at : nat -> M DataFrame)
    (validate_data : DataFrame -> M Validator.ValidationResult)
    (post_at : nat -> Payload -> result Z)
    (interval_seconds : Z) (n : nat)
  : nat -> list loop_event * nat * result unit :=
  fun t =>
    match monitoring_iterations clock cities fetch_at validate_data post_at
            interval_seconds 0 n t with
    | (es, t1, r) => (LogStartingMonitoring :: es, t1, r)
    end.

End Integrator.

(** ** src/main.py *)

Module Main.

(** [s.split(sep)] for a separator of one character: the pieces between
    the separators, empty pieces included; [['']] on the empty string. *)
Fixpoint split (sep : Ascii.ascii) (s : string) : list string :=
  match s with
  | EmptyString => [EmptyString]
  | String ch rest =>
      if Ascii.eqb ch sep then EmptyString :: split sep rest
      else
        match split sep rest with
        | piece :: pieces => String ch piece :: pieces
        | [] => [String ch EmptyString]
        end
  end.

Definition comma : Ascii.ascii := Ascii.Ascii false false true true false true false false.

(** [os.getenv(name, default)]: the default only when the variable is unset. *)
Definition getenv_or (getenv : string -> option string) (name default : string)
  : string :=
  match getenv name with
  | Some v => v
  | None => default
  end.

Section WithEnvironment.

(** [os.getenv] *)
Variable getenv : string -> option string.

(** Python's [int(text)]: the number, or the [ValueError] it raises. *)
Variable python_int : string -> result Z.

Variable clock : nat -> Z.

(** The provider, as cycle [k] finds it with a given API key, and the
    monitoring service at a given URL. *)
Variable http_get_at : string -> nat -> string -> result Extractor.json.
Variable WeatherData :
  string -> Extractor.json -> Extractor.json -> Extractor.json ->
  Extractor.json -> Extractor.json -> result WeatherRow.
Variable post_at : string -> nat -> Payload -> result Z.

(** [main()], its loop cut after [n] iterations. *)
Definition main (n : nat) : nat -> list Integrator.loop_event * nat * result unit :=
  fun t =>
    let api_key := getenv "OPENWEATHER_API_KEY" in
    let cities :=
      split comma (getenv_or getenv "MONITORED_CITIES" "London,New York,Tokyo") in
    let monitoring_url :=
      getenv_or getenv "MONITORING_SERVICE_URL" "http://localhost:8000" in
    match python_int (getenv_or getenv "MONITORING_INTERVAL_SECONDS" "300") with
    | Raise e => ([], t, Raise e)
    | Return interval =>
        match api_key with
        | None | Some EmptyString =>
            ([], t,
             Raise (PyException "ValueError"
                      "OpenWeather API key not found in environment variables"))
        | Some key =>
            match Integrator.start_monitoring_cycle clock cities
                    (fun k => Extractor.fetch_weather_data (http_get_at key k)
                                WeatherData cities)
                    (Integrator.WeatherDataValidator clock)
                    (post_at monitoring_url) interval n t with
            | (es, t1, Raise e) =>
                (es ++ [Integrator.LogErrorInMain e], t1, Raise e)
            | done => done
            end
        end
    end.

End WithEnvironment.

End Main.

(** ** Frames and reference definitions used in the statements *)

(** A complete row: every cell present. *)
Definition reading (c : string) (ts : Z) (t h p w : Q) : WeatherRow :=
  mkRow c (Some ts) (Some t) (Some h) (Some p) (Some w) (Some "Clear").

Definition is_anomaly (i : Validator.issue) : bool :=
  match i with
  | Validator.AnomalyDetected _ _ _ _ => true
  | _ => false
  end.

(** The anomaly issues of an issue list, in order. *)
Definition anomalies_of (l : list Validator.issue) : list Validator.issue :=
  filter is_anomaly l.

(** The two records of city "A" with temperatures 20 and 100, stamped [ts]. *)
Definition two_readings_batch (ts : Z) : DataFrame :=
  [reading "A" ts 20 65 1013 5; reading "A" ts 100 65 1013 5].

(** Four cities, three of them reporting the same temperature: the median
    absolute deviation of the temperature column is zero. *)
Definition zero_mad_batch : DataFrame :=
  [reading "A" 0 20 65 1013 5; reading "B" 0 20 66 1014 5;
   reading "C" 0 20 67 1012 5; reading "D" 0 25 68 1015 5].

(** One record whose pressure, 850, is below the configured minimum 870. *)
Definition low_pressure_batch : DataFrame :=
  [reading "A" 0 20 65 850 5].

(** One record per city; the temperature of "F" is far from the others,
    every value is inside its configured range. *)
Definition spread_batch : DataFrame :=
  [reading "A" 0 20 65 1013 5; reading "B" 0 21 65 1013 5;
   reading "C" 0 22 65 1013 5; reading "D" 0 23 65 1013 5;
   reading "E" 0 24 65 1013 5; reading "F" 0 45 65 1013 5].

(** The anomaly issues a batch-wide check attributes to an entity: the
    issues [detect_anomalies] finds on the whole batch (its median and MAD
    are then those of the whole batch) that name the entity. *)
Definition batch_wide_anomalies (batch : DataFrame) (c : string)
  : list Validator.issue :=
  filter (fun i => match i with
                   | Validator.AnomalyDetected _ c' _ _ => String.eqb c' c
                   | _ => false
                   end)
         (Validator.detect_anomalies batch).

(** [metrics[key]], or [None] when the key is absent. *)
Fixpoint metrics_get (m : Metrics) (key : string) : option (option Q) :=
  match m with
  | [] => None
  | (k, v) :: rest => if String.eqb k key then Some v else metrics_get rest key
  end.

(** The measurement columns of a record. *)
Definition measurement_columns : list string :=
  ["temperature"; "humidity"; "pressure"; "wind_speed"].

(** Completeness as the specification words it: 100 * (1 - missing cells /
    total cells), both counted over the columns [cols] only, total cells
    being the record count times the number of these columns. *)
Definition completeness_over (cols : list string) (slice : DataFrame) : Q :=
  let missing_cells :=
    fold_right Nat.add O (map (Integrator.column_null_count slice) cols) in
  let total_cells := (List.length slice * List.length cols)%nat in
  100 * (1 - Integrator.Qnat missing_cells / Integrator.Qnat total_cells).

(** The missing cells of one row, over the seven columns of the frame
    (the city is never missing). *)
Definition row_missing_cells (r : WeatherRow) : nat :=
  (Nat.b2n (isnull (timestamp r)) + Nat.b2n (isnull (temperature r))
   + Nat.b2n (isnull (humidity r)) + Nat.b2n (isnull (pressure r))
   + Nat.b2n (isnull (wind_speed r)) + Nat.b2n (isnull (weather_condition r)))%nat.

Definition missing_cells (df : DataFrame) : nat :=
  fold_right (fun r n => (row_missing_cells r + n)%nat) O df.

(** One record of city "A" whose temperature is missing. *)
Definition missing_temperature_batch : DataFrame :=
  [mkRow "A" (Some 0%Z) None (Some 65) (Some 1013) (Some 5) (Some "Clear")].

(** A cycle over two cities. *)
Definition two_city_batch : DataFrame :=
  [reading "A" 0 20 65 1013 5; reading "B" 0 21 66 1012 6].

(** A sink that accepts every payload. *)
Definition accepting_sink : Payload -> result Z := fun _ => Return 200%Z.

(** A sink whose client raises for the payloads of city [k] and that
    accepts the others. *)
Definition failing_sink_for (k : string) : Payload -> result Z :=
  fun p => if String.eqb (payload_city p) k
           then Raise (PyException "ClientConnectorError" "connection refused")
           else Return 200%Z.

Definition frozen_clock : nat -> Z := fun _ => 0%Z.

(** The response body of the tests of the extractor. *)
Definition sample_weather_response : Extractor.json :=
  Extractor.JObject
    [("main", Extractor.JObject [("temp", Extractor.JNumber (205 # 10));
                                 ("humidity", Extractor.JNumber 65);
                                 ("pressure", Extractor.JNumber 1013)]);
     ("wind", Extractor.JObject [("speed", Extractor.JNumber (55 # 10))]);
     ("weather", Extractor.JArray
                   [Extractor.JObject [("main", Extractor.JString "Clouds")]])].

(** A provider that answers for "London", times out for "Paris" and
    answers with an HTTP error for every other city. *)
Definition sample_http_get (c : string) : result Extractor.json :=
  if String.eqb c "London" then Return sample_weather_response
  else if String.eqb c "Paris" then Raise (Timeout "read timed out")
  else Raise (RequestException "404 Client Error").

(** A provider that answers as [sample_http_get] does, except that the body
    it sends for "Paris" is nested too deep for the JSON decoder:
    [response.json()] raises a [RecursionError], which is not a
    [RequestException]. *)
Definition undecodable_http_get (c : string) : result Extractor.json :=
  if String.eqb c "Paris"
  then Raise (PyException "RecursionError"
                "maximum recursion depth exceeded while decoding a JSON array")
  else sample_http_get c.

(** A constructor that accepts numbers and a string, stamps the record 0
    and rejects everything else. *)
Definition sample_WeatherData (c : string)
    (temp hum pres speed cond : Extractor.json) : result WeatherRow :=
  match temp, hum, pres, speed, cond with
  | Extractor.JNumber t, Extractor.JNumber h, Extractor.JNumber p,
    Extractor.JNumber w, Extractor.JString s =>
      Return (mkRow c (Some 0%Z) (Some t) (Some h) (Some p) (Some w) (Some s))
  | _, _, _, _, _ => Raise (PyException "ValidationError" "WeatherData")
  end.

(** What [fetch_weather_data] keeps of one city: the parsed record when the
    request answered with a truthy body and the body parsed; nothing
    otherwise. *)
Definition kept_row (http_get : string -> result Extractor.json)
    (WeatherData : string -> Extractor.json -> Extractor.json -> Extractor.json ->
                   Extractor.json -> Extractor.json -> result WeatherRow)
    (c : string) : list WeatherRow :=
  match http_get c with
  | Return raw =>
      if Extractor.truthy raw then
        match Extractor.WeatherData_from WeatherData c raw with
        | Return parsed => [parsed]
        | Raise _ => []
        end
      else []
  | Raise _ => []
  end.

(** The payload [process_single_city] sends for a city, from the verdict
    and the reading of the clock made when the payload is built. *)
Definition payload_for (df : DataFrame) (c : string)
    (v : Validator.ValidationResult) (ts : Z) : Payload :=
  {| payload_status := Validator.status v;
     payload_timestamp := ts;
     payload_city := c;
     payload_issues := Validator.issues v;
     payload_metrics := Integrator._calculate_metrics df c |}.

(** What [_send_to_monitoring_service] logs once the payload was handed to
    the client. *)
Definition dispatch_log (post : Payload -> result Z) (c : string) (p : Payload)
  : log_record :=
  match post p with
  | Return s => if negb (Z.eqb s 200) then LogFailedToSend c s else LogRecorded c
  | Raise e => LogErrorSending c e
  end.

(** ** Projections used in the further properties *)

(** The city a freshness issue names. *)
Definition stale_city (i : Validator.issue) : list string :=
  match i with
  | Validator.DataTooOld c _ _ => [c]
  | _ => []
  end.

(** The newest timestamp of the rows of a city. *)
Definition newest_timestamp (df : DataFrame) (c : string) : option Z :=
  Validator.timestamp_max (map timestamp (city_slice df c)).

(** Two rows of city "A", one of them older than an hour at time
    7200000000 (two hours after the epoch), and a stale row of city "B". *)
Definition mixed_age_batch : DataFrame :=
  [reading "A" 0 20 65 1013 5; reading "A" 7000000000 21 65 1013 5;
   reading "B" 0 20 65 1013 5].

(** The modified z-score of one cell, given the median and the MAD of its
    column: the function [modified_zscores] maps over the column. *)
Definition zscore_of (median mad : option Q) (x : option Q) : npfloat :=
  np_abs (np_div (nan_scale Validator.zscore_scale (nan_sub x median)) mad).

(** The score [detect_anomalies] gives a cell of a column of a frame. *)
Definition column_score (df : DataFrame) (get : WeatherRow -> option Q)
    (x : option Q) : npfloat :=
  zscore_of (Validator.column_median (map get df))
            (Validator.column_mad (map get df)) x.

(** Five rows whose temperatures hold an outlier (90), and the same rows
    with the humidity of the first one missing. *)
Definition outlier_batch : DataFrame :=
  [reading "A" 0 20 60 1013 5; reading "B" 0 21 61 1013 5;
   reading "C" 0 22 62 1013 5; reading "D" 0 23 63 1013 5;
   reading "E" 0 90 64 1013 5].

Definition outlier_batch_missing_cell : DataFrame :=
  mkRow "Z" (Some 0%Z) None (Some 60) (Some 1013) (Some 5) (Some "Clear")
  :: outlier_batch.

(** A frame with a missing humidity and a temperature out of range. *)
Definition invalid_batch : DataFrame :=
  [mkRow "London" (Some 0%Z) (Some 20) None (Some 1013) (Some 5) (Some "Clear");
   reading "Tokyo" 0 75 70 1012 6].

(** The cities of the payloads posted by a run, in order. *)
Definition posted_cities (es : list event) : list string :=
  flat_map (fun e => match e with Post p => [payload_city p] | _ => [] end) es.

(** Whether a city has records in the batch. *)
Definition has_records (df : DataFrame) (c : string) : bool :=
  negb (df_empty (city_slice df c)).



(** The metric names of the means and the columns they are taken over. *)
Definition mean_metrics : list (string * (WeatherRow -> option Q)) :=
  [("temperature", temperature); ("humidity", humidity);
   ("pressure", pressure); ("wind_speed", wind_speed)].

(** A batch of three cities, of which "Paris" is not monitored below. *)
Definition three_city_batch : DataFrame :=
  [reading "London" 0 20 65 1013 5; reading "Paris" 0 21 66 1012 6;
   reading "Tokyo" 0 25 75 1010 7].

(** The cities requested from the provider by a run, in order. *)
Definition requested_cities (es : list event) : list string :=
  flat_map (fun e => match e with HttpGet c => [c] | _ => [] end) es.

(** What [fetch_weather_data] does for one city: the request, then one log
    line when the request timed out, failed otherwise, or its payload did
    not parse; nothing more when the record is kept or the body is falsy. *)
Definition city_events (http_get : string -> result Extractor.json)
    (WeatherData : string -> Extractor.json -> Extractor.json -> Extractor.json ->
                   Extractor.json -> Extractor.json -> result WeatherRow)
    (c : string) : list event :=
  HttpGet c ::
  match http_get c with
  | Raise (Timeout _) => [Log (LogTimeoutFetching c)]
  | Raise e => [Log (LogErrorFetching c e)]
  | Return raw =>
      if Extractor.truthy raw then
        match Extractor.WeatherData_from WeatherData c raw with
        | Return _ => []
        | Raise e => [Log (LogErrorParsing c e)]
        end
      else []
  end.

(** A provider that answers every city with an empty JSON object. *)
Definition empty_body_http_get (c : string) : result Extractor.json :=
  Return (Extractor.JObject []).

(** What the field declarations of the pydantic model [WeatherData] demand
    of a record: every field is required, temperature in (-100, 100),
    humidity in [0, 100], pressure in (800, 1200), wind speed at least 0. *)
Definition WeatherData_fields_valid (r : WeatherRow) : Prop :=
  timestamp r <> None
  /\ weather_condition r <> None
  /\ (exists t, temperature r = Some t /\ -100 < t /\ t < 100)
  /\ (exists h, humidity r = Some h /\ 0 <= h /\ h <= 100)
  /\ (exists p, pressure r = Some p /\ 800 < p /\ p < 1200)
  /\ (exists w, wind_speed r = Some w /\ 0 <= w).

(** A constructor that does what the model declares: the record it returns
    carries the city it was given and satisfies the field declarations. *)
Definition enforces_model
    (WeatherData : string -> Extractor.json -> Extractor.json -> Extractor.json ->
                   Extractor.json -> Extractor.json -> result WeatherRow) : Prop :=
  forall c temp hum pres speed cond r,
    WeatherData c temp hum pres speed cond = Return r ->
    city r = c /\ WeatherData_fields_valid r.

(** A constructor that checks the field declarations on numbers and stamps
    the record 0. *)
Definition checking_WeatherData (c : string)
    (temp hum pres speed cond : Extractor.json) : result WeatherRow :=
  match temp, hum, pres, speed, cond with
  | Extractor.JNumber t, Extractor.JNumber h, Extractor.JNumber p,
    Extractor.JNumber w, Extractor.JString s =>
      if negb (Qle_bool t (-100)) && negb (Qle_bool 100 t)
         && Qle_bool 0 h && Qle_bool h 100
         && negb (Qle_bool p 800) && negb (Qle_bool 1200 p)
         && Qle_bool 0 w
      then Return (mkRow c (Some 0%Z) (Some t) (Some h) (Some p) (Some w) (Some s))
      else Raise (PyException "ValidationError" "WeatherData")
  | _, _, _, _, _ => Raise (PyException "ValidationError" "WeatherData")
  end.

(** A provider that answers every city with the sample response. *)
Definition answering_http_get (c : string) : result Extractor.json :=
  Return sample_weather_response.


Definition env_without_key (name : string) : option string := None.

(** A reading of [int] that knows the default interval. *)
Definition int_300 (text : string) : result Z :=
  if String.eqb text "300" then Return 300%Z
  else Raise (PyException "ValueError" "invalid literal for int()").

(** * Properties *)

(** ** The validator *)

Lemma filter_flat_map {A B} (p : B -> bool) (f : A -> list B) (l : list A) :
  filter p (flat_map f l) = flat_map (fun a => filter p (f a)) l.
Proof.
  induction l as [|a l IH]; simpl; [reflexivity|].
  now rewrite filter_app, IH.
Qed.

Lemma flat_map_nil_ext {A B} (f : A -> list B) (l : list A) :
  (forall a, In a l -> f a = []) -> flat_map f l = [].
Proof.
  induction l as [|a l IH]; simpl; intros H; [reflexivity|].
  rewrite (H a (or_introl eq_refl)), IH; auto.
Qed.

Lemma flat_map_id_ext {A B} (f g : A -> list B) (l : list A) :
  (forall a, In a l -> f a = g a) -> flat_map f l = flat_map g l.
Proof.
  induction l as [|a l IH]; simpl; intros H; [reflexivity|].
  rewrite (H a (or_introl eq_refl)), IH; auto.
Qed.

Lemma anomalies_of_failed_expectations df :
  anomalies_of (Validator.failed_expectations df) = [].
Proof.
  unfold anomalies_of, Validator.failed_expectations.
  rewrite filter_flat_map. apply flat_map_nil_ext. intros e _.
  now destruct (Validator.expectation_success df e).
Qed.

Lemma anomalies_of_freshness now df :
  anomalies_of (Validator.check_data_freshness now df) = [].
Proof.
  unfold anomalies_of, Validator.check_data_freshness,
    Validator.check_data_freshness_with.
  rewrite filter_flat_map. apply flat_map_nil_ext. intros c _.
  destruct (Validator.timestamp_max _); [|reflexivity].
  now destruct (negb _).
Qed.

Lemma anomalies_of_patterns df :
  anomalies_of (Validator.validate_weather_patterns df) = [].
Proof.
  unfold anomalies_of, Validator.validate_weather_patterns.
  rewrite filter_flat_map. apply flat_map_nil_ext. intros c _.
  rewrite filter_app.
  destruct (_ && _); simpl;
    destruct (Nat.ltb _ _); simpl; try reflexivity;
    destruct (series_max _); simpl; try reflexivity;
    now destruct (negb _).
Qed.

Lemma anomalies_of_detect_anomalies df :
  anomalies_of (Validator.detect_anomalies df) = Validator.detect_anomalies df.
Proof.
  unfold anomalies_of, Validator.detect_anomalies.
  rewrite filter_flat_map. apply flat_map_id_ext. intros [column rules] _.
  unfold Validator.detect_anomalies_column; simpl.
  destruct (numeric_column column); [|reflexivity].
  rewrite filter_flat_map. apply flat_map_id_ext. intros [r z] _.
  now destruct (np_gt z _).
Qed.

(** The anomaly issues of a verdict are those [detect_anomalies] finds on
    the frame that was validated. *)
Lemma anomalies_of_validate_data f n df :
  anomalies_of (Validator.issues (Validator.validate_data f n df))
  = Validator.detect_anomalies df.
Proof.
  unfold Validator.validate_data; simpl. unfold anomalies_of.
  rewrite !filter_app.
  fold (anomalies_of (Validator.failed_expectations df)).
  fold (anomalies_of (Validator.check_data_freshness f df)).
  fold (anomalies_of (Validator.detect_anomalies df)).
  fold (anomalies_of (Validator.validate_weather_patterns df)).
  rewrite anomalies_of_failed_expectations, anomalies_of_freshness,
    anomalies_of_patterns, anomalies_of_detect_anomalies.
  now rewrite app_nil_r.
Qed.

(** C4. For every frame, the verdict of [validate_data] has status "failed"
    exactly when its issue list is non-empty, and status "passed" exactly
    when the list is empty. *)
Theorem validate_data_failed_iff_issues (f n : Z) (df : DataFrame) :
  let v := Validator.validate_data f n df in
  (Validator.status v = "failed" <-> Validator.issues v <> [])
  /\ (Validator.status v = "passed" <-> Validator.issues v = []).
Proof.
  unfold Validator.validate_data; cbn [Validator.status Validator.issues].
  destruct (_ ++ _) as [|i l]; split; split; intro H;
    try discriminate; try reflexivity; try congruence.
Qed.

(** C3. A frame with zero records is validated without raising; the
    verdict is "passed", has no issue, and counts 0 records. *)
Theorem validate_data_zero_records (clock : nat -> Z) (t : nat) (df : DataFrame) :
  List.length df = 0%nat ->
  exists v,
    Integrator.WeatherDataValidator clock df t = ([], S (S t), Return v)
    /\ v = Validator.validate_data (clock t) (clock (S t)) df
    /\ Validator.status v = "passed"
    /\ Validator.issues v = []
    /\ Validator.total_records v = 0%nat.
Proof.
  intros Hlen. destruct df as [|r df]; [|discriminate].
  eexists. split; [reflexivity|]. split; [reflexivity|].
  repeat split.
Qed.

Lemma validate_data_zero_records_witness :
  exists v,
    Integrator.WeatherDataValidator frozen_clock [] 0%nat = ([], 2%nat, Return v)
    /\ v = Validator.validate_data 0 0 []
    /\ Validator.status v = "passed"
    /\ Validator.issues v = []
    /\ Validator.total_records v = 0%nat.
Proof.
  apply (validate_data_zero_records frozen_clock 0%nat []). reflexivity.
Defined.

(** The modified z-scores of the temperatures 20 and 100: the median is 60,
    the median absolute deviation is 40, and both scores are 0.6745. *)
Lemma two_readings_scores :
  exists median mad z1 z2,
    Validator.column_median [Some 20; Some 100] = Some median
    /\ median == 60
    /\ Validator.column_mad [Some 20; Some 100] = Some mad
    /\ mad == 40
    /\ Validator.modified_zscores [Some 20; Some 100] = [Finite z1; Finite z2]
    /\ z1 == 6745 # 10000 /\ z2 == 6745 # 10000.
Proof.
  eexists _, _, _, _. repeat split; try (vm_compute; reflexivity).
Qed.

Lemma two_readings_freshness ts :
  Validator.check_data_freshness ts (two_readings_batch ts) = [].
Proof.
  unfold Validator.check_data_freshness, Validator.check_data_freshness_with.
  cbn [two_readings_batch df_cities map city reading unique filter String.eqb
       Ascii.eqb Bool.eqb negb flat_map city_slice timestamp app].
  cbn [Validator.timestamp_max dropna flat_map app fold_left].
  rewrite Z.max_id, Z.sub_diag. reflexivity.
Qed.

(** C8 (as the code behaves). For the batch of exactly two records of city
    "A" with temperatures 20 and 100, stamped with the current time and
    equal and in range otherwise, validation produces no anomaly issue: the
    only issue is the failed range check on temperature, and the status is
    "failed". *)
Theorem two_readings_no_anomaly (ts n : Z) :
  let v := Validator.validate_data ts n (two_readings_batch ts) in
  Validator.detect_anomalies (two_readings_batch ts) = []
  /\ Validator.issues v =
       [Validator.DataQualityCheckFailed
          (Validator.expect_column_values_to_be_between "temperature" (-50) 50)]
  /\ Validator.status v = "failed".
Proof.
  assert (Ha : Validator.detect_anomalies (two_readings_batch ts) = [])
    by reflexivity.
  assert (Hi : Validator.issues (Validator.validate_data ts n (two_readings_batch ts)) =
       [Validator.DataQualityCheckFailed
          (Validator.expect_column_values_to_be_between "temperature" (-50) 50)]).
  { unfold Validator.validate_data; cbn [Validator.issues].
    rewrite two_readings_freshness, Ha. reflexivity. }
  cbv zeta. split; [exact Ha|]. split; [exact Hi|].
  unfold Validator.validate_data in *; cbn [Validator.issues Validator.status] in *.
  now rewrite Hi.
Qed.

(** C8, refuted as stated: validating the two-record batch yields no anomaly
    issue for city "A", column "temperature", value 100. *)
Lemma two_readings_anomaly_claim_fails :
  ~ exists value score,
      In (Validator.AnomalyDetected "temperature" "A" value score)
         (Validator.issues (Validator.validate_data 0 0 (two_readings_batch 0))).
Proof.
  intros (value & score & H).
  vm_compute in H. destruct H as [H|[]]. discriminate H.
Qed.

Lemma Qis_zero_scaled_difference v med :
  Qis_zero (Validator.zscore_scale * (v - med)) = Qeq_bool v med.
Proof.
  unfold Qis_zero, Qeq_bool, Validator.zscore_scale, Qminus, Qplus, Qopp, Qmult.
  destruct v as [vn vd], med as [mn md]. cbn [Qnum Qden].
  destruct (Z.eqb_spec (vn * Zpos md) (mn * Zpos vd)) as [H|H];
    destruct (Z.eqb_spec (6745 * (vn * Zpos md + - mn * Zpos vd)) 0) as [E|E];
    try reflexivity; exfalso; lia.
Qed.

(** With a median absolute deviation of zero the division is still
    carried out: the score of a cell equal to the median is NaN (0 / 0), the
    score of every other present cell is infinite. *)
Lemma zero_mad_scores col med mad :
  Validator.column_median col = Some med ->
  Validator.column_mad col = Some mad ->
  mad == 0 ->
  Validator.modified_zscores col
  = map (fun x => match x with
                  | Some v => if Qeq_bool v med then NaN else PInf
                  | None => NaN
                  end) col.
Proof.
  intros Hmed Hmad Hzero. unfold Validator.modified_zscores.
  rewrite Hmed, Hmad. apply map_ext. intros [v|]; [|reflexivity].
  cbn [nan_sub nan_scale option_map np_div].
  assert (Hz : Qis_zero mad = true).
  { unfold Qis_zero. apply Z.eqb_eq. unfold Qeq in Hzero. cbn in Hzero. lia. }
  rewrite Hz, Qis_zero_scaled_difference.
  destruct (Qeq_bool v med); [reflexivity|].
  now destruct (Qis_pos _).
Qed.

(** C2 (the code at a frame with zero MAD). In [zero_mad_batch] the
    temperature column has median 20 and median absolute deviation 0; the
    division by the deviation is carried out and the record that differs
    from the median is reported with an infinite score. *)
Theorem zero_mad_column_is_not_skipped :
  (exists median mad,
     Validator.column_median (map temperature zero_mad_batch) = Some median
     /\ median == 20
     /\ Validator.column_mad (map temperature zero_mad_batch) = Some mad
     /\ mad == 0)
  /\ Validator.modified_zscores (map temperature zero_mad_batch)
     = [NaN; NaN; NaN; PInf]
  /\ Validator.detect_anomalies zero_mad_batch
     = [Validator.AnomalyDetected "temperature" "D" (Some 25) PInf]
  /\ Validator.status (Validator.validate_data 0 0 zero_mad_batch) = "failed".
Proof.
  split.
  - eexists _, _. repeat split; vm_compute; reflexivity.
  - repeat split.
Qed.

(** A between-expectation [e] of the suite fails on a frame that holds a
    row [r] whose cell is outside the interval. *)
Ltac failed_between e r Hin Hv Hout :=
  unfold Validator.validate_data; cbn [Validator.issues];
  apply in_or_app; left; unfold Validator.failed_expectations;
  apply in_flat_map; exists e;
  split; [cbv; tauto|];
  let Hs := fresh "Hs" in
  destruct (Validator.expectation_success _ e) eqn:Hs; [|left; reflexivity];
  exfalso; cbn in Hs; rewrite forallb_forall in Hs;
  specialize (Hs r Hin); rewrite Hv in Hs;
  apply andb_true_iff in Hs;
  let Hlo := fresh "Hlo" in
  let Hhi := fresh "Hhi" in
  destruct Hs as [Hlo Hhi];
  apply Qle_bool_iff in Hlo; apply Qle_bool_iff in Hhi;
  destruct Hout as [Hout|Hout];
  [apply (Qlt_not_le _ _ Hout Hlo)|apply (Qlt_not_le _ _ Hout Hhi)].

(** The range checks the suite does hold: a record whose temperature is
    outside [-50, 50] fails the temperature expectation. *)
Lemma range_check_flags_temperature f n df r v :
  In r df -> temperature r = Some v -> (v < -50 \/ 50 < v) ->
  In (Validator.DataQualityCheckFailed
        (Validator.expect_column_values_to_be_between "temperature" (-50) 50))
     (Validator.issues (Validator.validate_data f n df)).
Proof.
  intros Hin Hv Hout.
  failed_between
    (Validator.expect_column_values_to_be_between "temperature" (-50) 50)
    r Hin Hv Hout.
Qed.

(** Likewise for a humidity outside [0, 100]. *)
Lemma range_check_flags_humidity f n df r v :
  In r df -> humidity r = Some v -> (v < 0 \/ 100 < v) ->
  In (Validator.DataQualityCheckFailed
        (Validator.expect_column_values_to_be_between "humidity" 0 100))
     (Validator.issues (Validator.validate_data f n df)).
Proof.
  intros Hin Hv Hout.
  failed_between
    (Validator.expect_column_values_to_be_between "humidity" 0 100)
    r Hin Hv Hout.
Qed.

(** C5 (the code at a pressure below the configured minimum). The record
    of [low_pressure_batch] has pressure 850, below [rule_min pressure_rule]
    = 870; no expectation of the suite names the pressure range, no issue is
    emitted and the verdict is "passed". *)
Theorem pressure_range_is_not_checked :
  map pressure low_pressure_batch = [Some 850]
  /\ 850 < Validator.rule_min Validator.pressure_rule
  /\ (forall lo hi,
        ~ In (Validator.expect_column_values_to_be_between "pressure" lo hi)
             Validator.create_expectation_suite)
  /\ Validator.failed_expectations low_pressure_batch = []
  /\ Validator.issues (Validator.validate_data 0 0 low_pressure_batch) = []
  /\ Validator.status (Validator.validate_data 0 0 low_pressure_batch) = "passed".
Proof.
  split; [reflexivity|]. split; [reflexivity|]. split.
  - intros lo hi H. cbv in H.
    repeat (destruct H as [H|H]; [discriminate H|]). exact H.
  - repeat split.
Qed.

(** ** The integrator *)

(** Unfolds the operations of [M] in the goal. *)
Ltac unfold_M :=
  unfold try_except, bind, ret, emit, lift, logger, now, any_Exception.

Section IntegratorFacts.

Variable clock : nat -> Z.
Variable validate : DataFrame -> M Validator.ValidationResult.
Variable post : Payload -> result Z.

Let process := Integrator.process_single_city clock validate post.

Lemma send_to_monitoring_service_run c v m t :
  Integrator._send_to_monitoring_service clock post c v m t =
    (let p := mkPayload (Validator.status v) (clock t) c (Validator.issues v) m in
     ([Post p; Log (dispatch_log post c p)], S t, Return tt)).
Proof.
  unfold Integrator._send_to_monitoring_service, dispatch_log; unfold_M.
  cbv zeta. destruct (post _) as [s|e]; cbn; [|reflexivity].
  destruct (negb (Z.eqb s 200)); reflexivity.
Qed.

Lemma process_no_data df c t :
  city_slice df c = [] ->
  process df c t = ([Log (LogNoDataAvailable c)], t, Return tt).
Proof.
  intros H. unfold process, Integrator.process_single_city, try_except.
  cbv zeta. rewrite H. reflexivity.
Qed.

Lemma process_dispatch df c t es t1 v :
  city_slice df c <> [] ->
  validate (city_slice df c) t = (es, t1, Return v) ->
  process df c t =
    (let p := payload_for df c v (clock t1) in
     (es ++ [Post p; Log (dispatch_log post c p)], S t1, Return tt)).
Proof.
  intros Hne Hv. unfold process, Integrator.process_single_city, try_except.
  cbv zeta. destruct (city_slice df c) as [|r rest] eqn:Hs; [congruence|].
  cbn [df_empty]. unfold bind at 1. rewrite Hv.
  rewrite send_to_monitoring_service_run. reflexivity.
Qed.

Lemma process_validation_raises df c t es t1 e :
  city_slice df c <> [] ->
  validate (city_slice df c) t = (es, t1, Raise e) ->
  process df c t = (es ++ [Log (LogErrorProcessing c e)], t1, Return tt).
Proof.
  intros Hne Hv. unfold process, Integrator.process_single_city, try_except.
  cbv zeta. destruct (city_slice df c) as [|r rest] eqn:Hs; [congruence|].
  cbn [df_empty]. unfold bind at 1. rewrite Hv. reflexivity.
Qed.

(** Whatever happens while a city is processed, nothing is raised out of
    [process_single_city]. *)
Lemma process_never_raises df c t :
  exists es t', process df c t = (es, t', Return tt).
Proof.
  destruct (city_slice df c) as [|r rest] eqn:Hs.
  - rewrite (process_no_data df c t Hs). eauto.
  - destruct (validate (city_slice df c) t) as [[es t1] [v|e]] eqn:Hv.
    + erewrite process_dispatch; eauto. rewrite Hs; discriminate.
    + erewrite process_validation_raises; eauto. rewrite Hs; discriminate.
Qed.

(** [gather] over tasks that never raise: it returns, and the events of
    every task are among its events. *)
Lemma gather_tasks (f : string -> M unit) :
  (forall c t, exists es t', f c t = (es, t', Return tt)) ->
  forall cs t, exists es t',
    Integrator.gather (map f cs) t = (es, t', Return tt)
    /\ forall c, In c cs -> exists tc, incl (events_of (f c tc)) es.
Proof.
  intros Hf cs. induction cs as [|c cs IH]; intros t; cbn [map Integrator.gather].
  - exists [], t. split; [reflexivity|]. intros c [].
  - destruct (Hf c t) as (es & t1 & Hc). rewrite Hc.
    destruct (IH t1) as (es' & t2 & Hg & Hin). rewrite Hg.
    exists (es ++ es'), t2. split; [reflexivity|].
    intros c' [->|Hc'].
    + exists t. rewrite Hc. cbn. apply incl_appl, incl_refl.
    + destruct (Hin c' Hc') as (tc & Htc). exists tc.
      apply incl_appr, Htc.
Qed.

End IntegratorFacts.

(** C7 (as the code behaves). In a cycle over a non-empty batch, take any
    monitored city that has records, whose validation returns and whose
    payloads the sink accepts.  Whatever happens for the other cities (their
    validation may raise, the sink may reject or raise), the cycle returns
    without raising, the payload of that city, built from its verdict and
    its metrics, is posted, and its success is logged.  A failure of any
    monitored city with records is caught at the boundary of that city (its
    task returns) and logged: an exception raised by its validation is
    logged as an error processing the city; a payload the sink answers with
    a status other than 200 is logged with that status; an exception raised
    by the client of the sink is logged as an error sending.  The cycle
    returns no value: there is no per-entity summary. *)
Theorem fan_out_isolation
    (clock : nat -> Z) (cities : list string) (fetch : M DataFrame)
    (validate : DataFrame -> M Validator.ValidationResult)
    (post : Payload -> result Z)
    (t : nat) (es_f : list event) (t_f : nat) (df : DataFrame) (c : string) :
  fetch t = (es_f, t_f, Return df) ->
  df <> [] ->
  In c cities ->
  city_slice df c <> [] ->
  (forall t0, exists es0 t1 v, validate (city_slice df c) t0 = (es0, t1, Return v)) ->
  (forall p, payload_city p = c -> post p = Return 200%Z) ->
  exists es t' v t0 es0 t1,
    Integrator.run_monitoring_cycle clock cities fetch validate post t
      = (es, t', Return tt)
    /\ (forall k tk, exists es_k t_k,
          Integrator.process_single_city clock validate post df k tk
          = (es_k, t_k, Return tt))
    /\ validate (city_slice df c) t0 = (es0, t1, Return v)
    /\ In (Post (payload_for df c v (clock t1))) es
    /\ post (payload_for df c v (clock t1)) = Return 200%Z
    /\ In (Log (LogRecorded c)) es
    /\ (forall k, In k cities -> city_slice df k <> [] ->
          exists t_k es_k t_k' r,
            validate (city_slice df k) t_k = (es_k, t_k', r)
            /\ (forall e, r = Raise e -> In (Log (LogErrorProcessing k e)) es)
            /\ (forall v_k, r = Return v_k ->
                  let p := payload_for df k v_k (clock t_k') in
                  In (Post p) es
                  /\ (forall s, post p = Return s -> s <> 200%Z ->
                                In (Log (LogFailedToSend k s)) es)
                  /\ (forall e, post p = Raise e ->
                                In (Log (LogErrorSending k e)) es))).
Proof.
  intros Hf Hne Hc Hs Hv Hp.
  destruct (gather_tasks (Integrator.process_single_city clock validate post df)
              (process_never_raises clock validate post df) cities t_f)
    as (es & t' & Hg & Hin).
  destruct (Hin c Hc) as (t0 & Hincl).
  destruct (Hv t0) as (es0 & t1 & v & Hv0).
  rewrite (process_dispatch clock validate post df c t0 es0 t1 v Hs Hv0) in Hincl.
  cbv zeta in Hincl. unfold events_of in Hincl; cbn [fst] in Hincl.
  assert (Hpost : post (payload_for df c v (clock t1)) = Return 200%Z)
    by (apply Hp; reflexivity).
  unfold dispatch_log in Hincl. rewrite Hpost in Hincl. cbn in Hincl.
  assert (Hall : forall e, In e es -> In e (FetchCalled :: es_f ++ es))
    by (intros e He; right; apply in_or_app; right; exact He).
  exists (FetchCalled :: es_f ++ es), t', v, t0, es0, t1.
  split.
  { unfold Integrator.run_monitoring_cycle; unfold_M.
    rewrite Hf. destruct df as [|r df']; [congruence|]. cbn [df_empty].
    rewrite Hg. reflexivity. }
  split; [apply process_never_raises|].
  split; [exact Hv0|].
  split; [|split; [exact Hpost|split]].
  - apply Hall, Hincl. apply in_or_app. right. left. reflexivity.
  - apply Hall, Hincl. apply in_or_app. right. right. left. reflexivity.
  - intros k Hk Hsk. destruct (Hin k Hk) as (t_k & Hincl_k).
    destruct (validate (city_slice df k) t_k) as [[es_k t_k'] r] eqn:Hvk.
    exists t_k, es_k, t_k', r. split; [exact Hvk|].
    unfold events_of in Hincl_k. split.
    + intros e ->.
      rewrite (process_validation_raises clock validate post df k t_k es_k t_k' e
                 Hsk Hvk) in Hincl_k.
      cbn [fst] in Hincl_k. apply Hall, Hincl_k.
      apply in_or_app. right. left. reflexivity.
    + intros v_k ->.
      rewrite (process_dispatch clock validate post df k t_k es_k t_k' v_k
                 Hsk Hvk) in Hincl_k.
      cbv zeta in Hincl_k |- *. cbn [fst] in Hincl_k.
      assert (Hlog : In (Log (dispatch_log post k
                                 (payload_for df k v_k (clock t_k'))))
                        (FetchCalled :: es_f ++ es)).
      { apply Hall, Hincl_k. apply in_or_app. right. right. left. reflexivity. }
      split; [|split].
      * apply Hall, Hincl_k. apply in_or_app. right. left. reflexivity.
      * intros s Hps Hs200. unfold dispatch_log in Hlog. rewrite Hps in Hlog.
        apply Z.eqb_neq in Hs200. rewrite Hs200 in Hlog. exact Hlog.
      * intros e Hpe. unfold dispatch_log in Hlog. rewrite Hpe in Hlog.
        exact Hlog.
Qed.

Lemma fan_out_isolation_witness :
  exists es t' v t0 es0 t1,
    Integrator.run_monitoring_cycle frozen_clock ["A"; "B"] (ret two_city_batch)
      (Integrator.WeatherDataValidator frozen_clock) (failing_sink_for "A") 0%nat
      = (es, t', Return tt)
    /\ (forall k tk, exists es_k t_k,
          Integrator.process_single_city frozen_clock
            (Integrator.WeatherDataValidator frozen_clock) (failing_sink_for "A")
            two_city_batch k tk
          = (es_k, t_k, Return tt))
    /\ Integrator.WeatherDataValidator frozen_clock (city_slice two_city_batch "B") t0
       = (es0, t1, Return v)
    /\ In (Post (payload_for two_city_batch "B" v (frozen_clock t1))) es
    /\ failing_sink_for "A" (payload_for two_city_batch "B" v (frozen_clock t1))
       = Return 200%Z
    /\ In (Log (LogRecorded "B")) es
    /\ In (Log (LogErrorSending "A"
                  (PyException "ClientConnectorError" "connection refused"))) es.
Proof.
  destruct (fan_out_isolation frozen_clock ["A"; "B"] (ret two_city_batch)
              (Integrator.WeatherDataValidator frozen_clock) (failing_sink_for "A")
              0%nat [] 0%nat two_city_batch "B")
    as (es & t' & v & t0 & es0 & t1 & Hrun & Hproc & Hv & Hpost & Hok & Hlog & Hfail).
  - reflexivity.
  - discriminate.
  - simpl; auto.
  - discriminate.
  - intros t0. eexists _, _, _. reflexivity.
  - intros p Hp. unfold failing_sink_for. rewrite Hp. reflexivity.
  - exists es, t', v, t0, es0, t1.
    repeat (split; [assumption|]).
    destruct (Hfail "A") as (t_k & es_k & t_k' & r & Hvk & _ & Hsent).
    + simpl; auto.
    + discriminate.
    + injection Hvk as _ _ <-.
      destruct (Hsent _ eq_refl) as (_ & _ & Hraise).
      apply Hraise. reflexivity.
Defined.

(** C7, refuted as stated: no summary entry read off the value the cycle
    returns can report whether the dispatch of a city succeeded.  With the
    batch of cities "A" and "B", the cycle returns the same value when the
    sink fails for "A" only (and "B" is recorded) and when it fails for "B"
    only (and "B" is not recorded). *)
Lemma cycle_returns_no_summary :
  ~ exists summary_entry : result unit -> string -> bool,
      forall post : Payload -> result Z,
        let run := Integrator.run_monitoring_cycle frozen_clock ["A"; "B"]
                     (ret two_city_batch)
                     (Integrator.WeatherDataValidator frozen_clock) post 0%nat in
        summary_entry (result_of run) "B" = true
        <-> In (Log (LogRecorded "B")) (events_of run).
Proof.
  intros (summary_entry & H).
  pose proof (H (failing_sink_for "A")) as HA.
  pose proof (H (failing_sink_for "B")) as HB.
  cbv zeta in HA, HB.
  assert (Hyes : summary_entry (Return tt) "B" = true).
  { apply HA. vm_compute. intuition. }
  apply HB in Hyes. vm_compute in Hyes.
  repeat (destruct Hyes as [Hyes|Hyes]; [discriminate Hyes|]). exact Hyes.
Qed.

(** C9. When the extractor yields an empty batch or raises, the cycle calls
    it once, logs one error and returns without raising: it reads no clock,
    validates nothing and posts nothing.  A city without records in the
    batch is logged and skipped: nothing is posted for it, and its metrics
    are the empty dict. *)
Theorem cycle_skips_without_data
    (clock : nat -> Z) (cities : list string) (fetch : M DataFrame)
    (validate : DataFrame -> M Validator.ValidationResult)
    (post : Payload -> result Z)
    (t : nat) (es_f : list event) (t_f : nat) (r : result DataFrame) :
  fetch t = (es_f, t_f, r) ->
  (r = Return [] \/ exists e, r = Raise e) ->
  Integrator.run_monitoring_cycle clock cities fetch validate post t
    = (FetchCalled :: es_f
         ++ [Log (match r with
                  | Return _ => LogNoWeatherDataFetched
                  | Raise e => LogErrorInCycle e
                  end)],
       t_f, Return tt)
  /\ forall df c t0,
       city_slice df c = [] ->
       Integrator.process_single_city clock validate post df c t0
         = ([Log (LogNoDataAvailable c)], t0, Return tt)
       /\ Integrator._calculate_metrics df c = [].
Proof.
  intros Hf Hr. split.
  - unfold Integrator.run_monitoring_cycle; unfold_M.
    rewrite Hf. destruct Hr as [->|[e ->]]; cbn.
    + reflexivity.
    + reflexivity.
  - intros df c t0 Hs. split.
    + apply process_no_data, Hs.
    + unfold Integrator._calculate_metrics. now rewrite Hs.
Qed.

Lemma cycle_skips_without_data_witness :
  Integrator.run_monitoring_cycle frozen_clock ["A"; "B"]
    (lift (Raise (PyException "ConnectionError" "unreachable")))
    (Integrator.WeatherDataValidator frozen_clock) accepting_sink 0%nat
    = ([FetchCalled;
        Log (LogErrorInCycle (PyException "ConnectionError" "unreachable"))],
       0%nat, Return tt)
  /\ forall df c t0,
       city_slice df c = [] ->
       Integrator.process_single_city frozen_clock
         (Integrator.WeatherDataValidator frozen_clock) accepting_sink df c t0
         = ([Log (LogNoDataAvailable c)], t0, Return tt)
       /\ Integrator._calculate_metrics df c = [].
Proof.
  apply (cycle_skips_without_data frozen_clock ["A"; "B"]
           (lift (Raise (PyException "ConnectionError" "unreachable")))
           (Integrator.WeatherDataValidator frozen_clock) accepting_sink
           0%nat [] 0%nat (Raise (PyException "ConnectionError" "unreachable"))).
  - reflexivity.
  - right. eexists. reflexivity.
Defined.

Lemma validator_run clock df t :
  Integrator.WeatherDataValidator clock df t
  = ([], S (S t), Return (Validator.validate_data (clock t) (clock (S t)) df)).
Proof. reflexivity. Qed.

(** C1 (as the code behaves). For every city with records in the batch,
    [process_single_city] validates the city's own slice: the anomaly issues
    of the payload it posts are those [detect_anomalies] finds on the slice,
    with the median and the MAD of the slice alone; and a batch with the
    same slice for the city gives the same run, whatever its other rows. *)
Theorem anomaly_check_over_entity_slice
    (clock : nat -> Z) (post : Payload -> result Z)
    (df : DataFrame) (c : string) (t : nat) :
  city_slice df c <> [] ->
  (exists p l,
     Integrator.process_single_city clock
       (Integrator.WeatherDataValidator clock) post df c t
       = ([Post p; Log l], S (S (S t)), Return tt)
     /\ payload_city p = c
     /\ anomalies_of (payload_issues p)
        = Validator.detect_anomalies (city_slice df c))
  /\ forall df',
       city_slice df' c = city_slice df c ->
       Integrator.process_single_city clock
         (Integrator.WeatherDataValidator clock) post df' c t
       = Integrator.process_single_city clock
           (Integrator.WeatherDataValidator clock) post df c t.
Proof.
  intros Hs. split.
  - eexists _, _. split.
    + rewrite (process_dispatch clock _ post df c t [] (S (S t)) _ Hs
                 (validator_run clock (city_slice df c) t)).
      reflexivity.
    + split; [reflexivity|]. cbn [payload_for payload_issues].
      apply anomalies_of_validate_data.
  - intros df' Heq.
    assert (Hs' : city_slice df' c <> []) by (rewrite Heq; exact Hs).
    rewrite (process_dispatch clock _ post df c t [] (S (S t)) _ Hs
               (validator_run clock (city_slice df c) t)).
    rewrite (process_dispatch clock _ post df' c t [] (S (S t)) _ Hs'
               (validator_run clock (city_slice df' c) t)).
    unfold payload_for, Integrator._calculate_metrics. rewrite Heq. reflexivity.
Qed.

Lemma anomaly_check_over_entity_slice_witness :
  (exists p l,
     Integrator.process_single_city frozen_clock
       (Integrator.WeatherDataValidator frozen_clock) accepting_sink
       spread_batch "F" 0%nat
       = ([Post p; Log l], 3%nat, Return tt)
     /\ payload_city p = "F"
     /\ anomalies_of (payload_issues p)
        = Validator.detect_anomalies (city_slice spread_batch "F"))
  /\ forall df',
       city_slice df' "F" = city_slice spread_batch "F" ->
       Integrator.process_single_city frozen_clock
         (Integrator.WeatherDataValidator frozen_clock) accepting_sink df' "F" 0%nat
       = Integrator.process_single_city frozen_clock
           (Integrator.WeatherDataValidator frozen_clock) accepting_sink
           spread_batch "F" 0%nat.
Proof.
  apply (anomaly_check_over_entity_slice frozen_clock accepting_sink
           spread_batch "F" 0%nat).
  discriminate.
Defined.

(** C1, refuted as stated: in [spread_batch] the check run on the whole
    batch (median 22.5, MAD 1.5) reports the temperature 45 of city "F",
    but the payload posted for "F" carries no anomaly issue. *)
Lemma anomaly_check_is_not_batch_wide :
  exists p l score,
    Integrator.process_single_city frozen_clock
      (Integrator.WeatherDataValidator frozen_clock) accepting_sink
      spread_batch "F" 0%nat
      = ([Post p; Log l], 3%nat, Return tt)
    /\ payload_city p = "F"
    /\ anomalies_of (payload_issues p) = []
    /\ batch_wide_anomalies spread_batch "F"
       = [Validator.AnomalyDetected "temperature" "F" (Some 45) (Finite score)]
    /\ anomalies_of (payload_issues p) <> batch_wide_anomalies spread_batch "F"
    /\ anomalies_of (payload_issues p) <> Validator.detect_anomalies spread_batch.
Proof.
  eexists _, _, _. split; [vm_compute; reflexivity|].
  split; [reflexivity|]. split; [reflexivity|].
  split; [vm_compute; reflexivity|].
  split; vm_compute; discriminate.
Qed.

(** ** The metrics *)

Lemma column_null_count_cons r df name :
  Integrator.column_null_count (r :: df) name
  = (match cell_isnull name with
     | Some null => Nat.b2n (null r)
     | None => O
     end + Integrator.column_null_count df name)%nat.
Proof.
  unfold Integrator.column_null_count.
  destruct (cell_isnull name) as [null|]; [|reflexivity].
  cbn [filter]. now destruct (null r).
Qed.

(** [isnull().sum().sum()] counts the missing cells row by row. *)
Lemma null_count_missing_cells df :
  Integrator.null_count df = missing_cells df.
Proof.
  induction df as [|r df IH]; [reflexivity|].
  cbn [missing_cells fold_right]. fold (missing_cells df). rewrite <- IH.
  unfold Integrator.null_count, df_columns. cbn [map fold_right].
  rewrite !column_null_count_cons. cbn. unfold row_missing_cells. lia.
Qed.

(** C6 (as the code behaves). For every city with records in the batch,
    the metric [data_completeness] is 100 * (1 - missing cells / total
    cells), where both counts range over all seven columns of the frame
    (city, timestamp, the four measurements and the condition label): total
    cells is the record count of the slice times 7. *)
Theorem data_completeness_over_all_columns (df : DataFrame) (c : string) :
  city_slice df c <> [] ->
  exists v,
    metrics_get (Integrator._calculate_metrics df c) "data_completeness"
      = Some (Some v)
    /\ v == 100 * (1 - Integrator.Qnat (missing_cells (city_slice df c))
                       / Integrator.Qnat (List.length (city_slice df c) * 7))
    /\ v == completeness_over df_columns (city_slice df c).
Proof.
  intros Hs. exists (Integrator.data_completeness (city_slice df c)).
  split.
  - unfold Integrator._calculate_metrics.
    destruct (city_slice df c); [congruence|]. reflexivity.
  - unfold Integrator.data_completeness, completeness_over.
    fold (Integrator.null_count (city_slice df c)).
    rewrite <- null_count_missing_cells.
    change (List.length df_columns) with 7%nat.
    split; ring.
Qed.

Lemma data_completeness_over_all_columns_witness :
  exists v,
    metrics_get (Integrator._calculate_metrics missing_temperature_batch "A")
      "data_completeness" = Some (Some v)
    /\ v == 100 * (1 - Integrator.Qnat
                         (missing_cells (city_slice missing_temperature_batch "A"))
                       / Integrator.Qnat
                           (List.length (city_slice missing_temperature_batch "A") * 7))
    /\ v == completeness_over df_columns (city_slice missing_temperature_batch "A").
Proof.
  apply (data_completeness_over_all_columns missing_temperature_batch "A").
  discriminate.
Defined.

(** C6, refuted as stated: for one record whose temperature is missing, the
    metric is 100 * (1 - 1/7) = 600/7, whereas the formula over the four
    measurement columns gives 100 * (1 - 1/4) = 75. *)
Lemma completeness_is_not_over_measurement_columns :
  exists v,
    metrics_get (Integrator._calculate_metrics missing_temperature_batch "A")
      "data_completeness" = Some (Some v)
    /\ v == 600 # 7
    /\ completeness_over measurement_columns
         (city_slice missing_temperature_batch "A") == 75
    /\ ~ v == completeness_over measurement_columns
              (city_slice missing_temperature_batch "A").
Proof.
  eexists. split; [reflexivity|].
  split; [reflexivity|]. split; [reflexivity|].
  intros H. vm_compute in H. discriminate H.
Qed.

(** ** The extractor *)

Section ExtractorFacts.

Variable http_get : string -> result Extractor.json.
Variable WeatherData :
  string -> Extractor.json -> Extractor.json -> Extractor.json ->
  Extractor.json -> Extractor.json -> result WeatherRow.

(** A request that fails with a [RequestException] is logged and answered
    by [None]; nothing is raised. *)
Lemma make_api_request_run c t :
  (forall e, http_get c = Raise e -> is_RequestException e = true) ->
  exists logs,
    Extractor._make_api_request http_get c t
    = (HttpGet c :: logs, t,
       Return (match http_get c with Return body => Some body | Raise _ => None end)).
Proof.
  intros Hc. unfold Extractor._make_api_request; unfold_M.
  destruct (http_get c) as [body|e] eqn:Hget.
  - exists []. reflexivity.
  - rewrite (Hc e eq_refl). destruct e; cbn; eexists; reflexivity.
Qed.

(** Any other exception gets out of [_make_api_request]. *)
Lemma make_api_request_propagates c t e :
  http_get c = Raise e -> is_RequestException e = false ->
  Extractor._make_api_request http_get c t = ([HttpGet c], t, Raise e).
Proof.
  intros Hget He. unfold Extractor._make_api_request; unfold_M.
  rewrite Hget, He. reflexivity.
Qed.

(** A payload that fails to parse is logged and answered by [None]. *)
Lemma parse_weather_data_run c raw t :
  exists logs,
    Extractor._parse_weather_data WeatherData c raw t
    = (logs, t,
       Return (match Extractor.WeatherData_from WeatherData c raw with
               | Return parsed => Some parsed
               | Raise _ => None
               end)).
Proof.
  unfold Extractor._parse_weather_data; unfold_M.
  destruct (Extractor.WeatherData_from WeatherData c raw); cbn; eexists; reflexivity.
Qed.

Lemma fetch_loop_run todo :
  (forall c e, In c todo -> http_get c = Raise e -> is_RequestException e = true) ->
  forall weather_data t,
  exists es,
    Extractor.fetch_loop http_get WeatherData todo weather_data t
    = (es, t, Return (weather_data ++ flat_map (kept_row http_get WeatherData) todo)).
Proof.
  induction todo as [|c todo IH]; intros Hreq weather_data t.
  - exists []. cbn. now rewrite app_nil_r.
  - assert (Hc : forall e, http_get c = Raise e -> is_RequestException e = true)
      by (intros e; apply Hreq; left; reflexivity).
    assert (Hrest : forall c' e, In c' todo -> http_get c' = Raise e ->
                                 is_RequestException e = true)
      by (intros c' e Hin; apply Hreq; right; exact Hin).
    destruct (make_api_request_run c t Hc) as (logs & Hrun).
    cbn [Extractor.fetch_loop flat_map]. unfold bind at 1. rewrite Hrun.
    unfold kept_row at 1.
    destruct (http_get c) as [raw|e].
    + destruct (Extractor.truthy raw).
      * destruct (parse_weather_data_run c raw t) as (logs' & Hparse).
        unfold bind at 1. rewrite Hparse.
        destruct (Extractor.WeatherData_from WeatherData c raw) as [parsed|e].
        -- destruct (IH Hrest (weather_data ++ [parsed]) t) as (es & Hes).
           rewrite Hes. eexists. rewrite <- app_assoc. reflexivity.
        -- destruct (IH Hrest weather_data t) as (es & Hes).
           rewrite Hes. eexists. reflexivity.
      * destruct (IH Hrest weather_data t) as (es & Hes).
        rewrite Hes. eexists. reflexivity.
    + destruct (IH Hrest weather_data t) as (es & Hes).
      rewrite Hes. eexists. reflexivity.
Qed.

Lemma fetch_weather_data_run cities t :
  (forall c e, In c cities -> http_get c = Raise e -> is_RequestException e = true) ->
  exists es,
    Extractor.fetch_weather_data http_get WeatherData cities t
    = (es, t, Return (flat_map (kept_row http_get WeatherData) cities)).
Proof.
  intros Hreq. destruct (fetch_loop_run cities Hreq [] t) as (es & Hes).
  unfold Extractor.fetch_weather_data, bind. rewrite Hes. cbn [app].
  destruct (flat_map _ cities); cbn; eexists; reflexivity.
Qed.

(** The hypothesis on the requests is needed: an exception of another class
    raised by the first request gets out of [fetch_weather_data]. *)
Lemma fetch_weather_data_propagates c rest t e :
  http_get c = Raise e -> is_RequestException e = false ->
  Extractor.fetch_weather_data http_get WeatherData (c :: rest) t
  = ([HttpGet c], t, Raise e).
Proof.
  intros Hget He. unfold Extractor.fetch_weather_data.
  cbn [Extractor.fetch_loop]. unfold bind.
  rewrite (make_api_request_propagates c t e Hget He). reflexivity.
Qed.

End ExtractorFacts.

(** C10 (as the code behaves). Whatever the requests and the parses of the
    cities give, provided a failing request fails with a [RequestException]
    (a timeout included),
    [fetch_weather_data] returns without raising.  The batch holds, in the
    order of the cities, the parsed record of each city whose request
    answered and whose payload parsed; a city whose request failed or whose
    payload did not parse is left out; when this happens for every city the
    batch is empty, and the cycle of the integrator then logs and returns
    without validating or posting anything. *)
Theorem fetch_weather_data_never_raises
    (http_get : string -> result Extractor.json)
    (WeatherData : string -> Extractor.json -> Extractor.json -> Extractor.json ->
                   Extractor.json -> Extractor.json -> result WeatherRow)
    (cities : list string) (t : nat) :
  (forall c e, In c cities -> http_get c = Raise e -> is_RequestException e = true) ->
  exists es,
    Extractor.fetch_weather_data http_get WeatherData cities t
      = (es, t, Return (flat_map (kept_row http_get WeatherData) cities))
    /\ (forall c e, http_get c = Raise e -> kept_row http_get WeatherData c = [])
    /\ (forall c raw e,
          http_get c = Return raw ->
          Extractor.WeatherData_from WeatherData c raw = Raise e ->
          kept_row http_get WeatherData c = [])
    /\ ((forall c, In c cities -> kept_row http_get WeatherData c = []) ->
        Extractor.fetch_weather_data http_get WeatherData cities t
          = (es, t, Return [])
        /\ forall clock validate post,
             Integrator.run_monitoring_cycle clock cities
               (Extractor.fetch_weather_data http_get WeatherData cities)
               validate post t
             = (FetchCalled :: es ++ [Log LogNoWeatherDataFetched], t, Return tt)).
Proof.
  intros Hreq.
  destruct (fetch_weather_data_run http_get WeatherData cities t Hreq) as (es & Hes).
  exists es. split; [exact Hes|]. split; [|split].
  - intros c e Hget. unfold kept_row. now rewrite Hget.
  - intros c raw e Hget Hparse. unfold kept_row. rewrite Hget, Hparse.
    now destruct (Extractor.truthy raw).
  - intros Hall.
    assert (Hnil : flat_map (kept_row http_get WeatherData) cities = [])
      by (apply flat_map_nil_ext; exact Hall).
    rewrite Hnil in Hes. split; [exact Hes|].
    intros clock validate post.
    unfold Integrator.run_monitoring_cycle; unfold_M.
    rewrite Hes. reflexivity.
Qed.

Lemma fetch_weather_data_never_raises_witness :
  exists es,
    Extractor.fetch_weather_data sample_http_get sample_WeatherData
      ["London"; "Paris"; "Tokyo"] 0%nat
      = (es, 0%nat,
         Return (flat_map (kept_row sample_http_get sample_WeatherData)
                   ["London"; "Paris"; "Tokyo"]))
    /\ flat_map (kept_row sample_http_get sample_WeatherData)
         ["London"; "Paris"; "Tokyo"]
       = [mkRow "London" (Some 0%Z) (Some (205 # 10)) (Some 65) (Some 1013)
            (Some (55 # 10)) (Some "Clouds")].
Proof.
  destruct (fetch_weather_data_never_raises sample_http_get sample_WeatherData
              ["London"; "Paris"; "Tokyo"] 0%nat) as (es & Hes & _).
  - intros c e _. unfold sample_http_get.
    destruct (String.eqb c "London"); [discriminate|].
    destruct (String.eqb c "Paris"); intros H; inversion H; reflexivity.
  - exists es. split; [exact Hes|reflexivity].
Defined.

(** C10, refuted as stated: not every request outcome is caught.  The two
    handlers of [_make_api_request] name [Timeout] and [RequestException];
    an exception of another class raised under the [try] (here by the
    decoding of the body of "Paris") gets out of [_make_api_request] and out
    of [fetch_weather_data], which has no handler: the call raises, the
    record already parsed for "London" is lost with it, and "Tokyo" is never
    requested. *)
Lemma fetch_weather_data_raises_on_other_exception :
  Extractor.fetch_weather_data undecodable_http_get sample_WeatherData
    ["London"; "Paris"; "Tokyo"] 0%nat
  = ([HttpGet "London"; HttpGet "Paris"], 0%nat,
     Raise (PyException "RecursionError"
              "maximum recursion depth exceeded while decoding a JSON array"))
  /\ ~ (forall (http_get : string -> result Extractor.json)
               (WeatherData : string -> Extractor.json -> Extractor.json ->
                              Extractor.json -> Extractor.json -> Extractor.json ->
                              result WeatherRow)
               (cities : list string) (t : nat),
          exists es t' batch,
            Extractor.fetch_weather_data http_get WeatherData cities t
            = (es, t', Return batch)).
Proof.
  assert (Hrun : Extractor.fetch_weather_data undecodable_http_get
                   sample_WeatherData ["London"; "Paris"; "Tokyo"] 0%nat
                 = ([HttpGet "London"; HttpGet "Paris"], 0%nat,
                    Raise (PyException "RecursionError"
                             "maximum recursion depth exceeded while decoding a JSON array")))
    by (vm_compute; reflexivity).
  split; [exact Hrun|].
  intros Hclaim.
  destruct (Hclaim undecodable_http_get sample_WeatherData
              ["London"; "Paris"; "Tokyo"] 0%nat) as (es & t' & batch & Hret).
  rewrite Hrun in Hret. discriminate Hret.
Qed.

(** * Further properties *)

From Stdlib Require Import Qfield Lqa.

(** ** Frames *)

Lemma in_filter_neq x y l :
  In x (filter (fun z => negb (String.eqb z y)) l) <-> In x l /\ x <> y.
Proof.
  rewrite filter_In. split; intros [H1 H2]; split; auto.
  - intros ->. rewrite String.eqb_refl in H2. discriminate.
  - apply negb_true_iff. now apply String.eqb_neq.
Qed.

(** [unique] keeps exactly the values of the list. *)
Lemma in_unique x l : In x (unique l) <-> In x l.
Proof.
  induction l as [|y l IH]; cbn [unique]; [reflexivity|].
  cbn [In]. rewrite in_filter_neq, IH.
  destruct (String.eqb_spec y x) as [->|Hne]; [tauto|].
  split; [tauto|]. intros [H|H]; [tauto|]. right. split; [exact H|congruence].
Qed.

Lemma NoDup_filter {A} (f : A -> bool) l : NoDup l -> NoDup (filter f l).
Proof.
  induction 1 as [|a l Hn Hd IH]; cbn [filter]; [constructor|].
  destruct (f a); [|exact IH]. constructor; [|exact IH].
  rewrite filter_In. tauto.
Qed.

(** [unique] keeps each value once. *)
Lemma NoDup_unique l : NoDup (unique l).
Proof.
  induction l as [|y l IH]; cbn [unique]; constructor.
  - rewrite in_filter_neq. tauto.
  - apply NoDup_filter, IH.
Qed.

Lemma in_city_slice r df c : In r (city_slice df c) <-> In r df /\ city r = c.
Proof.
  unfold city_slice. rewrite filter_In.
  split; intros [H1 H2]; split; auto.
  - now apply String.eqb_eq.
  - now apply String.eqb_eq.
Qed.

(** ** Freshness *)

Lemma in_dropna {A} (x : A) l : In x (dropna l) <-> In (Some x) l.
Proof.
  unfold dropna. rewrite in_flat_map. split.
  - intros ([y|] & Hin & Hx); [|destruct Hx].
    destruct Hx as [->|[]]. exact Hin.
  - intros Hin. exists (Some x). split; [exact Hin|left; reflexivity].
Qed.

Lemma fold_left_Zmax_spec l a :
  (fold_left Z.max l a = a \/ In (fold_left Z.max l a) l)
  /\ (a <= fold_left Z.max l a)%Z
  /\ forall x, In x l -> (x <= fold_left Z.max l a)%Z.
Proof.
  revert a. induction l as [|y l IH]; intros a; cbn [fold_left In].
  - split; [left; reflexivity|]. split; [lia|]. intros x [].
  - destruct (IH (Z.max a y)) as (Hin & Hle & Hall). split; [|split].
    + destruct Hin as [Heq|Hin]; [|right; right; exact Hin].
      rewrite Heq. destruct (Z.max_spec a y) as [[_ ->]|[_ ->]]; auto.
    + lia.
    + intros x [<-|Hx]; [lia|]. apply Hall, Hx.
Qed.

(** [timestamp_max] is the greatest of the present timestamps. *)
Lemma timestamp_max_spec col newest :
  Validator.timestamp_max col = Some newest
  <-> In (Some newest) col /\ forall t, In (Some t) col -> (t <= newest)%Z.
Proof.
  unfold Validator.timestamp_max.
  destruct (dropna col) as [|a l] eqn:Hd.
  - split; [discriminate|]. intros [Hin _].
    apply in_dropna in Hin. rewrite Hd in Hin. destruct Hin.
  - destruct (fold_left_Zmax_spec l a) as (Hin & Hle & Hall).
    assert (Hmem : forall t, In (Some t) col <-> t = a \/ In t l).
    { intros t. rewrite <- in_dropna, Hd. cbn [In]. split; intros [H|H]; auto. }
    split.
    + intros [= <-]. split.
      * apply Hmem. destruct Hin as [->|Hin]; auto.
      * intros t Ht. apply Hmem in Ht. destruct Ht as [->|Ht]; auto.
    + intros [Hn Hmax]. f_equal. apply Z.le_antisymm.
      * apply Hmax, Hmem. destruct Hin as [->|Hin]; auto.
      * apply Hmem in Hn. destruct Hn as [->|Hn]; auto.
Qed.

Lemma timestamp_max_none col :
  Validator.timestamp_max col = None <-> forall t, ~ In (Some t) col.
Proof.
  unfold Validator.timestamp_max.
  destruct (dropna col) as [|a l] eqn:Hd.
  - split; [|reflexivity]. intros _ t Hin.
    apply in_dropna in Hin. rewrite Hd in Hin. destruct Hin.
  - split; [discriminate|]. intros H. exfalso. apply (H a).
    apply in_dropna. rewrite Hd. left. reflexivity.
Qed.

Lemma age_exceeds d m :
  negb (Qle_bool (inject_Z d / inject_Z Validator.microseconds_per_minute)
                 (inject_Z m)) = true
  <-> (m * 60000000 < d)%Z.
Proof.
  rewrite negb_true_iff, <- not_true_iff_false, Qle_bool_iff.
  unfold Qle, Qdiv, Qmult, Qinv, inject_Z, Validator.microseconds_per_minute.
  cbn [Qnum Qden]. rewrite Pos.mul_1_l. lia.
Qed.

Lemma age_minutes d :
  Validator.Qtrunc (inject_Z d / inject_Z Validator.microseconds_per_minute)
  = Z.quot d 60000000.
Proof.
  unfold Validator.Qtrunc, Qdiv, Qmult, Qinv, inject_Z,
    Validator.microseconds_per_minute.
  cbn [Qnum Qden]. rewrite Pos.mul_1_l, Z.mul_1_r. reflexivity.
Qed.

(** What the loop body of [check_data_freshness] emits for one city. *)
Lemma freshness_of_city now df m c i :
  In i (match Validator.timestamp_max (map timestamp (city_slice df c)) with
        | None => []
        | Some largest_timestamp =>
            let age := inject_Z (now - largest_timestamp)
                       / inject_Z Validator.microseconds_per_minute in
            if negb (Qle_bool age (inject_Z m))
            then [Validator.DataTooOld c (Validator.Qtrunc age) m]
            else []
        end)
  <-> exists newest,
        newest_timestamp df c = Some newest
        /\ (m * 60000000 < now - newest)%Z
        /\ i = Validator.DataTooOld c (Z.quot (now - newest) 60000000) m.
Proof.
  unfold newest_timestamp.
  destruct (Validator.timestamp_max _) as [newest|].
  - cbv zeta. rewrite age_minutes.
    destruct (negb _) eqn:Hage.
    + apply age_exceeds in Hage. split.
      * intros [<-|[]]. exists newest. auto.
      * intros (n & [= <-] & _ & ->). left. reflexivity.
    + split; [intros []|]. intros (n & [= <-] & Hlt & _).
      apply age_exceeds in Hlt. congruence.
  - split; [intros []|]. intros (n & Hn & _). discriminate.
Qed.

(** X1. [check_data_freshness] reports a city exactly when the newest
    timestamp among the rows of that city is more than [max_age_minutes]
    minutes before the current time; the age it prints is that age in whole
    minutes.  Older rows of a city that also has a fresh row are ignored. *)
Theorem freshness_issue_iff (now : Z) (df : DataFrame) (m : Z)
    (c : string) (a m' : Z) :
  In (Validator.DataTooOld c a m') (Validator.check_data_freshness_with now df m)
  <-> m' = m
      /\ exists newest,
           (exists r, In r df /\ city r = c /\ timestamp r = Some newest)
           /\ (forall r t, In r df -> city r = c -> timestamp r = Some t ->
                           (t <= newest)%Z)
           /\ (m * 60000000 < now - newest)%Z
           /\ a = Z.quot (now - newest) 60000000.
Proof.
  unfold Validator.check_data_freshness_with. rewrite in_flat_map.
  split.
  - intros (c' & Hc' & Hin). apply freshness_of_city in Hin.
    destruct Hin as (newest & Hn & Hlt & Heq). injection Heq as -> -> ->.
    split; [reflexivity|]. exists newest.
    unfold newest_timestamp in Hn. apply timestamp_max_spec in Hn.
    destruct Hn as [Hin Hmax]. apply in_map_iff in Hin.
    destruct Hin as (r & Hr & Hrin). apply in_city_slice in Hrin.
    split; [exists r; tauto|]. split; [|auto].
    intros r' t Hr' Hc Ht. apply Hmax. apply in_map_iff. exists r'.
    split; [exact Ht|]. apply in_city_slice. auto.
  - intros (-> & newest & (r & Hr & Hc & Ht) & Hmax & Hlt & ->).
    exists c. split.
    + unfold df_cities. apply in_unique. apply in_map_iff. exists r. auto.
    + apply freshness_of_city. exists newest. split; [|auto].
      unfold newest_timestamp. apply timestamp_max_spec. split.
      * apply in_map_iff. exists r. split; [exact Ht|].
        apply in_city_slice. auto.
      * intros t Hin. apply in_map_iff in Hin. destruct Hin as (r' & Hr' & Hin).
        apply in_city_slice in Hin. apply (Hmax r' t); tauto.
Qed.

Lemma flat_map_stale_city now df m l :
  flat_map stale_city
    (flat_map
       (fun c =>
          match Validator.timestamp_max (map timestamp (city_slice df c)) with
          | None => []
          | Some largest_timestamp =>
              let age := inject_Z (now - largest_timestamp)
                         / inject_Z Validator.microseconds_per_minute in
              if negb (Qle_bool age (inject_Z m))
              then [Validator.DataTooOld c (Validator.Qtrunc age) m]
              else []
          end) l)
  = filter
      (fun c =>
         match Validator.timestamp_max (map timestamp (city_slice df c)) with
         | None => false
         | Some largest_timestamp =>
             negb (Qle_bool (inject_Z (now - largest_timestamp)
                             / inject_Z Validator.microseconds_per_minute)
                            (inject_Z m))
         end) l.
Proof.
  match goal with
  | |- flat_map _ (flat_map ?f _) = _ => set (body := f)
  end.
  induction l as [|c l IH]; [reflexivity|].
  cbn [flat_map filter]. rewrite flat_map_app, IH. unfold body at 1.
  destruct (Validator.timestamp_max _); [|reflexivity].
  cbv zeta. now destruct (negb _).
Qed.

(** X2. [check_data_freshness] emits nothing but freshness issues, at most
    one per city of the frame: the cities it names are pairwise distinct. *)
Theorem freshness_one_issue_per_city (now : Z) (df : DataFrame) (m : Z) :
  let issues := Validator.check_data_freshness_with now df m in
  NoDup (flat_map stale_city issues)
  /\ (forall i, In i issues -> exists c a, i = Validator.DataTooOld c a m)
  /\ (List.length issues <= List.length (df_cities df))%nat.
Proof.
  cbv zeta. split; [|split].
  - unfold Validator.check_data_freshness_with. rewrite flat_map_stale_city.
    apply NoDup_filter, NoDup_unique.
  - intros i Hin. unfold Validator.check_data_freshness_with in Hin.
    apply in_flat_map in Hin. destruct Hin as (c & _ & Hin).
    apply freshness_of_city in Hin. destruct Hin as (n & _ & _ & ->). eauto.
  - unfold Validator.check_data_freshness_with.
    induction (df_cities df) as [|c l IH]; [apply Nat.le_refl|].
    cbn [flat_map]. rewrite length_app. cbn [List.length].
    destruct (Validator.timestamp_max _); cbn [List.length]; [|lia].
    cbv zeta. destruct (negb _); cbn [List.length]; lia.
Qed.

(** X3. Lowering [max_age_minutes] never removes a freshness issue: a city
    reported under the larger bound is reported, with the same age, under
    the smaller one. *)
Theorem freshness_monotone (now : Z) (df : DataFrame) (m1 m2 : Z)
    (c : string) (a : Z) :
  (m1 <= m2)%Z ->
  In (Validator.DataTooOld c a m2) (Validator.check_data_freshness_with now df m2) ->
  In (Validator.DataTooOld c a m1) (Validator.check_data_freshness_with now df m1).
Proof.
  intros Hle Hin. unfold Validator.check_data_freshness_with in *.
  apply in_flat_map in Hin. destruct Hin as (c' & Hc' & Hin).
  apply freshness_of_city in Hin.
  destruct Hin as (newest & Hn & Hlt & Heq). injection Heq as -> ->.
  apply in_flat_map. exists c'. split; [exact Hc'|].
  apply freshness_of_city. exists newest. split; [exact Hn|].
  split; [lia|reflexivity].
Qed.

Lemma freshness_monotone_witness :
  In (Validator.DataTooOld "B" 120 30)
     (Validator.check_data_freshness_with 7200000000 mixed_age_batch 30).
Proof.
  apply (freshness_monotone 7200000000 mixed_age_batch 30 60 "B" 120).
  - lia.
  - vm_compute. left. reflexivity.
Defined.

(** ** Anomaly detection *)

Lemma in_combine_map {A B} (g : A -> B) (l : list A) a b :
  In (a, b) (combine l (map g l)) <-> In a l /\ b = g a.
Proof.
  induction l as [|x l IH]; cbn [combine map In]; [tauto|].
  rewrite IH. split.
  - intros [[= -> ->]|[H1 H2]]; auto.
  - intros [[->|H1] ->]; auto.
Qed.

Lemma in_detect_anomalies_column df column rules i :
  In i (Validator.detect_anomalies_column df column rules)
  <-> exists get r,
        numeric_column column = Some get
        /\ In r df
        /\ np_gt (column_score df get (get r)) (Validator.std_dev_threshold rules) = true
        /\ i = Validator.AnomalyDetected column (city r) (get r)
                 (column_score df get (get r)).
Proof.
  unfold Validator.detect_anomalies_column.
  destruct (numeric_column column) as [get|].
  - unfold Validator.modified_zscores.
    change (map _ (map get df)) with (map (column_score df get) (map get df)).
    rewrite map_map, in_flat_map. split.
    + intros ([r z] & Hin & Hi).
      apply (in_combine_map (fun r => column_score df get (get r))) in Hin.
      destruct Hin as [Hr ->].
      destruct (np_gt _ _) eqn:Hgt; [|destruct Hi].
      destruct Hi as [<-|[]]. exists get, r. auto.
    + intros (get' & r & [= <-] & Hr & Hgt & ->).
      exists (r, column_score df get (get r)). split.
      * apply (in_combine_map (fun r => column_score df get (get r))). auto.
      * rewrite Hgt. left. reflexivity.
  - split; [intros []|]. intros (get & r & H & _). discriminate.
Qed.

Lemma in_detect_anomalies df i :
  In i (Validator.detect_anomalies df)
  <-> exists column rules,
        In (column, rules) Validator.validation_rules
        /\ In i (Validator.detect_anomalies_column df column rules).
Proof.
  unfold Validator.detect_anomalies. rewrite in_flat_map. split.
  - intros ([column rules] & Hin & Hi). exists column, rules. auto.
  - intros (column & rules & Hin & Hi). exists (column, rules). auto.
Qed.

Lemma validation_rules_threshold column rules :
  In (column, rules) Validator.validation_rules ->
  Validator.std_dev_threshold rules = 3
  /\ In column ["temperature"; "humidity"; "pressure"].
Proof.
  cbn. intros [[= <- <-]|[[= <- <-]|[[= <- <-]|[]]]]; split; cbn; auto.
Qed.

(** X4. Every anomaly issue of [detect_anomalies] is about one of the three
    columns of the rules (never the wind speed), names the city and the
    value of a row of the frame, carries the score of that value, and that
    score exceeds the threshold 3; the value is present. *)
Theorem anomaly_issue_sound (df : DataFrame) (column c : string)
    (value : option Q) (score : npfloat) :
  In (Validator.AnomalyDetected column c value score) (Validator.detect_anomalies df) ->
  In column ["temperature"; "humidity"; "pressure"]
  /\ exists get r x,
       numeric_column column = Some get
       /\ In r df /\ city r = c /\ get r = value /\ value = Some x
       /\ score = column_score df get value
       /\ np_gt score 3 = true.
Proof.
  intros Hin. apply in_detect_anomalies in Hin.
  destruct Hin as (column' & rules & Hrule & Hin).
  apply in_detect_anomalies_column in Hin.
  destruct Hin as (get & r & Hget & Hr & Hgt & Heq).
  injection Heq as -> -> -> ->.
  destruct (validation_rules_threshold _ _ Hrule) as [Ht Hcol].
  rewrite Ht in Hgt. split; [exact Hcol|].
  destruct (get r) as [x|] eqn:Hx.
  - exists get, r, x. repeat split; auto.
  - exfalso. unfold column_score, zscore_of in Hgt. cbn in Hgt. discriminate.
Qed.

Lemma anomaly_issue_sound_witness :
  In "temperature" ["temperature"; "humidity"; "pressure"]
  /\ exists get r x,
       numeric_column "temperature" = Some get
       /\ In r zero_mad_batch /\ city r = "D" /\ get r = Some 25 /\ Some 25 = Some x
       /\ PInf = column_score zero_mad_batch get (Some 25)
       /\ np_gt PInf 3 = true.
Proof.
  apply (anomaly_issue_sound zero_mad_batch "temperature" "D" (Some 25) PInf).
  vm_compute. left. reflexivity.
Defined.

Lemma column_mad_missing_cell col :
  In None col -> Validator.column_mad col = None.
Proof.
  intros Hin. unfold Validator.column_mad, np_median.
  replace (existsb isnull _) with true; [reflexivity|].
  symmetry. apply existsb_exists. exists None. split; [|reflexivity].
  apply in_map_iff. exists None. split; [reflexivity|exact Hin].
Qed.

Lemma np_gt_zscore_nan_mad median x t :
  np_gt (zscore_of median None x) t = false.
Proof.
  unfold zscore_of, np_div.
  destruct (nan_scale _ _); reflexivity.
Qed.

(** X5. One missing cell in a column switches the anomaly check of that
    column off: the median absolute deviation is then NaN (numpy's median
    does not skip NaN), every score is NaN, and no row is reported for the
    column, outliers included. *)
Theorem missing_cell_disables_anomaly_check (df : DataFrame) (column : string)
    (get : WeatherRow -> option Q) (r0 : WeatherRow) :
  numeric_column column = Some get ->
  In r0 df ->
  get r0 = None ->
  Validator.column_mad (map get df) = None
  /\ forall c value score,
       ~ In (Validator.AnomalyDetected column c value score)
            (Validator.detect_anomalies df).
Proof.
  intros Hget Hr0 Hnone.
  assert (Hmad : Validator.column_mad (map get df) = None).
  { apply column_mad_missing_cell. rewrite <- Hnone. now apply in_map. }
  split; [exact Hmad|].
  intros c value score Hin. apply in_detect_anomalies in Hin.
  destruct Hin as (column' & rules & _ & Hin).
  apply in_detect_anomalies_column in Hin.
  destruct Hin as (get' & r & Hget' & _ & Hgt & Heq).
  injection Heq as -> _ _ _. rewrite Hget in Hget'. injection Hget' as <-.
  unfold column_score in Hgt. rewrite Hmad, np_gt_zscore_nan_mad in Hgt.
  discriminate.
Qed.

Lemma missing_cell_disables_anomaly_check_witness :
  Validator.column_mad (map temperature outlier_batch_missing_cell) = None
  /\ (forall c value score,
        ~ In (Validator.AnomalyDetected "temperature" c value score)
             (Validator.detect_anomalies outlier_batch_missing_cell))
  /\ exists score,
       In (Validator.AnomalyDetected "temperature" "E" (Some 90) score)
          (Validator.detect_anomalies outlier_batch).
Proof.
  destruct (missing_cell_disables_anomaly_check outlier_batch_missing_cell
              "temperature" temperature
              (mkRow "Z" (Some 0%Z) None (Some 60) (Some 1013) (Some 5)
                 (Some "Clear")))
    as [Hmad Hnone].
  - reflexivity.
  - left. reflexivity.
  - reflexivity.
  - split; [exact Hmad|]. split; [exact Hnone|].
    eexists. vm_compute. left. reflexivity.
Defined.

Lemma Qle_bool_zero_num q t :
  Qnum q = 0%Z -> 0 <= t -> Qle_bool q t = true.
Proof.
  intros Hq Ht. apply Qle_bool_iff. unfold Qle in *. rewrite Hq.
  cbn in Ht. cbn. lia.
Qed.

(** The score of a value equal to the median never exceeds a threshold. *)
Lemma np_gt_zscore_at_median med mad x t :
  x == med -> 0 <= t ->
  np_gt (zscore_of (Some med) mad (Some x)) t = false.
Proof.
  intros Hx Ht. unfold zscore_of. cbn [nan_sub nan_scale option_map].
  pose proof (Qis_zero_scaled_difference x med) as Hz.
  apply Qeq_bool_iff in Hx. rewrite Hx in Hz. clear Hx.
  revert Hz. generalize (Validator.zscore_scale * (x - med)).
  intros [n d] Hz. unfold Qis_zero in Hz. cbn [Qnum] in Hz.
  apply Z.eqb_eq in Hz. subst n.
  unfold np_div. destruct mad as [y|]; [|reflexivity].
  change (Qis_zero (0 # d)) with true.
  destruct (Qis_zero y); [reflexivity|].
  cbn [np_abs np_gt]. apply negb_false_iff. apply Qle_bool_zero_num; [|exact Ht].
  reflexivity.
Qed.

(** X6. A value equal to the median of its column is never reported by
    [detect_anomalies], whatever the median absolute deviation is (zero
    included: the score is then NaN). *)
Theorem median_value_never_anomalous (df : DataFrame) (column : string)
    (get : WeatherRow -> option Q) (med x : Q) :
  numeric_column column = Some get ->
  Validator.column_median (map get df) = Some med ->
  x == med ->
  forall c score,
    ~ In (Validator.AnomalyDetected column c (Some x) score)
         (Validator.detect_anomalies df).
Proof.
  intros Hget Hmed Hx c score Hin. apply in_detect_anomalies in Hin.
  destruct Hin as (column' & rules & Hrule & Hin).
  apply in_detect_anomalies_column in Hin.
  destruct Hin as (get' & r & Hget' & _ & Hgt & Heq).
  injection Heq as -> _ Hv _. rewrite Hget in Hget'. injection Hget' as <-.
  destruct (validation_rules_threshold _ _ Hrule) as [Ht _].
  unfold column_score in Hgt. rewrite Hmed, <- Hv, Ht in Hgt.
  rewrite np_gt_zscore_at_median in Hgt; [discriminate|exact Hx|discriminate].
Qed.

Lemma median_value_never_anomalous_witness :
  ~ In (Validator.AnomalyDetected "temperature" "C" (Some 22) (Finite 0))
       (Validator.detect_anomalies outlier_batch).
Proof.
  apply (median_value_never_anomalous outlier_batch "temperature" temperature
           22 22).
  - reflexivity.
  - reflexivity.
  - reflexivity.
Defined.

Lemma pair_median x y :
  exists med, median_finite [x; y] = Some med /\ med == (x + y) / 2.
Proof.
  unfold median_finite, Qsort. cbn [fold_right Qinsert].
  destruct (Qle_bool x y); cbn; eexists; (split; [reflexivity|]); field.
Qed.

Lemma zscore_of_deviation D mad :
  mad == Qabs D -> ~ mad == 0 ->
  Qabs (Validator.zscore_scale * D / mad) == Validator.zscore_scale.
Proof.
  intros Hmad Hnz. unfold Qdiv.
  rewrite !Qabs_Qmult, Qabs_Qinv, Hmad.
  rewrite (Qabs_pos (Qabs D)) by apply Qabs_nonneg.
  rewrite (Qabs_pos Validator.zscore_scale) by discriminate.
  field. rewrite <- Hmad. exact Hnz.
Qed.

Lemma Qis_zero_iff q : Qis_zero q = true <-> q == 0.
Proof.
  unfold Qis_zero, Qeq. cbn. rewrite Z.eqb_eq. lia.
Qed.

(** Of two values, each has the score 0.6745 (or NaN when they are equal). *)
Lemma pair_score_bounded x y med mad t :
  med == (x + y) / 2 ->
  mad == (Qabs (x - med) + Qabs (y - med)) / 2 ->
  Validator.zscore_scale <= t ->
  np_gt (zscore_of (Some med) (Some mad) (Some x)) t = false.
Proof.
  intros Hmed Hmad Ht.
  assert (Hy : y - med == - (x - med)) by (rewrite Hmed; field).
  assert (Hm : mad == Qabs (x - med)).
  { rewrite Hmad, Hy, Qabs_opp. field. }
  unfold zscore_of. cbn [nan_sub nan_scale option_map]. unfold np_div.
  destruct (Qis_zero mad) eqn:Hz.
  - apply Qis_zero_iff in Hz. rewrite Hm in Hz.
    assert (Hd : x - med == 0).
    { apply Qle_antisym.
      - rewrite <- Hz. apply Qle_Qabs.
      - apply (Qabs_Qle_condition (x - med) 0). rewrite Hz. apply Qle_refl. }
    rewrite Qis_zero_scaled_difference.
    replace (Qeq_bool x med) with true; [reflexivity|].
    symmetry. apply Qeq_bool_iff.
    rewrite <- (Qplus_0_l med), <- Hd. ring.
  - cbn [np_abs np_gt]. apply negb_false_iff, Qle_bool_iff.
    rewrite zscore_of_deviation; [exact Ht|exact Hm|].
    intros H0. apply Qis_zero_iff in H0. congruence.
Qed.

Lemma two_cells_not_flagged a b t z :
  Validator.zscore_scale <= t ->
  In z (Validator.modified_zscores [a; b]) ->
  np_gt z t = false.
Proof.
  intros Ht Hin.
  change (Validator.modified_zscores [a; b])
    with (map (zscore_of (Validator.column_median [a; b])
                         (Validator.column_mad [a; b])) [a; b]) in Hin.
  destruct a as [x|]; [destruct b as [y|]|].
  - destruct (pair_median x y) as (med & Hmed & Hmedq).
    assert (Hcm : Validator.column_median [Some x; Some y] = Some med) by exact Hmed.
    destruct (pair_median (Qabs (x - med)) (Qabs (y - med)))
      as (mad & Hmad & Hmadq).
    assert (Hcmad : Validator.column_mad [Some x; Some y] = Some mad).
    { unfold Validator.column_mad. rewrite Hcm. exact Hmad. }
    rewrite Hcm, Hcmad in Hin.
    destruct Hin as [<-|[<-|[]]].
    + apply (pair_score_bounded x y med mad t Hmedq Hmadq Ht).
    + apply (pair_score_bounded y x med mad t); [| |exact Ht].
      * rewrite Hmedq. field.
      * rewrite Hmadq. field.
  - rewrite (column_mad_missing_cell [Some x; None]) in Hin
      by (right; left; reflexivity).
    destruct Hin as [<-|[<-|[]]]; apply np_gt_zscore_nan_mad.
  - rewrite (column_mad_missing_cell [None; b]) in Hin by (left; reflexivity).
    destruct Hin as [<-|[<-|[]]]; apply np_gt_zscore_nan_mad.
Qed.

Lemma one_cell_not_flagged a t z :
  0 <= t ->
  In z (Validator.modified_zscores [a]) ->
  np_gt z t = false.
Proof.
  intros Ht Hin.
  change (Validator.modified_zscores [a])
    with (map (zscore_of (Validator.column_median [a])
                         (Validator.column_mad [a])) [a]) in Hin.
  destruct Hin as [<-|[]]. destruct a as [x|].
  - change (Validator.column_median [Some x]) with (Some x).
    apply np_gt_zscore_at_median; [reflexivity|exact Ht].
  - reflexivity.
Qed.

(** On a frame of at most two records no score exceeds the threshold 3. *)
Lemma small_frame_score_not_flagged df get r :
  (List.length df <= 2)%nat -> In r df ->
  np_gt (column_score df get (get r)) 3 = false.
Proof.
  intros Hlen Hr.
  assert (Hz : In (column_score df get (get r))
                  (Validator.modified_zscores (map get df))).
  { unfold Validator.modified_zscores.
    change (In (column_score df get (get r))
               (map (column_score df get) (map get df))).
    apply in_map, in_map, Hr. }
  destruct df as [|r1 [|r2 [|r3 df]]]; cbn [map] in Hz.
  - destruct Hr.
  - assert (H3 : 0 <= 3) by discriminate.
    apply (one_cell_not_flagged (get r1) 3 _ H3 Hz).
  - assert (H3 : Validator.zscore_scale <= 3) by discriminate.
    apply (two_cells_not_flagged (get r1) (get r2) 3 _ H3 Hz).
  - cbn in Hlen. lia.
Qed.

(** [detect_anomalies] reports nothing when no score exceeds 3. *)
Lemma detect_anomalies_nil_of_scores df :
  (forall get r, In r df -> np_gt (column_score df get (get r)) 3 = false) ->
  Validator.detect_anomalies df = [].
Proof.
  intros Hscores.
  destruct (Validator.detect_anomalies df) as [|i l] eqn:Hd; [reflexivity|].
  exfalso.
  assert (Hin : In i (Validator.detect_anomalies df)) by (rewrite Hd; left; reflexivity).
  apply in_detect_anomalies in Hin.
  destruct Hin as (column & rules & Hrule & Hin).
  apply in_detect_anomalies_column in Hin.
  destruct Hin as (get & r & _ & Hr & Hgt & _).
  destruct (validation_rules_threshold _ _ Hrule) as [Ht _]. rewrite Ht in Hgt.
  rewrite (Hscores get r Hr) in Hgt. discriminate.
Qed.

(** X7. On a frame of one or two records [detect_anomalies] reports
    nothing, whatever the values are: a single value is its own median, and
    of two values each is at the same distance from the median, with the
    score 0.6745 (NaN when they are equal or one is missing). *)
Theorem at_most_two_records_no_anomaly (df : DataFrame) :
  (List.length df <= 2)%nat ->
  Validator.detect_anomalies df = [].
Proof.
  intros Hlen. apply detect_anomalies_nil_of_scores.
  intros get r Hr. apply small_frame_score_not_flagged.
  - exact Hlen.
  - exact Hr.
Qed.

Lemma at_most_two_records_no_anomaly_witness :
  Validator.detect_anomalies
    [reading "A" 0 (-40) 10 900 5; reading "B" 0 45 95 1080 5] = [].
Proof.
  apply (at_most_two_records_no_anomaly
           [reading "A" 0 (-40) 10 900 5; reading "B" 0 45 95 1080 5]).
  cbn. lia.
Defined.

(** ** Weather patterns *)

Lemma negb_Qle_bool_iff a b : negb (Qle_bool a b) = true <-> b < a.
Proof.
  rewrite negb_true_iff, <- not_true_iff_false, Qle_bool_iff.
  split; [apply Qnot_le_lt|apply Qlt_not_le].
Qed.

Lemma fold_left_Qmax_spec l a :
  (fold_left Qmax l a = a \/ In (fold_left Qmax l a) l)
  /\ a <= fold_left Qmax l a
  /\ forall x, In x l -> x <= fold_left Qmax l a.
Proof.
  revert a. induction l as [|y l IH]; intros a; cbn [fold_left In].
  - split; [left; reflexivity|]. split; [apply Qle_refl|]. intros x [].
  - destruct (IH (Qmax a y)) as (Hin & Hle & Hall).
    assert (Hmax : (Qmax a y = a \/ Qmax a y = y) /\ a <= Qmax a y /\ y <= Qmax a y).
    { unfold Qmax. destruct (Qle_bool a y) eqn:E.
      - apply Qle_bool_iff in E. split; [right; reflexivity|].
        split; [exact E|apply Qle_refl].
      - split; [left; reflexivity|]. split; [apply Qle_refl|].
        apply Qlt_le_weak, negb_Qle_bool_iff. now rewrite E. }
    destruct Hmax as (Hc & Ha & Hy). split; [|split].
    + destruct Hin as [Heq|Hin]; [|right; right; exact Hin].
      rewrite Heq. destruct Hc as [->| ->]; auto.
    + eapply Qle_trans; eauto.
    + intros x [<-|Hx]; [eapply Qle_trans; eauto|]. apply Hall, Hx.
Qed.

(** [series_max] is one of the present values, and the greatest. *)
Lemma series_max_spec col m :
  series_max col = Some m ->
  In (Some m) col /\ forall x, In (Some x) col -> x <= m.
Proof.
  unfold series_max. destruct (dropna col) as [|a l] eqn:Hd; [discriminate|].
  intros [= <-]. destruct (fold_left_Qmax_spec l a) as (Hin & Hle & Hall).
  assert (Hmem : forall x, In (Some x) col <-> x = a \/ In x l).
  { intros x. rewrite <- in_dropna, Hd. cbn [In]. split; intros [H|H]; auto. }
  split.
  - apply Hmem. destruct Hin as [->|Hin]; auto.
  - intros x Hx. apply Hmem in Hx. destruct Hx as [->|Hx]; auto.
Qed.

Lemma series_max_exists col x :
  In (Some x) col -> exists m, series_max col = Some m.
Proof.
  intros Hin. unfold series_max. apply in_dropna in Hin.
  destruct (dropna col); [destruct Hin|eauto].
Qed.

(** The present entries of [diff().abs()]: the absolute differences of two
    consecutive present values. *)
Lemma in_abs_diff_from prev col d :
  In (Some d) (map nan_abs (series_diff_from prev col))
  <-> (exists p1 p2 rest,
         prev = Some p1 /\ col = Some p2 :: rest /\ d = Qabs (p2 - p1))
      \/ (exists l1 p1 p2 l2,
            col = l1 ++ Some p1 :: Some p2 :: l2 /\ d = Qabs (p2 - p1)).
Proof.
  revert prev. induction col as [|x col IH]; intros prev.
  - cbn. split; [tauto|]. intros [(p1 & p2 & rest & _ & H & _)|(l1 & p1 & p2 & l2 & H & _)].
    + discriminate.
    + destruct l1; discriminate.
  - cbn [series_diff_from map In]. rewrite IH. split.
    + intros [H|[(p1 & p2 & rest & -> & -> & ->)|(l1 & p1 & p2 & l2 & -> & ->)]].
      * destruct x as [p2|], prev as [p1|]; try discriminate.
        injection H as <-. left. exists p1, p2, col. auto.
      * right. exists [], p1, p2, rest. auto.
      * right. exists (x :: l1), p1, p2, l2. auto.
    + intros [(p1 & p2 & rest & -> & [= -> ->] & ->)|(l1 & p1 & p2 & l2 & H & ->)].
      * left. reflexivity.
      * right. destruct l1 as [|y l1]; injection H as -> ->.
        -- left. exists p1, p2, l2. auto.
        -- right. exists l1, p1, p2, l2. auto.
Qed.

Lemma in_abs_diff col d :
  In (Some d) (map nan_abs (series_diff col))
  <-> exists l1 p1 p2 l2,
        col = l1 ++ Some p1 :: Some p2 :: l2 /\ d = Qabs (p2 - p1).
Proof.
  unfold series_diff. rewrite in_abs_diff_from. split; [|auto].
  intros [(p1 & _ & _ & H & _)|H]; [discriminate|exact H].
Qed.

Lemma in_validate_weather_patterns df i :
  In i (Validator.validate_weather_patterns df)
  <-> exists c,
        In c (map city df)
        /\ (i = Validator.SuspiciousTemperatureHumidity c
            /\ existsb (fun r => nan_gt (temperature r) 35) (city_slice df c) = true
            /\ existsb (fun r => nan_lt (humidity r) 10) (city_slice df c) = true
            \/ exists d,
                 i = Validator.SuspiciousPressureChange c d
                 /\ Nat.ltb 1 (List.length (city_slice df c)) = true
                 /\ series_max (map nan_abs (series_diff (map pressure (city_slice df c))))
                    = Some d
                 /\ 20 < d).
Proof.
  unfold Validator.validate_weather_patterns. rewrite in_flat_map.
  unfold df_cities.
  split; intros (c & Hc & H); exists c;
    (split; [first [apply in_unique; exact Hc | apply in_unique in Hc; exact Hc]|]).
  - apply in_app_or in H. destruct H as [H|H].
    + left. destruct (existsb _ _) eqn:E1; [|destruct H].
      destruct (existsb (fun r => nan_lt _ _) _) eqn:E2; [|destruct H].
      destruct H as [<-|[]]. auto.
    + right. destruct (Nat.ltb _ _) eqn:E1; [|destruct H].
      destruct (series_max _) as [d|] eqn:E2; [|destruct H].
      destruct (negb _) eqn:E3; [|destruct H].
      destruct H as [<-|[]]. exists d. apply negb_Qle_bool_iff in E3. auto.
  - apply in_or_app. destruct H as [(-> & E1 & E2)|(d & -> & E1 & E2 & E3)].
    + left. rewrite E1, E2. left. reflexivity.
    + right. rewrite E1, E2. apply negb_Qle_bool_iff in E3. rewrite E3.
      left. reflexivity.
Qed.

Lemma city_slice_nonempty_in df c :
  city_slice df c <> [] -> In c (map city df).
Proof.
  destruct (city_slice df c) as [|r l] eqn:Hs; [congruence|]. intros _.
  assert (Hr : In r (city_slice df c)) by (rewrite Hs; left; reflexivity).
  apply in_city_slice in Hr. destruct Hr as [Hr <-]. now apply in_map.
Qed.

(** X8. [validate_weather_patterns] reports the temperature-humidity
    combination for a city exactly when some record of the city has a
    temperature above 35 and some record of the city, the same or another,
    has a humidity below 10. *)
Theorem suspicious_combination_iff (df : DataFrame) (c : string) :
  In (Validator.SuspiciousTemperatureHumidity c)
     (Validator.validate_weather_patterns df)
  <-> (exists r t, In r df /\ city r = c /\ temperature r = Some t /\ 35 < t)
      /\ (exists r h, In r df /\ city r = c /\ humidity r = Some h /\ h < 10).
Proof.
  rewrite in_validate_weather_patterns. split.
  - intros (c' & _ & [([= <-] & E1 & E2)|(d & H & _)]); [|discriminate].
    apply existsb_exists in E1. destruct E1 as (r1 & Hr1 & Ht).
    apply existsb_exists in E2. destruct E2 as (r2 & Hr2 & Hh).
    apply in_city_slice in Hr1. apply in_city_slice in Hr2.
    split.
    + destruct (temperature r1) as [t|] eqn:E; [|discriminate].
      exists r1, t. apply negb_Qle_bool_iff in Ht. tauto.
    + destruct (humidity r2) as [h|] eqn:E; [|discriminate].
      exists r2, h. apply negb_Qle_bool_iff in Hh. tauto.
  - intros [(r1 & t & Hr1 & Hc1 & Ht & Hgt) (r2 & h & Hr2 & Hc2 & Hh & Hlt)].
    exists c. split; [rewrite <- Hc1; now apply in_map|]. left.
    split; [reflexivity|]. split; apply existsb_exists.
    + exists r1. split; [apply in_city_slice; auto|].
      rewrite Ht. now apply negb_Qle_bool_iff.
    + exists r2. split; [apply in_city_slice; auto|].
      rewrite Hh. now apply negb_Qle_bool_iff.
Qed.

(** X9. [validate_weather_patterns] reports a rapid pressure change for a
    city exactly when two consecutive rows of the city, in the order of the
    frame, have pressures that differ by more than 20; the magnitude it
    prints is the largest such difference.  A city with a single row, or
    whose consecutive rows never both have a pressure, is never reported. *)
Theorem pressure_change_issue_spec (df : DataFrame) (c : string) :
  ((exists d, In (Validator.SuspiciousPressureChange c d)
                 (Validator.validate_weather_patterns df))
   <-> exists l1 p1 p2 l2,
         map pressure (city_slice df c) = l1 ++ Some p1 :: Some p2 :: l2
         /\ 20 < Qabs (p2 - p1))
  /\ forall d,
       In (Validator.SuspiciousPressureChange c d)
          (Validator.validate_weather_patterns df) ->
       20 < d
       /\ (exists l1 p1 p2 l2,
             map pressure (city_slice df c) = l1 ++ Some p1 :: Some p2 :: l2
             /\ d = Qabs (p2 - p1))
       /\ (forall l1 p1 p2 l2,
             map pressure (city_slice df c) = l1 ++ Some p1 :: Some p2 :: l2 ->
             Qabs (p2 - p1) <= d).
Proof.
  assert (Hspec : forall d,
       In (Validator.SuspiciousPressureChange c d)
          (Validator.validate_weather_patterns df) ->
       20 < d
       /\ (exists l1 p1 p2 l2,
             map pressure (city_slice df c) = l1 ++ Some p1 :: Some p2 :: l2
             /\ d = Qabs (p2 - p1))
       /\ (forall l1 p1 p2 l2,
             map pressure (city_slice df c) = l1 ++ Some p1 :: Some p2 :: l2 ->
             Qabs (p2 - p1) <= d)).
  { intros d Hin. apply in_validate_weather_patterns in Hin.
    destruct Hin as (c' & _ & [(H & _)|(d' & [= <- <-] & _ & Hmax & Hgt)]);
      [discriminate|].
    apply series_max_spec in Hmax. destruct Hmax as [Hin Hall].
    split; [exact Hgt|]. split.
    - apply in_abs_diff in Hin. exact Hin.
    - intros l1 p1 p2 l2 Hadj. apply Hall. apply in_abs_diff.
      exists l1, p1, p2, l2. auto. }
  split; [|exact Hspec]. split.
  - intros (d & Hin). destruct (Hspec d Hin) as (Hgt & (l1 & p1 & p2 & l2 & Hadj & ->) & _).
    exists l1, p1, p2, l2. auto.
  - intros (l1 & p1 & p2 & l2 & Hadj & Hgt).
    assert (Hin : In (Some (Qabs (p2 - p1)))
                     (map nan_abs (series_diff (map pressure (city_slice df c)))))
      by (apply in_abs_diff; exists l1, p1, p2, l2; auto).
    destruct (series_max_exists _ _ Hin) as (m & Hm).
    exists m. apply in_validate_weather_patterns. exists c. split.
    + apply city_slice_nonempty_in. intros Hnil. rewrite Hnil in Hadj.
      destruct l1; discriminate.
    + right. exists m. split; [reflexivity|]. split; [|split; [exact Hm|]].
      * apply Nat.ltb_lt. rewrite <- (length_map pressure), Hadj.
        rewrite length_app. cbn [List.length]. lia.
      * apply series_max_spec in Hm. destruct Hm as [_ Hall].
        eapply Qlt_le_trans; [exact Hgt|]. apply Hall, Hin.
Qed.

(** ** The verdict *)

Lemma in_failed_expectations df i :
  In i (Validator.failed_expectations df)
  <-> exists e,
        In e Validator.create_expectation_suite
        /\ Validator.expectation_success df e = false
        /\ i = Validator.DataQualityCheckFailed e.
Proof.
  unfold Validator.failed_expectations. rewrite in_flat_map. split.
  - intros (e & He & Hi). exists e.
    destruct (Validator.expectation_success df e); [destruct Hi|].
    destruct Hi as [<-|[]]. auto.
  - intros (e & He & Hs & ->). exists e. rewrite Hs.
    split; [exact He|left; reflexivity].
Qed.

(** A failed expectation is reported by the first stage only. *)
Lemma in_issues_quality f n df e :
  In (Validator.DataQualityCheckFailed e)
     (Validator.issues (Validator.validate_data f n df))
  <-> In e Validator.create_expectation_suite
      /\ Validator.expectation_success df e = false.
Proof.
  unfold Validator.validate_data; cbn [Validator.issues].
  rewrite !in_app_iff, in_failed_expectations. split.
  - intros [(e' & He & Hs & [= <-])|[H|[H|H]]]; [auto| | |]; exfalso.
    + unfold Validator.check_data_freshness, Validator.check_data_freshness_with in H.
      apply in_flat_map in H. destruct H as (c & _ & H).
      apply freshness_of_city in H. destruct H as (? & _ & _ & H). discriminate.
    + apply in_detect_anomalies in H. destruct H as (? & ? & _ & H).
      apply in_detect_anomalies_column in H.
      destruct H as (? & ? & _ & _ & _ & H). discriminate.
    + apply in_validate_weather_patterns in H.
      destruct H as (? & _ & [(H & _)|(? & H & _)]); discriminate.
  - intros [He Hs]. left. exists e. auto.
Qed.

Lemma status_failed_of_issue f n df i :
  In i (Validator.issues (Validator.validate_data f n df)) ->
  Validator.status (Validator.validate_data f n df) = "failed".
Proof.
  unfold Validator.validate_data; cbn [Validator.issues Validator.status].
  destruct (_ ++ _); [intros []|reflexivity].
Qed.

(** X10. A missing cell makes the verdict fail the presence check of its
    column: for each checked column, the not-null issue of the column is
    among the issues exactly when some row of the frame has no value in
    that column, and the status is then "failed". *)
Theorem presence_check_iff (f n : Z) (df : DataFrame) (column : string)
    (null : WeatherRow -> bool) :
  In column Validator.columns_to_check ->
  cell_isnull column = Some null ->
  let v := Validator.validate_data f n df in
  (In (Validator.DataQualityCheckFailed
         (Validator.expect_column_values_to_not_be_null column))
      (Validator.issues v)
   <-> exists r, In r df /\ null r = true)
  /\ ((exists r, In r df /\ null r = true) -> Validator.status v = "failed").
Proof.
  intros Hcol Hnull. cbv zeta.
  assert (Hiff : In (Validator.DataQualityCheckFailed
                       (Validator.expect_column_values_to_not_be_null column))
                    (Validator.issues (Validator.validate_data f n df))
                 <-> exists r, In r df /\ null r = true).
  { rewrite in_issues_quality. cbn [Validator.expectation_success].
    rewrite Hnull, negb_false_iff, existsb_exists. split; [tauto|].
    intros H. split; [|exact H].
    unfold Validator.create_expectation_suite. apply in_or_app. left.
    now apply in_map. }
  split; [exact Hiff|].
  intros H. apply Hiff in H. eapply status_failed_of_issue, H.
Qed.

Lemma presence_check_iff_witness :
  (In (Validator.DataQualityCheckFailed
         (Validator.expect_column_values_to_not_be_null "humidity"))
      (Validator.issues (Validator.validate_data 0 0 invalid_batch))
   <-> exists r, In r invalid_batch /\ isnull (humidity r) = true)
  /\ ((exists r, In r invalid_batch /\ isnull (humidity r) = true) ->
      Validator.status (Validator.validate_data 0 0 invalid_batch) = "failed").
Proof.
  apply (presence_check_iff 0 0 invalid_batch "humidity"
           (fun r => isnull (humidity r))).
  - cbv. tauto.
  - reflexivity.
Defined.

Lemma between_fails_iff (df : DataFrame) (get : WeatherRow -> option Q) lo hi :
  forallb (fun r => match get r with
                    | Some v => Qle_bool lo v && Qle_bool v hi
                    | None => true
                    end) df = false
  <-> exists r v, In r df /\ get r = Some v /\ (v < lo \/ hi < v).
Proof.
  rewrite <- not_true_iff_false, forallb_forall. split.
  - intros Hnot. induction df as [|r df IH].
    + exfalso. apply Hnot. intros r [].
    + destruct (get r) as [v|] eqn:Hv.
      * destruct (Qle_bool lo v) eqn:Hlo; [destruct (Qle_bool v hi) eqn:Hhi|].
        -- destruct IH as (r' & v' & Hr' & H').
           ++ intros Hall. apply Hnot. intros r' [<-|Hr'].
              ** now rewrite Hv, Hlo, Hhi.
              ** apply Hall, Hr'.
           ++ exists r', v'. split; [right; exact Hr'|exact H'].
        -- exists r, v. split; [left; reflexivity|]. split; [exact Hv|].
           right. apply negb_Qle_bool_iff. now rewrite Hhi.
        -- exists r, v. split; [left; reflexivity|]. split; [exact Hv|].
           left. apply negb_Qle_bool_iff. now rewrite Hlo.
      * destruct IH as (r' & v' & Hr' & H').
        -- intros Hall. apply Hnot. intros r' [<-|Hr'].
           ++ now rewrite Hv.
           ++ apply Hall, Hr'.
        -- exists r', v'. split; [right; exact Hr'|exact H'].
  - intros (r & v & Hr & Hv & Hout) Hall. specialize (Hall r Hr).
    rewrite Hv in Hall. apply andb_true_iff in Hall. destruct Hall as [Hlo Hhi].
    apply Qle_bool_iff in Hlo. apply Qle_bool_iff in Hhi.
    destruct Hout as [H|H]; [apply (Qlt_not_le _ _ H Hlo)|apply (Qlt_not_le _ _ H Hhi)].
Qed.

(** X11. The range issue of the temperature is among the issues exactly
    when some row has a temperature below -50 or above 50, and the range
    issue of the humidity exactly when some row has a humidity below 0 or
    above 100; rows without a value are ignored by the range checks. *)
Theorem range_check_iff (f n : Z) (df : DataFrame) :
  let v := Validator.validate_data f n df in
  (In (Validator.DataQualityCheckFailed
         (Validator.expect_column_values_to_be_between "temperature" (-50) 50))
      (Validator.issues v)
   <-> exists r t, In r df /\ temperature r = Some t /\ (t < -50 \/ 50 < t))
  /\ (In (Validator.DataQualityCheckFailed
            (Validator.expect_column_values_to_be_between "humidity" 0 100))
         (Validator.issues v)
      <-> exists r h, In r df /\ humidity r = Some h /\ (h < 0 \/ 100 < h)).
Proof.
  cbv zeta. split; rewrite in_issues_quality;
    cbn [Validator.expectation_success];
    [change (numeric_column "temperature") with (Some temperature)
    |change (numeric_column "humidity") with (Some humidity)];
    rewrite between_fails_iff; (split; [tauto|]); intros H; (split; [|exact H]);
    cbv; tauto.
Qed.

Lemma single_row_slice r : city_slice [r] (city r) = [r].
Proof. unfold city_slice. cbn [filter]. now rewrite String.eqb_refl. Qed.

(** X12. A frame of one complete record passes when the record is at most
    60 minutes old, its temperature is in [-50, 50], its humidity in
    [0, 100], and it is not both hotter than 35 and drier than 10: the
    verdict has no issue, whatever the pressure and the wind speed are. *)
Theorem clean_single_record_passes (now n : Z) (c : string) (ts : Z)
    (t h p w : Q) (s : string) :
  (now - ts <= 60 * 60000000)%Z ->
  -50 <= t /\ t <= 50 ->
  0 <= h /\ h <= 100 ->
  ~ (35 < t /\ h < 10) ->
  let v := Validator.validate_data now n
             [mkRow c (Some ts) (Some t) (Some h) (Some p) (Some w) (Some s)] in
  Validator.status v = "passed"
  /\ Validator.issues v = []
  /\ Validator.total_records v = 1%nat.
Proof.
  intros Hfresh [Ht1 Ht2] [Hh1 Hh2] Hpat. cbv zeta.
  set (r := mkRow c (Some ts) (Some t) (Some h) (Some p) (Some w) (Some s)).
  assert (Hq : Validator.failed_expectations [r] = []).
  { unfold Validator.failed_expectations. apply flat_map_nil_ext.
    intros e He.
    replace (Validator.expectation_success [r] e) with true; [reflexivity|].
    symmetry. cbv in He.
    repeat (destruct He as [<-|He]; [try reflexivity|]); [| |destruct He].
    - cbn [Validator.expectation_success].
      change (numeric_column "temperature") with (Some temperature).
      cbn [forallb r temperature].
      apply Qle_bool_iff in Ht1. apply Qle_bool_iff in Ht2.
      change (Qle_bool (-50 # 1) t) with (Qle_bool (-50) t).
      now rewrite Ht1, Ht2.
    - cbn [Validator.expectation_success].
      change (numeric_column "humidity") with (Some humidity).
      cbn [forallb r humidity].
      apply Qle_bool_iff in Hh1. apply Qle_bool_iff in Hh2.
      now rewrite Hh1, Hh2. }
  assert (Hf : Validator.check_data_freshness now [r] = []).
  { unfold Validator.check_data_freshness, Validator.check_data_freshness_with.
    change (df_cities [r]) with [city r]. cbn [flat_map].
    rewrite single_row_slice.
    change (Validator.timestamp_max (map timestamp [r])) with (Some ts).
    cbv beta iota zeta. destruct (negb _) eqn:Hage; [|reflexivity].
    apply age_exceeds in Hage. lia. }
  assert (Ha : Validator.detect_anomalies [r] = []).
  { apply detect_anomalies_nil_of_scores. intros get r' Hr'.
    apply small_frame_score_not_flagged; [cbn; lia|exact Hr']. }
  assert (Hp : Validator.validate_weather_patterns [r] = []).
  { unfold Validator.validate_weather_patterns.
    change (df_cities [r]) with [city r]. cbn [flat_map].
    rewrite single_row_slice. cbn [existsb r temperature humidity nan_gt nan_lt
                                    List.length Nat.ltb Nat.leb app orb].
    destruct (negb (Qle_bool t 35)) eqn:E1; [|reflexivity].
    destruct (negb (Qle_bool 10 h)) eqn:E2; [|reflexivity].
    exfalso. apply Hpat. split; now apply negb_Qle_bool_iff. }
  unfold Validator.validate_data.
  cbn [Validator.status Validator.issues Validator.total_records].
  rewrite Hq, Hf, Ha, Hp. repeat split.
Qed.

Lemma clean_single_record_passes_witness :
  let v := Validator.validate_data 1800000000 1800000000
             [mkRow "London" (Some 0%Z) (Some (205 # 10)) (Some 65) (Some 850)
                (Some (55 # 10)) (Some "Clouds")] in
  Validator.status v = "passed"
  /\ Validator.issues v = []
  /\ Validator.total_records v = 1%nat.
Proof.
  apply (clean_single_record_passes 1800000000 1800000000 "London" 0
           (205 # 10) 65 850 (55 # 10) "Clouds").
  - lia.
  - split; discriminate.
  - split; discriminate.
  - intros [H _]. revert H. apply Qle_not_lt. discriminate.
Defined.

(** ** The metrics, further *)

Lemma row_missing_cells_bound r : (row_missing_cells r <= 6)%nat.
Proof.
  unfold row_missing_cells.
  destruct (timestamp r), (temperature r), (humidity r), (pressure r),
    (wind_speed r), (weather_condition r); cbn; lia.
Qed.

Lemma missing_cells_bound df : (missing_cells df <= 6 * List.length df)%nat.
Proof.
  induction df as [|r df IH]; cbn [missing_cells fold_right List.length]; [lia|].
  fold (missing_cells df). pose proof (row_missing_cells_bound r). lia.
Qed.

Lemma missing_cells_zero df :
  missing_cells df = 0%nat <-> forall r, In r df -> row_missing_cells r = 0%nat.
Proof.
  induction df as [|r df IH]; cbn [missing_cells fold_right In].
  - split; [intros _ r []|reflexivity].
  - fold (missing_cells df). split.
    + intros H r' [<-|Hr']; [lia|]. apply IH; [lia|exact Hr'].
    + intros H. rewrite (H r (or_introl eq_refl)).
      apply IH. intros r' Hr'. apply H. right. exact Hr'.
Qed.

Lemma ratio_bounds (N L : Z) :
  (0 < L)%Z -> (0 <= N)%Z -> (7 * N <= 6 * L)%Z ->
  0 <= inject_Z N / inject_Z L
  /\ inject_Z N / inject_Z L <= 6 / 7
  /\ (inject_Z N / inject_Z L == 0 <-> N = 0%Z).
Proof.
  intros HL HN HNL.
  assert (HLq : 0 < inject_Z L) by (unfold Qlt, inject_Z; cbn [Qnum Qden]; lia).
  split; [|split].
  - apply Qle_shift_div_l; [exact HLq|].
    unfold Qle, Qmult, inject_Z; cbn [Qnum Qden]. lia.
  - apply Qle_shift_div_r; [exact HLq|]. change (6 / 7) with (6 # 7).
    unfold Qle, Qmult, inject_Z; cbn [Qnum Qden]. lia.
  - split.
    + intros H. destruct (Z.eq_dec N 0) as [E|E]; [exact E|]. exfalso.
      assert (Hpos : 0 < inject_Z N / inject_Z L).
      { apply Qlt_shift_div_l; [exact HLq|].
        unfold Qlt, Qmult, inject_Z; cbn [Qnum Qden]. lia. }
      rewrite H in Hpos. discriminate Hpos.
    + intros ->. reflexivity.
Qed.

Lemma completeness_value (n len : nat) :
  (0 < len)%nat -> (n <= 6 * len)%nat ->
  let v := (1 - Integrator.Qnat n / Integrator.Qnat (len * 7)) * 100 in
  100 / 7 <= v /\ v <= 100 /\ (v == 100 <-> n = 0%nat).
Proof.
  intros Hlen Hn. cbv zeta. unfold Integrator.Qnat.
  destruct (ratio_bounds (Z.of_nat n) (Z.of_nat (len * 7)))
    as (Hx0 & Hx1 & Hxz); try lia.
  revert Hx0 Hx1 Hxz.
  generalize (inject_Z (Z.of_nat n) / inject_Z (Z.of_nat (len * 7))).
  intros x Hx0 Hx1 Hxz.
  change (6 / 7) with (6 # 7) in Hx1. change (100 / 7) with (100 # 7).
  split; [lra|]. split; [lra|].
  split.
  - intros H. apply Nat2Z.inj. apply Hxz. lra.
  - intros H. assert (Hx : x == 0) by (apply Hxz; lia). lra.
Qed.

(** X13. For every city with records the completeness metric lies between
    100/7 and 100 (the city cell of a row is never missing, so at most six
    of the seven cells of a row are), and it is 100 exactly when no cell of
    the rows of the city is missing. *)
Theorem data_completeness_bounds (df : DataFrame) (c : string) :
  city_slice df c <> [] ->
  exists v,
    metrics_get (Integrator._calculate_metrics df c) "data_completeness"
      = Some (Some v)
    /\ 100 / 7 <= v /\ v <= 100
    /\ (v == 100 <->
        forall r, In r df -> city r = c -> row_missing_cells r = 0%nat).
Proof.
  intros Hs. exists (Integrator.data_completeness (city_slice df c)).
  split.
  - unfold Integrator._calculate_metrics.
    destruct (city_slice df c); [congruence|]. reflexivity.
  - unfold Integrator.data_completeness.
    rewrite null_count_missing_cells. change (List.length df_columns) with 7%nat.
    destruct (completeness_value (missing_cells (city_slice df c))
                (List.length (city_slice df c))) as (H1 & H2 & H3).
    + destruct (city_slice df c); [congruence|]. cbn. lia.
    + apply missing_cells_bound.
    + split; [exact H1|]. split; [exact H2|].
      rewrite H3, missing_cells_zero. split.
      * intros H r Hr Hc. apply H, in_city_slice. auto.
      * intros H r Hr. apply in_city_slice in Hr. apply H; tauto.
Qed.

Lemma data_completeness_bounds_witness :
  exists v,
    metrics_get (Integrator._calculate_metrics missing_temperature_batch "A")
      "data_completeness" = Some (Some v)
    /\ 100 / 7 <= v /\ v <= 100
    /\ (v == 100 <->
        forall r, In r missing_temperature_batch -> city r = "A" ->
                  row_missing_cells r = 0%nat).
Proof.
  apply (data_completeness_bounds missing_temperature_batch "A").
  discriminate.
Defined.

Lemma series_mean_none col :
  series_mean col = None <-> forall x, ~ In (Some x) col.
Proof.
  unfold series_mean. destruct (dropna col) as [|a l] eqn:Hd.
  - split; [|reflexivity]. intros _ x Hx. apply in_dropna in Hx.
    rewrite Hd in Hx. destruct Hx.
  - split; [discriminate|]. intros H. exfalso. apply (H a).
    apply in_dropna. rewrite Hd. left. reflexivity.
Qed.

Lemma fold_left_Qplus_nonneg l acc :
  (forall x, In x l -> 0 <= x) -> 0 <= acc -> 0 <= fold_left Qplus l acc.
Proof.
  revert acc. induction l as [|a l IH]; intros acc Hall Hacc; [exact Hacc|].
  cbn [fold_left]. apply IH.
  - intros x Hx. apply Hall. right. exact Hx.
  - pose proof (Hall a (or_introl eq_refl)). lra.
Qed.

Lemma fold_left_Qplus_nonpos l acc :
  (forall x, In x l -> x <= 0) -> acc <= 0 -> fold_left Qplus l acc <= 0.
Proof.
  revert acc. induction l as [|a l IH]; intros acc Hall Hacc; [exact Hacc|].
  cbn [fold_left]. apply IH.
  - intros x Hx. apply Hall. right. exact Hx.
  - pose proof (Hall a (or_introl eq_refl)). lra.
Qed.

Lemma count_positive (n : nat) : 0 < inject_Z (Z.of_nat (S n)).
Proof. unfold Qlt, inject_Z. cbn [Qnum Qden]. lia. Qed.

(** [Series.mean()] keeps the sign the present values share. *)
Lemma series_mean_sign col m :
  series_mean col = Some m ->
  ((forall x, In (Some x) col -> 0 <= x) -> 0 <= m)
  /\ ((forall x, In (Some x) col -> x <= 0) -> m <= 0).
Proof.
  unfold series_mean. destruct (dropna col) as [|a l] eqn:Hd; [discriminate|].
  intros [= <-].
  assert (Hmem : forall x, In x (a :: l) -> In (Some x) col).
  { intros x Hx. apply in_dropna. now rewrite Hd. }
  pose proof (count_positive (List.length l)) as Hpos.
  split; intros Hall.
  - apply Qle_shift_div_l; [exact Hpos|]. rewrite Qmult_0_l.
    apply fold_left_Qplus_nonneg.
    + intros x Hx. apply Hall, Hmem. right. exact Hx.
    + apply Hall, Hmem. left. reflexivity.
  - apply Qle_shift_div_r; [exact Hpos|]. rewrite Qmult_0_l.
    apply fold_left_Qplus_nonpos.
    + intros x Hx. apply Hall, Hmem. right. exact Hx.
    + apply Hall, Hmem. left. reflexivity.
Qed.

(** [Series.mean()] of a column with one present value is that value. *)
Lemma series_mean_single col x :
  dropna col = [x] -> exists v, series_mean col = Some v /\ v == x.
Proof.
  intros Hd. unfold series_mean. rewrite Hd. eexists. split; [reflexivity|].
  cbn [fold_left List.length]. change (inject_Z (Z.of_nat 1)) with 1. field.
Qed.

(** X14. For every city with records, each of the four mean metrics
    (temperature, humidity, pressure, wind speed) is NaN exactly when no row
    of the city has a value in the column.  When one row only has a value,
    the metric is that value.  The metric keeps the sign the present values
    share: it is not negative when none of them is, and not positive when
    none of them is.  (The sum behind the mean is rounded in the code and
    exact here; the statement keeps to what holds of both.) *)
Theorem mean_metric_spec (df : DataFrame) (c : string) (name : string)
    (get : WeatherRow -> option Q) :
  In (name, get) mean_metrics ->
  city_slice df c <> [] ->
  exists m,
    metrics_get (Integrator._calculate_metrics df c) name = Some m
    /\ (m = None <-> forall r, In r df -> city r = c -> get r = None)
    /\ (forall x, dropna (map get (city_slice df c)) = [x] ->
                  exists v, m = Some v /\ v == x)
    /\ (forall v, m = Some v ->
          (forall r x, In r df -> city r = c -> get r = Some x -> 0 <= x) ->
          0 <= v)
    /\ (forall v, m = Some v ->
          (forall r x, In r df -> city r = c -> get r = Some x -> x <= 0) ->
          v <= 0).
Proof.
  intros Hname Hs. exists (series_mean (map get (city_slice df c))).
  assert (Hrow : forall x, In (Some x) (map get (city_slice df c)) ->
                           exists r, In r df /\ city r = c /\ get r = Some x).
  { intros x Hin. apply in_map_iff in Hin. destruct Hin as (r & Hx & Hr).
    apply in_city_slice in Hr. exists r. tauto. }
  split; [|split; [|split; [|split]]].
  - unfold Integrator._calculate_metrics.
    destruct (city_slice df c) as [|r0 l]; [congruence|]. cbn [df_empty].
    cbv in Hname.
    repeat (destruct Hname as [[= <- <-]|Hname]; [reflexivity|]).
    destruct Hname.
  - rewrite series_mean_none. split.
    + intros H r Hr Hc. destruct (get r) as [x|] eqn:Hx; [|reflexivity].
      exfalso. apply (H x). apply in_map_iff. exists r.
      split; [exact Hx|]. apply in_city_slice. auto.
    + intros H x Hin. destruct (Hrow x Hin) as (r & Hr & Hc & Hx).
      rewrite (H r Hr Hc) in Hx. discriminate.
  - intros x Hd. apply series_mean_single, Hd.
  - intros v Hm Hall. apply (proj1 (series_mean_sign _ _ Hm)).
    intros x Hin. destruct (Hrow x Hin) as (r & Hr & Hc & Hx).
    apply (Hall r x Hr Hc Hx).
  - intros v Hm Hall. apply (proj2 (series_mean_sign _ _ Hm)).
    intros x Hin. destruct (Hrow x Hin) as (r & Hr & Hc & Hx).
    apply (Hall r x Hr Hc Hx).
Qed.

Lemma mean_metric_spec_witness :
  exists m,
    metrics_get (Integrator._calculate_metrics missing_temperature_batch "A")
      "humidity" = Some m
    /\ (m = None <->
        forall r, In r missing_temperature_batch -> city r = "A" ->
                  humidity r = None)
    /\ (forall x,
          dropna (map humidity (city_slice missing_temperature_batch "A")) = [x] ->
          exists v, m = Some v /\ v == x)
    /\ (forall v, m = Some v ->
          (forall r x, In r missing_temperature_batch -> city r = "A" ->
                       humidity r = Some x -> 0 <= x) ->
          0 <= v)
    /\ (forall v, m = Some v ->
          (forall r x, In r missing_temperature_batch -> city r = "A" ->
                       humidity r = Some x -> x <= 0) ->
          v <= 0).
Proof.
  apply (mean_metric_spec missing_temperature_batch "A" "humidity" humidity).
  - right. left. reflexivity.
  - discriminate.
Defined.

(** ** The cycle, further *)

Section CycleFacts.

Variable clock : nat -> Z.
Variable post : Payload -> result Z.

(** What [process_single_city] does with the validator of the repository:
    a city without records is logged; for a city with records, one payload
    is posted and the outcome of the dispatch is logged. *)
Lemma process_concrete_run df c t :
  Integrator.process_single_city clock (Integrator.WeatherDataValidator clock)
    post df c t
  = if has_records df c then
      (let p := payload_for df c
                  (Validator.validate_data (clock t) (clock (S t)) (city_slice df c))
                  (clock (S (S t))) in
       ([Post p; Log (dispatch_log post c p)], S (S (S t)), Return tt))
    else ([Log (LogNoDataAvailable c)], t, Return tt).
Proof.
  unfold has_records. destruct (city_slice df c) as [|r l] eqn:Hs; cbn [df_empty negb].
  - apply process_no_data. exact Hs.
  - rewrite (process_dispatch clock _ post df c t [] (S (S t))
               (Validator.validate_data (clock t) (clock (S t)) (city_slice df c))).
    + rewrite Hs. reflexivity.
    + rewrite Hs. discriminate.
    + apply validator_run.
Qed.

Lemma posted_cities_app es es' :
  posted_cities (es ++ es') = posted_cities es ++ posted_cities es'.
Proof. unfold posted_cities. apply flat_map_app. Qed.

Lemma concrete_gather_run df cs :
  forall t, exists es t',
    Integrator.gather
      (map (Integrator.process_single_city clock
              (Integrator.WeatherDataValidator clock) post df) cs) t
    = (es, t', Return tt)
    /\ posted_cities es = filter (has_records df) cs
    /\ forall p, In (Post p) es ->
         exists c tc,
           In c cs /\ has_records df c = true
           /\ p = payload_for df c
                    (Validator.validate_data (clock tc) (clock (S tc))
                       (city_slice df c))
                    (clock (S (S tc))).
Proof.
  induction cs as [|c cs IH]; intros t; cbn [map Integrator.gather filter].
  - exists [], t. split; [reflexivity|]. split; [reflexivity|]. intros p [].
  - rewrite process_concrete_run.
    destruct (has_records df c) eqn:Hc; cbv zeta.
    + destruct (IH (S (S (S t)))) as (es & t' & Hg & Hposted & Hpay).
      rewrite Hg. eexists _, t'. split; [reflexivity|]. split.
      * cbn [app posted_cities flat_map payload_for payload_city].
        fold (posted_cities es). now rewrite Hposted.
      * intros p [Hp|[Hp|Hp]].
        -- injection Hp as <-. exists c, t.
           split; [left; reflexivity|]. split; [exact Hc|reflexivity].
        -- discriminate.
        -- destruct (Hpay p Hp) as (c' & tc & Hc' & Hrest). exists c', tc.
           split; [right; exact Hc'|exact Hrest].
    + destruct (IH t) as (es & t' & Hg & Hposted & Hpay).
      rewrite Hg. eexists _, t'. split; [reflexivity|]. split.
      * cbn [app posted_cities flat_map]. fold (posted_cities es). exact Hposted.
      * intros p [Hp|Hp]; [discriminate|].
        destruct (Hpay p Hp) as (c' & tc & Hc' & Hrest). exists c', tc.
        split; [right; exact Hc'|exact Hrest].
Qed.

End CycleFacts.

Lemma run_with_batch clock cities fetch validate post t es_f t_f df es t' :
  fetch t = (es_f, t_f, Return df) ->
  df <> [] ->
  Integrator.gather
    (map (Integrator.process_single_city clock validate post df) cities) t_f
  = (es, t', Return tt) ->
  Integrator.run_monitoring_cycle clock cities fetch validate post t
  = (FetchCalled :: es_f ++ es, t', Return tt).
Proof.
  intros Hf Hne Hg. unfold Integrator.run_monitoring_cycle; unfold_M.
  rewrite Hf. destruct df as [|r df]; [congruence|]. cbn [df_empty].
  rewrite Hg. reflexivity.
Qed.

(** Nothing is raised out of a cycle. *)
Lemma run_cycle_not_raise clock cities fetch validate post t es t' e :
  Integrator.run_monitoring_cycle clock cities fetch validate post t
  <> (es, t', Raise e).
Proof.
  unfold Integrator.run_monitoring_cycle; unfold_M.
  destruct (fetch t) as [[es_f t_f] [df|e']]; [|discriminate].
  destruct df as [|r df]; cbn [df_empty]; [discriminate|].
  destruct (gather_tasks
              (Integrator.process_single_city clock validate post (r :: df))
              (process_never_raises clock validate post (r :: df)) cities t_f)
    as (es_g & t_g & Hg & _).
  rewrite Hg. discriminate.
Qed.

(** X15. [run_monitoring_cycle] never raises, whatever the extractor, the
    validator and the sink do (return, fail, or raise any exception): every
    run returns, and the first thing it does is the one call of the
    extractor. *)
Theorem run_monitoring_cycle_never_raises
    (clock : nat -> Z) (cities : list string) (fetch : M DataFrame)
    (validate : DataFrame -> M Validator.ValidationResult)
    (post : Payload -> result Z) (t : nat) :
  exists es t',
    Integrator.run_monitoring_cycle clock cities fetch validate post t
    = (FetchCalled :: es, t', Return tt).
Proof.
  destruct (Integrator.run_monitoring_cycle clock cities fetch validate post t)
    as [[es t'] [[]|e]] eqn:Hrun.
  - revert Hrun. unfold Integrator.run_monitoring_cycle; unfold_M.
    destruct (fetch t) as [[es_f t_f] [df|e']].
    + destruct df as [|r df]; cbn [df_empty].
      * intros [= <- <-]. eauto.
      * destruct (Integrator.gather _ t_f) as [[es_g t_g] [u|e]];
          intros [= <- <-]; eauto.
    + intros [= <- <-]. eauto.
  - exfalso. exact (run_cycle_not_raise _ _ _ _ _ _ _ _ _ Hrun).
Qed.

(** X16. In a cycle over a non-empty batch, with the validator of the
    repository, exactly one payload is posted for each entry of the
    monitored cities that has records in the batch, in the order of the
    entries, whether the sink accepts it or not; a city of the batch that is
    not monitored gets no payload. *)
Theorem payloads_follow_monitored_cities
    (clock : nat -> Z) (cities : list string) (fetch : M DataFrame)
    (post : Payload -> result Z)
    (t : nat) (es_f : list event) (t_f : nat) (df : DataFrame) :
  fetch t = (es_f, t_f, Return df) ->
  df <> [] ->
  exists es t',
    Integrator.run_monitoring_cycle clock cities fetch
      (Integrator.WeatherDataValidator clock) post t
    = (FetchCalled :: es_f ++ es, t', Return tt)
    /\ posted_cities es = filter (has_records df) cities.
Proof.
  intros Hf Hne.
  destruct (concrete_gather_run clock post df cities t_f)
    as (es & t' & Hg & Hposted & _).
  exists es, t'. split; [|exact Hposted].
  apply (run_with_batch _ _ _ _ _ _ _ _ _ _ _ Hf Hne Hg).
Qed.

Lemma payloads_follow_monitored_cities_witness :
  exists es t',
    Integrator.run_monitoring_cycle frozen_clock ["Tokyo"; "Oslo"; "London"]
      (ret three_city_batch) (Integrator.WeatherDataValidator frozen_clock)
      (failing_sink_for "Tokyo") 0%nat
    = (FetchCalled :: [] ++ es, t', Return tt)
    /\ posted_cities es = ["Tokyo"; "London"].
Proof.
  apply (payloads_follow_monitored_cities frozen_clock ["Tokyo"; "Oslo"; "London"]
           (ret three_city_batch) (failing_sink_for "Tokyo") 0%nat [] 0%nat
           three_city_batch).
  - reflexivity.
  - discriminate.
Defined.

Lemma status_issues f n df :
  let v := Validator.validate_data f n df in
  (Validator.status v = "failed" <-> Validator.issues v <> [])
  /\ (Validator.status v = "passed" <-> Validator.issues v = []).
Proof.
  unfold Validator.validate_data; cbn [Validator.status Validator.issues].
  destruct (_ ++ _); split; split; intros H; congruence || discriminate.
Qed.

(** X17. Every payload posted in a cycle, with the validator of the
    repository, is about a monitored city that has records; its issues and
    its status are those of the verdict on that city's own rows, so the
    status is "failed" exactly when there is an issue; and its metrics are
    those of that city. *)
Theorem posted_payload_invariants
    (clock : nat -> Z) (cities : list string) (fetch : M DataFrame)
    (post : Payload -> result Z)
    (t : nat) (es_f : list event) (t_f : nat) (df : DataFrame) :
  fetch t = (es_f, t_f, Return df) ->
  df <> [] ->
  exists es t',
    Integrator.run_monitoring_cycle clock cities fetch
      (Integrator.WeatherDataValidator clock) post t
    = (FetchCalled :: es_f ++ es, t', Return tt)
    /\ forall p, In (Post p) es ->
         In (payload_city p) cities
         /\ city_slice df (payload_city p) <> []
         /\ payload_metrics p = Integrator._calculate_metrics df (payload_city p)
         /\ (payload_status p = "failed" <-> payload_issues p <> [])
         /\ (payload_status p = "passed" <-> payload_issues p = [])
         /\ exists f n,
              let v := Validator.validate_data f n
                         (city_slice df (payload_city p)) in
              payload_issues p = Validator.issues v
              /\ payload_status p = Validator.status v.
Proof.
  intros Hf Hne.
  destruct (concrete_gather_run clock post df cities t_f)
    as (es & t' & Hg & _ & Hpay).
  exists es, t'. split.
  { apply (run_with_batch _ _ _ _ _ _ _ _ _ _ _ Hf Hne Hg). }
  intros p Hp. destruct (Hpay p Hp) as (c & tc & Hc & Hrec & ->).
  cbn [payload_for payload_city payload_metrics payload_status payload_issues].
  split; [exact Hc|]. split.
  { unfold has_records in Hrec. destruct (city_slice df c); [discriminate|discriminate]. }
  split; [reflexivity|].
  destruct (status_issues (clock tc) (clock (S tc)) (city_slice df c)) as [H1 H2].
  split; [exact H1|]. split; [exact H2|].
  exists (clock tc), (clock (S tc)). cbv zeta. split; reflexivity.
Qed.

Lemma posted_payload_invariants_witness :
  exists es t',
    Integrator.run_monitoring_cycle frozen_clock ["Tokyo"; "Oslo"; "London"]
      (ret three_city_batch) (Integrator.WeatherDataValidator frozen_clock)
      accepting_sink 0%nat
    = (FetchCalled :: [] ++ es, t', Return tt)
    /\ forall p, In (Post p) es ->
         In (payload_city p) ["Tokyo"; "Oslo"; "London"]
         /\ city_slice three_city_batch (payload_city p) <> []
         /\ payload_metrics p
            = Integrator._calculate_metrics three_city_batch (payload_city p)
         /\ (payload_status p = "failed" <-> payload_issues p <> [])
         /\ (payload_status p = "passed" <-> payload_issues p = [])
         /\ exists f n,
              let v := Validator.validate_data f n
                         (city_slice three_city_batch (payload_city p)) in
              payload_issues p = Validator.issues v
              /\ payload_status p = Validator.status v.
Proof.
  apply (posted_payload_invariants frozen_clock ["Tokyo"; "Oslo"; "London"]
           (ret three_city_batch) accepting_sink 0%nat [] 0%nat three_city_batch).
  - reflexivity.
  - discriminate.
Defined.








(** ** The extractor, further *)

Section ExtractorTrace.

Variable http_get : string -> result Extractor.json.
Variable WeatherData :
  string -> Extractor.json -> Extractor.json -> Extractor.json ->
  Extractor.json -> Extractor.json -> result WeatherRow.

Lemma make_api_request_trace c t :
  (forall e, http_get c = Raise e -> is_RequestException e = true) ->
  Extractor._make_api_request http_get c t
  = (HttpGet c :: match http_get c with
                  | Raise (Timeout _) => [Log (LogTimeoutFetching c)]
                  | Raise e => [Log (LogErrorFetching c e)]
                  | Return _ => []
                  end,
     t,
     Return (match http_get c with Return body => Some body | Raise _ => None end)).
Proof.
  intros Hc. unfold Extractor._make_api_request; unfold_M.
  destruct (http_get c) as [body|e]; [reflexivity|].
  rewrite (Hc e eq_refl). destruct e; reflexivity.
Qed.

Lemma parse_weather_data_trace c raw t :
  Extractor._parse_weather_data WeatherData c raw t
  = match Extractor.WeatherData_from WeatherData c raw with
    | Return parsed => ([], t, Return (Some parsed))
    | Raise e => ([Log (LogErrorParsing c e)], t, Return None)
    end.
Proof.
  unfold Extractor._parse_weather_data; unfold_M.
  destruct (Extractor.WeatherData_from WeatherData c raw); reflexivity.
Qed.

Lemma fetch_loop_trace todo :
  (forall c e, In c todo -> http_get c = Raise e -> is_RequestException e = true) ->
  forall weather_data t,
    Extractor.fetch_loop http_get WeatherData todo weather_data t
    = (flat_map (city_events http_get WeatherData) todo, t,
       Return (weather_data ++ flat_map (kept_row http_get WeatherData) todo)).
Proof.
  induction todo as [|c todo IH]; intros Hreq weather_data t.
  - cbn. now rewrite app_nil_r.
  - assert (Hc : forall e, http_get c = Raise e -> is_RequestException e = true)
      by (intros e; apply Hreq; left; reflexivity).
    assert (Hrest : forall c' e, In c' todo -> http_get c' = Raise e ->
                                 is_RequestException e = true)
      by (intros c' e Hin; apply Hreq; right; exact Hin).
    cbn [Extractor.fetch_loop flat_map]. unfold bind at 1.
    rewrite (make_api_request_trace c t Hc).
    unfold city_events at 1, kept_row at 1.
    destruct (http_get c) as [raw|e].
    + destruct (Extractor.truthy raw).
      * unfold bind at 1. rewrite parse_weather_data_trace.
        destruct (Extractor.WeatherData_from WeatherData c raw) as [parsed|e].
        -- rewrite (IH Hrest). cbn [app]. now rewrite <- app_assoc.
        -- rewrite (IH Hrest). reflexivity.
      * rewrite (IH Hrest). reflexivity.
    + rewrite (IH Hrest). destruct e; reflexivity.
Qed.

(** X19. [fetch_weather_data] makes exactly one request per configured
    city, in order, whether or not earlier ones failed, and never retries.
    Its log holds one line for each city whose request timed out, whose
    request failed otherwise, or whose payload did not parse; a falsy body
    is dropped without a line; and the warning that nothing was collected is
    logged exactly when the batch is empty. *)
Theorem fetch_weather_data_trace (cities : list string) (t : nat) :
  (forall c e, In c cities -> http_get c = Raise e -> is_RequestException e = true) ->
  let batch := flat_map (kept_row http_get WeatherData) cities in
  let es := flat_map (city_events http_get WeatherData) cities
            ++ match batch with
               | [] => [Log LogNoWeatherDataCollected]
               | _ => []
               end in
  Extractor.fetch_weather_data http_get WeatherData cities t = (es, t, Return batch)
  /\ requested_cities es = cities
  /\ (List.length batch <= List.length cities)%nat.
Proof.
  intros Hreq. cbv zeta. split; [|split].
  - unfold Extractor.fetch_weather_data, bind.
    rewrite (fetch_loop_trace cities Hreq [] t). cbn [app].
    destruct (flat_map (kept_row http_get WeatherData) cities).
    + reflexivity.
    + cbn. now rewrite app_nil_r.
  - unfold requested_cities. rewrite flat_map_app.
    replace (flat_map _ (match flat_map (kept_row http_get WeatherData) cities with
                        | [] => [Log LogNoWeatherDataCollected]
                        | _ => []
                        end)) with (@nil string)
      by (destruct (flat_map (kept_row http_get WeatherData) cities); reflexivity).
    rewrite app_nil_r. clear Hreq.
    induction cities as [|c cs IH]; [reflexivity|].
    cbn [flat_map]. rewrite flat_map_app, IH.
    unfold city_events. cbn [flat_map app]. f_equal.
    destruct (http_get c) as [raw|e].
    + destruct (Extractor.truthy raw); [|reflexivity].
      destruct (Extractor.WeatherData_from WeatherData c raw); reflexivity.
    + destruct e; reflexivity.
  - clear Hreq. induction cities as [|c cs IH]; [apply Nat.le_refl|].
    cbn [flat_map List.length]. rewrite length_app.
    assert (Hk : (List.length (kept_row http_get WeatherData c) <= 1)%nat).
    { unfold kept_row. destruct (http_get c) as [raw|e]; [|cbn; lia].
      destruct (Extractor.truthy raw); [|cbn; lia].
      destruct (Extractor.WeatherData_from WeatherData c raw); cbn; lia. }
    lia.
Qed.

(** X20. [validate_api_key] answers [False] without any request when no
    city is configured.  Otherwise it makes one request, for the first city
    only, and answers [True] exactly when that request gave a body other
    than the JSON value [null] (which Python decodes to [None], as a failed
    request is answered): any other body counts, also a falsy one that
    [fetch_weather_data] would drop. *)
Theorem validate_api_key_spec (cities : list string) (t : nat) :
  (forall c rest e, cities = c :: rest -> http_get c = Raise e ->
                    is_RequestException e = true) ->
  exists es,
    Extractor.validate_api_key http_get cities t
    = (es, t,
       Return (match cities with
               | [] => false
               | c :: _ => match http_get c with
                           | Return Extractor.JNull => false
                           | Return _ => true
                           | Raise _ => false
                           end
               end))
    /\ requested_cities es = firstn 1 cities.
Proof.
  intros Hreq. unfold Extractor.validate_api_key.
  destruct cities as [|c rest].
  - exists []. split; reflexivity.
  - unfold bind. rewrite make_api_request_trace
      by (intros e; apply (Hreq c rest e eq_refl)).
    exists (HttpGet c :: match http_get c with
                         | Raise (Timeout _) => [Log (LogTimeoutFetching c)]
                         | Raise e => [Log (LogErrorFetching c e)]
                         | Return _ => []
                         end).
    split; destruct (http_get c) as [raw|[m|m|cls m]]; try reflexivity;
      destruct raw; reflexivity.
Qed.

End ExtractorTrace.

Lemma fetch_weather_data_trace_witness :
  let batch := flat_map (kept_row sample_http_get sample_WeatherData)
                 ["London"; "Paris"; "Tokyo"] in
  let es := flat_map (city_events sample_http_get sample_WeatherData)
              ["London"; "Paris"; "Tokyo"]
            ++ match batch with
               | [] => [Log LogNoWeatherDataCollected]
               | _ => []
               end in
  Extractor.fetch_weather_data sample_http_get sample_WeatherData
    ["London"; "Paris"; "Tokyo"] 0%nat = (es, 0%nat, Return batch)
  /\ requested_cities es = ["London"; "Paris"; "Tokyo"]
  /\ (List.length batch <= 3)%nat.
Proof.
  apply (fetch_weather_data_trace sample_http_get sample_WeatherData
           ["London"; "Paris"; "Tokyo"] 0%nat).
  intros c e _. unfold sample_http_get.
  destruct (String.eqb c "London"); [discriminate|].
  destruct (String.eqb c "Paris"); intros H; inversion H; reflexivity.
Defined.

Lemma validate_api_key_spec_witness :
  exists es,
    Extractor.validate_api_key empty_body_http_get ["London"; "Paris"] 0%nat
    = (es, 0%nat, Return true)
    /\ requested_cities es = ["London"].
Proof.
  apply (validate_api_key_spec empty_body_http_get ["London"; "Paris"] 0%nat).
  intros c rest e _ H. discriminate H.
Defined.

Lemma WeatherData_from_missing_field c raw :
  match raw with
  | Extractor.JObject fields =>
      Extractor.dict_get fields "main" = None
      \/ Extractor.dict_get fields "wind" = None
      \/ Extractor.dict_get fields "weather" = None
  | _ => True
  end ->
  exists e, forall WeatherData, Extractor.WeatherData_from WeatherData c raw = Raise e.
Proof.
  intros H. unfold Extractor.WeatherData_from.
  repeat
    match goal with
    | |- context [rbind ?x _] =>
        lazymatch x with
        | Extractor.getitem _ _ => idtac
        | Extractor.getitem0 _ => idtac
        end;
        let E := fresh "E" in
        destruct x as [?|?] eqn:E; cbn [rbind];
        [|eexists; intros; reflexivity]
    end.
  exfalso. destruct raw as [| | | | |fields]; try discriminate.
  unfold Extractor.getitem in E, E3, E5.
  destruct H as [H|[H|H]]; rewrite H in *; discriminate.
Qed.

(** X21. A response body that is not a JSON object, or that lacks one of
    the keys "main", "wind" and "weather", never reaches the constructor of
    [WeatherData]: [_parse_weather_data] returns [None] without raising and
    logs the one exception of the failed lookup, the same whatever the
    constructor would do. *)
Theorem parse_missing_field (c : string) (raw : Extractor.json) :
  match raw with
  | Extractor.JObject fields =>
      Extractor.dict_get fields "main" = None
      \/ Extractor.dict_get fields "wind" = None
      \/ Extractor.dict_get fields "weather" = None
  | _ => True
  end ->
  exists e,
    forall WeatherData t,
      Extractor._parse_weather_data WeatherData c raw t
      = ([Log (LogErrorParsing c e)], t, Return None).
Proof.
  intros H. destruct (WeatherData_from_missing_field c raw H) as (e & He).
  exists e. intros WeatherData t.
  rewrite parse_weather_data_trace, He. reflexivity.
Qed.

Lemma parse_missing_field_witness :
  exists e,
    forall WeatherData t,
      Extractor._parse_weather_data WeatherData "London"
        (Extractor.JObject [("main", Extractor.JObject [("temp", Extractor.JNumber 20)])])
        t
      = ([Log (LogErrorParsing "London" e)], t, Return None).
Proof.
  apply (parse_missing_field "London"
           (Extractor.JObject
              [("main", Extractor.JObject [("temp", Extractor.JNumber 20)])])).
  right. left. reflexivity.
Defined.

(** ** The extractor and the validator together *)

Lemma checking_WeatherData_enforces_model : enforces_model checking_WeatherData.
Proof.
  intros c temp hum pres speed cond r. unfold checking_WeatherData.
  destruct temp as [| |t| | |]; try discriminate.
  destruct hum as [| |h| | |]; try discriminate.
  destruct pres as [| |p| | |]; try discriminate.
  destruct speed as [| |w| | |]; try discriminate.
  destruct cond as [| | |s| |]; try discriminate.
  destruct (_ && _) eqn:Hc; [|discriminate]. intros [= <-].
  repeat (apply andb_true_iff in Hc; destruct Hc as [Hc ?]).
  split; [reflexivity|]. unfold WeatherData_fields_valid. cbn.
  repeat split; try discriminate; eexists; (split; [reflexivity|]);
    repeat split;
    first [now apply negb_Qle_bool_iff | now apply Qle_bool_iff].
Qed.

Lemma WeatherData_from_inv WeatherData c raw r :
  Extractor.WeatherData_from WeatherData c raw = Return r ->
  exists temp hum pres speed cond,
    WeatherData c temp hum pres speed cond = Return r.
Proof.
  unfold Extractor.WeatherData_from.
  repeat
    match goal with
    | |- context [rbind ?x _] =>
        lazymatch x with
        | Extractor.getitem _ _ => idtac
        | Extractor.getitem0 _ => idtac
        end;
        destruct x as [?|?]; cbn [rbind]; [|discriminate]
    end.
  intros H. eauto 6.
Qed.

Lemma in_kept_row http_get WeatherData c r :
  In r (kept_row http_get WeatherData c) ->
  exists temp hum pres speed cond,
    WeatherData c temp hum pres speed cond = Return r.
Proof.
  unfold kept_row. destruct (http_get c) as [raw|e]; [|intros []].
  destruct (Extractor.truthy raw); [|intros []].
  destruct (Extractor.WeatherData_from WeatherData c raw) as [parsed|e] eqn:Hp;
    [|intros []].
  intros [<-|[]]. eapply WeatherData_from_inv, Hp.
Qed.

Lemma kept_row_length http_get WeatherData c :
  (List.length (kept_row http_get WeatherData c) <= 1)%nat.
Proof.
  unfold kept_row. destruct (http_get c) as [raw|e]; [|cbn; lia].
  destruct (Extractor.truthy raw); [|cbn; lia].
  destruct (Extractor.WeatherData_from WeatherData c raw); cbn; lia.
Qed.

Lemma city_slice_app df1 df2 c :
  city_slice (df1 ++ df2) c = city_slice df1 c ++ city_slice df2 c.
Proof. unfold city_slice. apply filter_app. Qed.

Lemma city_slice_other df c :
  (forall r, In r df -> city r <> c) -> city_slice df c = [].
Proof.
  intros H. unfold city_slice. induction df as [|r df IH]; [reflexivity|].
  cbn [filter]. destruct (String.eqb_spec (city r) c) as [E|E].
  - exfalso. apply (H r); [left; reflexivity|exact E].
  - apply IH. intros r' Hr'. apply H. right. exact Hr'.
Qed.

Lemma city_slice_length df c : (List.length (city_slice df c) <= List.length df)%nat.
Proof.
  unfold city_slice. induction df as [|r df IH]; [apply Nat.le_refl|].
  cbn [filter List.length]. destruct (String.eqb _ _); cbn [List.length]; lia.
Qed.

(** With distinct monitored cities the batch has at most one row per city. *)
Lemma fetched_slice_length http_get WeatherData cities c :
  enforces_model WeatherData ->
  NoDup cities ->
  (List.length (city_slice (flat_map (kept_row http_get WeatherData) cities) c)
   <= 1)%nat.
Proof.
  intros Hmodel Hnd.
  assert (Hcity : forall a r, In r (kept_row http_get WeatherData a) -> city r = a).
  { intros a r Hr. apply in_kept_row in Hr.
    destruct Hr as (? & ? & ? & ? & ? & Hr). apply (Hmodel _ _ _ _ _ _ _ Hr). }
  induction Hnd as [|a l Hnotin Hnd IH]; [cbn; lia|].
  cbn [flat_map]. rewrite city_slice_app, length_app.
  destruct (String.eqb_spec a c) as [->|Hne].
  - rewrite (city_slice_other (flat_map _ l) c).
    + pose proof (city_slice_length (kept_row http_get WeatherData c) c).
      pose proof (kept_row_length http_get WeatherData c). cbn [List.length]. lia.
    + intros r Hr Hc. apply in_flat_map in Hr. destruct Hr as (b & Hb & Hr).
      apply Hcity in Hr. congruence.
  - rewrite (city_slice_other (kept_row http_get WeatherData a) c).
    + exact IH.
    + intros r Hr Hc. apply Hcity in Hr. congruence.
Qed.

Lemma in_issues_pressure_change f n df c d :
  In (Validator.SuspiciousPressureChange c d)
     (Validator.issues (Validator.validate_data f n df)) ->
  In (Validator.SuspiciousPressureChange c d) (Validator.validate_weather_patterns df).
Proof.
  unfold Validator.validate_data; cbn [Validator.issues].
  rewrite !in_app_iff. intros [H|[H|[H|H]]]; [| | |exact H]; exfalso.
  - apply in_failed_expectations in H. destruct H as (? & _ & _ & H). discriminate.
  - unfold Validator.check_data_freshness, Validator.check_data_freshness_with in H.
    apply in_flat_map in H. destruct H as (? & _ & H).
    apply freshness_of_city in H. destruct H as (? & _ & _ & H). discriminate.
  - apply in_detect_anomalies in H. destruct H as (? & ? & _ & H).
    apply in_detect_anomalies_column in H.
    destruct H as (? & ? & _ & _ & _ & H). discriminate.
Qed.

(** On a frame of at most one row the verdict holds neither an anomaly nor
    a pressure-change issue. *)
Lemma single_row_verdict f n df :
  (List.length df <= 1)%nat ->
  anomalies_of (Validator.issues (Validator.validate_data f n df)) = []
  /\ forall c d,
       ~ In (Validator.SuspiciousPressureChange c d)
            (Validator.issues (Validator.validate_data f n df)).
Proof.
  intros Hlen. split.
  - rewrite anomalies_of_validate_data. apply detect_anomalies_nil_of_scores.
    intros get r Hr. apply small_frame_score_not_flagged; [lia|exact Hr].
  - intros c d Hin. apply in_issues_pressure_change in Hin.
    apply in_validate_weather_patterns in Hin.
    destruct Hin as (c' & _ & [(H & _)|(d' & _ & Hlt & _)]); [discriminate|].
    apply Nat.ltb_lt in Hlt. pose proof (city_slice_length df c'). lia.
Qed.

(** X22. When the monitored cities are pairwise distinct and the
    constructor of [WeatherData] stamps each record with the city it was
    requested for, the batch of a cycle has at most one row per city, and the
    verdict posted for a city then never holds an anomaly issue or a
    pressure-change issue: in the assembled pipeline these two checks cannot
    fire. *)
Theorem assembled_cycle_never_reports_anomalies
    (http_get : string -> result Extractor.json)
    (WeatherData : string -> Extractor.json -> Extractor.json -> Extractor.json ->
                   Extractor.json -> Extractor.json -> result WeatherRow)
    (cities : list string) (clock : nat -> Z) (post : Payload -> result Z)
    (t : nat) :
  NoDup cities ->
  enforces_model WeatherData ->
  (forall c e, In c cities -> http_get c = Raise e -> is_RequestException e = true) ->
  exists es_f df es t',
    Extractor.fetch_weather_data http_get WeatherData cities t = (es_f, t, Return df)
    /\ Integrator.run_monitoring_cycle clock cities
         (Extractor.fetch_weather_data http_get WeatherData cities)
         (Integrator.WeatherDataValidator clock) post t
       = (FetchCalled :: es_f ++ es, t', Return tt)
    /\ (forall c, (List.length (city_slice df c) <= 1)%nat)
    /\ forall p, In (Post p) es ->
         anomalies_of (payload_issues p) = []
         /\ forall c d,
              ~ In (Validator.SuspiciousPressureChange c d) (payload_issues p).
Proof.
  intros Hnd Hmodel Hreq.
  destruct (fetch_weather_data_run http_get WeatherData cities t Hreq) as (es_f & Hf).
  set (df := flat_map (kept_row http_get WeatherData) cities) in *.
  assert (Hslice : forall c, (List.length (city_slice df c) <= 1)%nat)
    by (intros c; apply fetched_slice_length; assumption).
  destruct df as [|r0 df0] eqn:Hdf.
  - exists es_f, [], [Log LogNoWeatherDataFetched], t.
    split; [exact Hf|]. split.
    { unfold Integrator.run_monitoring_cycle; unfold_M. rewrite Hf. reflexivity. }
    split; [exact Hslice|]. intros p [H|[]]. discriminate.
  - destruct (concrete_gather_run clock post (r0 :: df0) cities t)
      as (es & t' & Hg & _ & Hpay).
    exists es_f, (r0 :: df0), es, t'.
    split; [exact Hf|]. split.
    { apply (run_with_batch _ _ _ _ _ _ _ _ _ _ _ Hf); [discriminate|exact Hg]. }
    split; [exact Hslice|].
    intros p Hp. destruct (Hpay p Hp) as (c & tc & _ & _ & ->).
    cbn [payload_for payload_issues]. apply single_row_verdict, Hslice.
Qed.

Lemma assembled_cycle_never_reports_anomalies_witness :
  exists es_f df es t',
    Extractor.fetch_weather_data answering_http_get checking_WeatherData
      ["London"; "Tokyo"] 0%nat = (es_f, 0%nat, Return df)
    /\ Integrator.run_monitoring_cycle frozen_clock ["London"; "Tokyo"]
         (Extractor.fetch_weather_data answering_http_get checking_WeatherData
            ["London"; "Tokyo"])
         (Integrator.WeatherDataValidator frozen_clock) accepting_sink 0%nat
       = (FetchCalled :: es_f ++ es, t', Return tt)
    /\ (forall c, (List.length (city_slice df c) <= 1)%nat)
    /\ forall p, In (Post p) es ->
         anomalies_of (payload_issues p) = []
         /\ forall c d,
              ~ In (Validator.SuspiciousPressureChange c d) (payload_issues p).
Proof.
  apply (assembled_cycle_never_reports_anomalies answering_http_get
           checking_WeatherData ["London"; "Tokyo"] frozen_clock accepting_sink
           0%nat).
  - repeat constructor; cbn; intuition discriminate.
  - exact checking_WeatherData_enforces_model.
  - intros c e _ H. discriminate H.
Defined.

Lemma valid_row_not_null r column null :
  WeatherData_fields_valid r ->
  cell_isnull column = Some null ->
  null r = false.
Proof.
  intros (Hts & Hcond & (t & Ht & _) & (h & Hh & _) & (p & Hp & _) & (w & Hw & _)).
  unfold cell_isnull, numeric_column.
  repeat match goal with
         | |- context [if ?b then _ else _] => destruct b
         end;
    cbn [option_map]; intros [= <-];
    rewrite ?Ht, ?Hh, ?Hp, ?Hw; try reflexivity.
  - destruct (timestamp r); [reflexivity|congruence].
  - destruct (weather_condition r); [reflexivity|congruence].
Qed.

Lemma valid_row_complete r :
  WeatherData_fields_valid r -> row_missing_cells r = 0%nat.
Proof.
  intros (Hts & Hcond & (t & Ht & _) & (h & Hh & _) & (p & Hp & _) & (w & Hw & _)).
  unfold row_missing_cells. rewrite Ht, Hh, Hp, Hw.
  destruct (timestamp r); [|congruence].
  destruct (weather_condition r); [|congruence]. reflexivity.
Qed.

(** X23. The records [fetch_weather_data] returns come out of the
    constructor of [WeatherData]; when the constructor enforces the field
    declarations of the model (every field required, humidity in [0, 100]),
    validating the rows of any city of the batch never reports a missing
    value nor a humidity out of range, and the completeness metric of every
    city with records is 100. *)
Theorem extracted_batch_is_complete
    (http_get : string -> result Extractor.json)
    (WeatherData : string -> Extractor.json -> Extractor.json -> Extractor.json ->
                   Extractor.json -> Extractor.json -> result WeatherRow)
    (cities : list string) (t : nat) :
  enforces_model WeatherData ->
  (forall c e, In c cities -> http_get c = Raise e -> is_RequestException e = true) ->
  exists es df,
    Extractor.fetch_weather_data http_get WeatherData cities t = (es, t, Return df)
    /\ (forall r, In r df -> In (city r) cities /\ WeatherData_fields_valid r)
    /\ forall c f n,
         let v := Validator.validate_data f n (city_slice df c) in
         (forall column,
            ~ In (Validator.DataQualityCheckFailed
                    (Validator.expect_column_values_to_not_be_null column))
                 (Validator.issues v))
         /\ ~ In (Validator.DataQualityCheckFailed
                    (Validator.expect_column_values_to_be_between "humidity" 0 100))
                 (Validator.issues v)
         /\ (city_slice df c <> [] ->
             exists q,
               metrics_get (Integrator._calculate_metrics df c) "data_completeness"
               = Some (Some q)
               /\ q == 100).
Proof.
  intros Hmodel Hreq.
  destruct (fetch_weather_data_run http_get WeatherData cities t Hreq) as (es & Hf).
  exists es, (flat_map (kept_row http_get WeatherData) cities).
  split; [exact Hf|].
  assert (Hrows : forall r, In r (flat_map (kept_row http_get WeatherData) cities) ->
                            In (city r) cities /\ WeatherData_fields_valid r).
  { intros r Hr. apply in_flat_map in Hr. destruct Hr as (a & Ha & Hr).
    apply in_kept_row in Hr. destruct Hr as (? & ? & ? & ? & ? & Hr).
    destruct (Hmodel _ _ _ _ _ _ _ Hr) as [-> Hv]. auto. }
  split; [exact Hrows|].
  set (df := flat_map (kept_row http_get WeatherData) cities) in *.
  intros c f n. cbv zeta.
  assert (Hvalid : forall r, In r (city_slice df c) -> WeatherData_fields_valid r).
  { intros r Hr. apply in_city_slice in Hr. apply Hrows. tauto. }
  split; [|split].
  - intros column Hin. apply in_issues_quality in Hin. destruct Hin as [He Hs].
    cbn [Validator.expectation_success] in Hs.
    destruct (cell_isnull column) as [null|] eqn:Hnull.
    + apply negb_false_iff, existsb_exists in Hs. destruct Hs as (r & Hr & Hn).
      rewrite (valid_row_not_null r column null (Hvalid r Hr) Hnull) in Hn.
      discriminate.
    + cbv in He.
      repeat (destruct He as [He|He];
              [try discriminate He; injection He as <-; discriminate Hnull|]).
      exact He.
  - intros Hin. apply in_issues_quality in Hin. destruct Hin as [_ Hs].
    cbn [Validator.expectation_success] in Hs.
    change (numeric_column "humidity") with (Some humidity) in Hs.
    apply between_fails_iff in Hs. destruct Hs as (r & h & Hr & Hh & Hout).
    destruct (Hvalid r Hr) as (_ & _ & _ & (h' & Hh' & H0 & H100) & _).
    rewrite Hh in Hh'. injection Hh' as <-.
    destruct Hout as [H|H]; [apply (Qlt_not_le _ _ H H0)|apply (Qlt_not_le _ _ H H100)].
  - intros Hs. exists (Integrator.data_completeness (city_slice df c)). split.
    + unfold Integrator._calculate_metrics.
      destruct (city_slice df c); [congruence|]. reflexivity.
    + unfold Integrator.data_completeness.
      rewrite null_count_missing_cells. change (List.length df_columns) with 7%nat.
      destruct (completeness_value (missing_cells (city_slice df c))
                  (List.length (city_slice df c))) as (_ & _ & H3).
      * destruct (city_slice df c); [congruence|]. cbn. lia.
      * apply missing_cells_bound.
      * apply H3. apply missing_cells_zero. intros r Hr.
        apply valid_row_complete, Hvalid, Hr.
Qed.

Lemma extracted_batch_is_complete_witness :
  exists es df,
    Extractor.fetch_weather_data answering_http_get checking_WeatherData
      ["London"; "Tokyo"] 0%nat = (es, 0%nat, Return df)
    /\ (forall r, In r df ->
          In (city r) ["London"; "Tokyo"] /\ WeatherData_fields_valid r)
    /\ forall c f n,
         let v := Validator.validate_data f n (city_slice df c) in
         (forall column,
            ~ In (Validator.DataQualityCheckFailed
                    (Validator.expect_column_values_to_not_be_null column))
                 (Validator.issues v))
         /\ ~ In (Validator.DataQualityCheckFailed
                    (Validator.expect_column_values_to_be_between "humidity" 0 100))
                 (Validator.issues v)
         /\ (city_slice df c <> [] ->
             exists q,
               metrics_get (Integrator._calculate_metrics df c) "data_completeness"
               = Some (Some q)
               /\ q == 100).
Proof.
  apply (extracted_batch_is_complete answering_http_get checking_WeatherData
           ["London"; "Tokyo"] 0%nat).
  - exact checking_WeatherData_enforces_model.
  - intros c e _ H. discriminate H.
Defined.

(** ** The dispatch log *)

(** Every event of [gather] comes from one run of one task, all of whose
    events are among the events of [gather]. *)
Lemma gather_origin (f : string -> M unit) :
  (forall c t, exists es t', f c t = (es, t', Return tt)) ->
  forall cs t e,
    In e (events_of (Integrator.gather (map f cs) t)) ->
    exists c tc,
      In c cs /\ In e (events_of (f c tc))
      /\ incl (events_of (f c tc)) (events_of (Integrator.gather (map f cs) t)).
Proof.
  intros Hf cs. induction cs as [|c cs IH]; intros t e; cbn [map Integrator.gather].
  - intros [].
  - destruct (Hf c t) as (es & t1 & Hc). rewrite Hc.
    destruct (Integrator.gather (map f cs) t1) as [[es' t2] r'] eqn:Hg.
    unfold events_of at 1 3. cbn [fst]. intros Hin.
    apply in_app_or in Hin. destruct Hin as [Hin|Hin].
    + exists c, t. rewrite Hc. unfold events_of. cbn [fst].
      split; [left; reflexivity|]. split; [exact Hin|]. apply incl_appl, incl_refl.
    + destruct (IH t1 e) as (c' & tc & Hc' & Hin' & Hincl).
      { rewrite Hg. exact Hin. }
      exists c', tc. split; [right; exact Hc'|]. split; [exact Hin'|].
      rewrite Hg in Hincl. unfold events_of at 2 in Hincl. cbn [fst] in Hincl.
      apply incl_appr, Hincl.
Qed.

(** X24. The log of a cycle tells the truth about the dispatches: with the
    validator of the repository, a city is logged as recorded exactly when
    a payload posted for it was answered with status 200; it is logged as
    failed with a status exactly when a payload was answered with that
    status, other than 200; and an exception of the client is logged exactly
    when posting a payload raised it.  Nothing is retried. *)
Theorem dispatch_log_is_truthful
    (clock : nat -> Z) (cities : list string) (fetch : M DataFrame)
    (post : Payload -> result Z)
    (t : nat) (es_f : list event) (t_f : nat) (df : DataFrame) :
  fetch t = (es_f, t_f, Return df) ->
  df <> [] ->
  exists es t',
    Integrator.run_monitoring_cycle clock cities fetch
      (Integrator.WeatherDataValidator clock) post t
    = (FetchCalled :: es_f ++ es, t', Return tt)
    /\ (forall c,
          In (Log (LogRecorded c)) es
          <-> exists p, In (Post p) es /\ payload_city p = c
                        /\ post p = Return 200%Z)
    /\ (forall c s,
          In (Log (LogFailedToSend c s)) es
          <-> exists p, In (Post p) es /\ payload_city p = c
                        /\ post p = Return s /\ s <> 200%Z)
    /\ (forall c e,
          In (Log (LogErrorSending c e)) es
          <-> exists p, In (Post p) es /\ payload_city p = c
                        /\ post p = Raise e).
Proof.
  intros Hf Hne.
  set (process := Integrator.process_single_city clock
                    (Integrator.WeatherDataValidator clock) post df).
  assert (Hnever : forall c t0, exists es t', process c t0 = (es, t', Return tt))
    by (intros c t0; apply process_never_raises).
  destruct (gather_tasks process Hnever cities t_f) as (es & t' & Hg & _).
  exists es, t'. split.
  { apply (run_with_batch _ _ _ _ _ _ _ _ _ _ _ Hf Hne Hg). }
  assert (Horigin : forall e, In e es ->
            exists c tc,
              In e (events_of (process c tc)) /\ incl (events_of (process c tc)) es).
  { intros e He. destruct (gather_origin process Hnever cities t_f e) as
      (c & tc & _ & Hin & Hincl).
    - rewrite Hg. exact He.
    - rewrite Hg in Hincl. eauto. }
  assert (Hshape : forall c tc e, In e (events_of (process c tc)) ->
            e = Log (LogNoDataAvailable c)
            \/ exists p, payload_city p = c
                 /\ events_of (process c tc) = [Post p; Log (dispatch_log post c p)]).
  { intros c tc e. unfold process. rewrite process_concrete_run.
    destruct (has_records df c); cbv zeta; unfold events_of; cbn [fst].
    - intros _. right. eexists. split; [|reflexivity]. reflexivity.
    - intros [<-|[]]. left. reflexivity. }
  assert (Hlog : forall l,
            (forall c', l <> LogNoDataAvailable c') ->
            In (Log l) es
            <-> exists p, In (Post p) es /\ dispatch_log post (payload_city p) p = l).
  { intros l Hl. split.
    - intros Hin. destruct (Horigin _ Hin) as (c' & tc & Hin' & Hincl).
      destruct (Hshape _ _ _ Hin') as [H|(p & Hp & Hev)].
      + injection H as ->. exfalso. apply (Hl c'). reflexivity.
      + rewrite Hev in Hin', Hincl. exists p. split.
        * apply Hincl. left. reflexivity.
        * destruct Hin' as [H|[H|[]]]; [discriminate|].
          injection H as <-. now rewrite Hp.
    - intros (p & Hin & <-). destruct (Horigin _ Hin) as (c' & tc & Hin' & Hincl).
      destruct (Hshape _ _ _ Hin') as [H|(p' & Hp & Hev)]; [discriminate|].
      rewrite Hev in Hin', Hincl.
      destruct Hin' as [H|[H|[]]]; [|discriminate]. injection H as ->.
      rewrite Hp. apply Hincl. right. left. reflexivity. }
  split; [|split].
  - intros c. rewrite Hlog by discriminate. split.
    + intros (p & Hin & Hd). exists p. split; [exact Hin|].
      unfold dispatch_log in Hd. destruct (post p) as [s|e]; [|discriminate].
      destruct (Z.eqb s 200) eqn:E; [|discriminate].
      apply Z.eqb_eq in E. cbn in Hd. injection Hd as Hc. subst s. auto.
    + intros (p & Hin & <- & Hp). exists p. split; [exact Hin|].
      unfold dispatch_log. rewrite Hp. reflexivity.
  - intros c s. rewrite Hlog by discriminate. split.
    + intros (p & Hin & Hd). exists p. split; [exact Hin|].
      unfold dispatch_log in Hd. destruct (post p) as [s'|e]; [|discriminate].
      destruct (Z.eqb s' 200) eqn:E; [discriminate|].
      apply Z.eqb_neq in E. cbn in Hd. injection Hd as Hc Hs. subst s'. auto.
    + intros (p & Hin & <- & Hp & Hs). exists p. split; [exact Hin|].
      unfold dispatch_log. rewrite Hp.
      apply Z.eqb_neq in Hs. rewrite Hs. reflexivity.
  - intros c e. rewrite Hlog by discriminate. split.
    + intros (p & Hin & Hd). exists p. split; [exact Hin|].
      unfold dispatch_log in Hd. destruct (post p) as [s'|e'].
      * destruct (negb _); discriminate.
      * injection Hd as Hc He. subst e'. auto.
    + intros (p & Hin & <- & Hp). exists p. split; [exact Hin|].
      unfold dispatch_log. rewrite Hp. reflexivity.
Qed.

Lemma dispatch_log_is_truthful_witness :
  exists es t',
    Integrator.run_monitoring_cycle frozen_clock ["Tokyo"; "Oslo"; "London"]
      (ret three_city_batch) (Integrator.WeatherDataValidator frozen_clock)
      (failing_sink_for "Tokyo") 0%nat
    = (FetchCalled :: [] ++ es, t', Return tt)
    /\ (forall c,
          In (Log (LogRecorded c)) es
          <-> exists p, In (Post p) es /\ payload_city p = c
                        /\ failing_sink_for "Tokyo" p = Return 200%Z)
    /\ (forall c s,
          In (Log (LogFailedToSend c s)) es
          <-> exists p, In (Post p) es /\ payload_city p = c
                        /\ failing_sink_for "Tokyo" p = Return s /\ s <> 200%Z)
    /\ (forall c e,
          In (Log (LogErrorSending c e)) es
          <-> exists p, In (Post p) es /\ payload_city p = c
                        /\ failing_sink_for "Tokyo" p = Raise e).
Proof.
  apply (dispatch_log_is_truthful frozen_clock ["Tokyo"; "Oslo"; "London"]
           (ret three_city_batch) (failing_sink_for "Tokyo") 0%nat [] 0%nat
           three_city_batch).
  - reflexivity.
  - discriminate.
Defined.

(** ** The entry point *)

Lemma split_cons sep s : exists piece pieces, Main.split sep s = piece :: pieces.
Proof.
  destruct s as [|ch rest]; cbn [Main.split]; [eauto|].
  destruct (Ascii.eqb ch sep); [eauto|].
  destruct (Main.split sep rest); eauto.
Qed.

(** X25. [split] on the comma never gives an empty list (the empty string
    gives one empty city name), no piece holds a comma, and joining the
    pieces with commas gives the text back. *)
Theorem split_comma_round_trip (s : string) :
  Main.split Main.comma s <> []
  /\ String.concat "," (Main.split Main.comma s) = s
  /\ forall piece ch,
       In piece (Main.split Main.comma s) ->
       In ch (list_ascii_of_string piece) -> ch <> Main.comma.
Proof.
  split; [|split].
  - destruct (split_cons Main.comma s) as (p & ps & ->). discriminate.
  - induction s as [|ch rest IH]; [reflexivity|].
    cbn [Main.split]. destruct (Ascii.eqb_spec ch Main.comma) as [->|Hne].
    + destruct (split_cons Main.comma rest) as (p & ps & Hs).
      rewrite Hs in *. cbn [String.concat]. cbn [String.concat] in IH.
      rewrite IH. reflexivity.
    + destruct (split_cons Main.comma rest) as (p & ps & Hs).
      rewrite Hs in *. cbn [String.concat] in *.
      destruct ps as [|q ps]; cbn [String.append]; now rewrite <- IH.
  - induction s as [|ch rest IH]; intros piece c.
    + cbn. intros [<-|[]] [].
    + cbn [Main.split]. destruct (Ascii.eqb_spec ch Main.comma) as [->|Hne].
      * intros [<-|Hin]; [intros []|]. apply IH, Hin.
      * destruct (split_cons Main.comma rest) as (p & ps & Hs).
        rewrite Hs in *. intros [<-|Hin].
        -- cbn [list_ascii_of_string]. intros [<-|Hc]; [exact Hne|].
           apply (IH p); [left; reflexivity|exact Hc].
        -- apply IH. right. exact Hin.
Qed.

Section MainFacts.

Variable getenv : string -> option string.
Variable python_int : string -> result Z.
Variable clock : nat -> Z.
Variable http_get_at : string -> nat -> string -> result Extractor.json.
Variable WeatherData :
  string -> Extractor.json -> Extractor.json -> Extractor.json ->
  Extractor.json -> Extractor.json -> result WeatherRow.
Variable post_at : string -> nat -> Payload -> result Z.

(** X26. Without an API key in the environment (unset or empty), [main]
    raises before it monitors anything: no request is made and nothing is
    posted.  The exception is the [ValueError] about the key, unless the
    interval does not read as an integer, whose error comes first. *)
Theorem main_requires_api_key (n t : nat) :
  getenv "OPENWEATHER_API_KEY" = None
  \/ getenv "OPENWEATHER_API_KEY" = Some "" ->
  exists e,
    Main.main getenv python_int clock http_get_at WeatherData post_at n t
    = ([], t, Raise e)
    /\ (forall interval,
          python_int (Main.getenv_or getenv "MONITORING_INTERVAL_SECONDS" "300")
          = Return interval ->
          e = PyException "ValueError"
                "OpenWeather API key not found in environment variables")
    /\ (forall e',
          python_int (Main.getenv_or getenv "MONITORING_INTERVAL_SECONDS" "300")
          = Raise e' -> e = e').
Proof.
  intros Hkey. unfold Main.main. cbv zeta.
  destruct (python_int _) as [interval|e'].
  - eexists. split; [destruct Hkey as [-> | ->]; reflexivity|].
    split; [reflexivity|discriminate].
  - exists e'. split; [reflexivity|]. split; [discriminate|].
    now intros ? [= <-].
Qed.


End MainFacts.

Lemma main_requires_api_key_witness :
  exists e,
    Main.main env_without_key int_300 frozen_clock (fun _ _ => sample_http_get)
      sample_WeatherData (fun _ _ => accepting_sink) 5%nat 0%nat
    = ([], 0%nat, Raise e)
    /\ (forall interval,
          int_300 (Main.getenv_or env_without_key "MONITORING_INTERVAL_SECONDS" "300")
          = Return interval ->
          e = PyException "ValueError"
                "OpenWeather API key not found in environment variables")
    /\ (forall e',
          int_300 (Main.getenv_or env_without_key "MONITORING_INTERVAL_SECONDS" "300")
          = Raise e' -> e = e').
Proof.
  apply (main_requires_api_key env_without_key int_300 frozen_clock
           (fun _ _ => sample_http_get) sample_WeatherData
           (fun _ _ => accepting_sink) 5%nat 0%nat).
  left. reflexivity.
Defined.

